(** * NLP_Phenotyper: normalisation, HER2 reconciliation, extraction and
      patient aggregation

    A shallow embedding of [phenotyper/normalize.py], [phenotyper/schema.py],
    [phenotyper/evidence.py], [phenotyper/extract.py] and
    [phenotyper/aggregate.py], followed by the properties proved about them.

    Conventions of the embedding.
    - A Python [str] is a [string]; a character is a code point below 256
      (Rocq's [ascii]), classified as CPython classifies the Latin-1 range.
    - A value of type [Any] stored in a note row or an evidence attribute is a
      [pyval]: [None], a [str], an [int] or a [float].
    - A [dict] with string keys is a [gmap string pyval]; [d.get(k)] is [get].
    - The external collaborators are parameters: the date parser
      ([dateutil.parser.parse]) and the recogniser pipeline ([build_nlp]). *)

From Stdlib Require Import ZArith Ascii String List Bool Lia DecimalString.
From Stdlib Require Import Sorting.Sorted Sorting.Permutation.
From stdpp Require Import base gmap strings list fin_maps.

Local Open Scope string_scope.
Local Open Scope list_scope.

(** ** Python strings *)

Module Py.

Definition code (c : ascii) : nat := nat_of_ascii c.

Definition between (lo hi n : nat) : bool := (lo <=? n)%nat && (n <=? hi)%nat.

(** [str.isspace], the class stripped by [str.strip()] and matched by [\s]. *)
Definition isspace (c : ascii) : bool :=
  let n := code c in
  between 9 13 n || between 28 32 n || (n =? 133)%nat || (n =? 160)%nat.

(** [\d]: decimal digits. *)
Definition isdigit (c : ascii) : bool := between 48 57 (code c).

(** [\w]: alphanumerics and the underscore. *)
Definition isword (c : ascii) : bool :=
  let n := code c in
  between 48 57 n || between 65 90 n || between 97 122 n || (n =? 95)%nat
  || (n =? 170)%nat || (n =? 178)%nat || (n =? 179)%nat || (n =? 181)%nat
  || (n =? 185)%nat || (n =? 186)%nat || between 188 190 n
  || between 192 214 n || between 216 246 n || between 248 255 n.

Definition lower_char (c : ascii) : ascii :=
  let n := code c in
  if between 65 90 n || (between 192 222 n && negb (n =? 215)%nat)
  then ascii_of_nat (n + 32) else c.

(** [str.upper] on one character; the program applies it to ASCII letters
    only (the groups of the stage pattern). *)
Definition upper_char (c : ascii) : ascii :=
  let n := code c in
  if between 97 122 n then ascii_of_nat (n - 32) else c.

Fixpoint map (f : ascii -> ascii) (s : string) : string :=
  match s with
  | EmptyString => EmptyString
  | String c s' => String (f c) (map f s')
  end.

Definition lower : string -> string := map lower_char.
Definition upper : string -> string := map upper_char.

Fixpoint lstrip (s : string) : string :=
  match s with
  | EmptyString => EmptyString
  | String c s' => if isspace c then lstrip s' else s
  end.

(** Drops the trailing white space: a character is kept when something
    is kept after it or when it is not white space. *)
Fixpoint rstrip (s : string) : string :=
  match s with
  | EmptyString => EmptyString
  | String c s' =>
      match rstrip s' with
      | EmptyString => if isspace c then EmptyString else String c EmptyString
      | r => String c r
      end
  end.

Definition strip (s : string) : string := rstrip (lstrip s).

(** [s.startswith(p)] *)
Fixpoint startswith (p s : string) : bool :=
  match p with
  | EmptyString => true
  | String a p' =>
      match s with
      | EmptyString => false
      | String b s' => Ascii.eqb a b && startswith p' s'
      end
  end.

(** [p in s] *)
Fixpoint contains (p s : string) : bool :=
  startswith p s ||
  match s with
  | EmptyString => false
  | String _ s' => contains p s'
  end.

(** [s.endswith(p)] for a one-character [p]. *)
Fixpoint endswith_char (a : ascii) (s : string) : bool :=
  match s with
  | EmptyString => false
  | String c EmptyString => Ascii.eqb a c
  | String _ s' => endswith_char a s'
  end.

(** [x in {...}] for a set of string literals. *)
Definition mem (x : string) (l : list string) : bool :=
  existsb (String.eqb x) l.

(** [re.sub(r"\s+", "", s)]: every white-space run is deleted. *)
Fixpoint remove_ws (s : string) : string :=
  match s with
  | EmptyString => EmptyString
  | String c s' => if isspace c then remove_ws s' else String c (remove_ws s')
  end.

(** [str(n)] for an [int]. *)
Definition str_of_int (z : Z) : string := NilZero.string_of_int (Z.to_int z).

(** [int(s)] for a run of decimal digits. *)
Fixpoint int_of_digits (acc : Z) (s : list ascii) : Z :=
  match s with
  | [] => acc
  | c :: s' => int_of_digits (10 * acc + Z.of_nat (code c - 48)) s'
  end.

End Py.

(** ** Values of type [Any] *)

(** A [float] is kept with the two things the program asks of it: whether
    it is integral (and then its integer value, [int(v)]) and its [str]. *)
Record pyfloat := PyFloat {
  f_int : option Z;
  f_str : string
}.

Inductive pyval :=
| VNone
| VStr (s : string)
| VInt (z : Z)
| VFloat (f : pyfloat).

(** Truthiness: [if v], [not v], [a or b]. *)
Definition truthy (v : pyval) : bool :=
  match v with
  | VNone => false
  | VStr s => negb (String.eqb s "")
  | VInt z => negb (z =? 0)%Z
  | VFloat f => match f_int f with Some 0%Z => false | _ => true end
  end.

Definition py_or (a b : pyval) : pyval := if truthy a then a else b.

(** [str(v)] *)
Definition py_str (v : pyval) : string :=
  match v with
  | VNone => "None"
  | VStr s => s
  | VInt z => Py.str_of_int z
  | VFloat f => f_str f
  end.

(** [a == b] *)
Definition py_eq (a b : pyval) : bool :=
  match a, b with
  | VNone, VNone => true
  | VStr s, VStr t => String.eqb s t
  | VInt x, VInt y => (x =? y)%Z
  | VInt x, VFloat f | VFloat f, VInt x =>
      match f_int f with Some y => (x =? y)%Z | None => false end
  | VFloat f, VFloat g =>
      match f_int f, f_int g with
      | Some x, Some y => (x =? y)%Z
      | None, None => String.eqb (f_str f) (f_str g) && negb (String.eqb (f_str f) "nan")
      | _, _ => false
      end
  | _, _ => false
  end.

(** [d.get(k)] on a row. *)
Definition get (d : gmap string pyval) (k : string) : pyval :=
  default VNone (d !! k).

(** ** Regular expressions ([re])

    The fragment of [re] the program uses, matched the way [re] matches:
    by greedy backtracking, the first alternative and the longest repetition
    tried first.  A match carries the character before the position (for
    [\b]) and the groups captured so far. *)

Module Re.

Inductive regex :=
| Eps
| Cls (p : ascii -> bool)
| Seq (r1 r2 : regex)
| Alt (r1 r2 : regex)
| Rep (p : ascii -> bool) (lo : nat) (hi : option nat)
| Opt (r : regex)
| Group (n : nat) (r : regex)
| WordB.

(** Captured groups, the most recent first. *)
Definition caps := list (nat * list ascii).

Fixpoint group (cs : caps) (n : nat) : option (list ascii) :=
  match cs with
  | [] => None
  | (i, s) :: cs' => if (i =? n)%nat then Some s else group cs' n
  end.

Definition is_word (o : option ascii) : bool :=
  match o with
  | Some c => Py.isword c
  | None => false
  end.

(** The characters consumed between the input [s] and its suffix [s']. *)
Definition consumed (s s' : list ascii) : list ascii :=
  firstn (length s - length s') s.

Definition more (hi : option nat) : bool :=
  match hi with
  | Some 0 => false
  | _ => true
  end.

Definition dec (hi : option nat) : option nat :=
  match hi with
  | Some n => Some (pred n)
  | None => None
  end.

Section Matcher.
Context {R : Type}.

Definition cont := option ascii -> list ascii -> caps -> option R.

Definition orelse (a : option R) (b : unit -> option R) : option R :=
  match a with
  | Some x => Some x
  | None => b tt
  end.

(** [p{lo,hi}], greedy: one more character first, stopping second. *)
Fixpoint rep (p : ascii -> bool) (lo : nat) (hi : option nat)
    (prev : option ascii) (s : list ascii) (cs : caps) (k : cont) : option R :=
  let stop := fun _ : unit => if (lo =? 0)%nat then k prev s cs else None in
  match s with
  | c :: s' =>
      if p c && more hi
      then orelse (rep p (pred lo) (dec hi) (Some c) s' cs k) stop
      else stop tt
  | [] => stop tt
  end.

Fixpoint run (r : regex) (prev : option ascii) (s : list ascii)
    (cs : caps) (k : cont) : option R :=
  match r with
  | Eps => k prev s cs
  | Cls p =>
      match s with
      | c :: s' => if p c then k (Some c) s' cs else None
      | [] => None
      end
  | Seq r1 r2 => run r1 prev s cs (fun prev' s' cs' => run r2 prev' s' cs' k)
  | Alt r1 r2 => orelse (run r1 prev s cs k) (fun _ => run r2 prev s cs k)
  | Rep p lo hi => rep p lo hi prev s cs k
  | Opt r1 => orelse (run r1 prev s cs k) (fun _ => k prev s cs)
  | Group n r1 =>
      run r1 prev s cs (fun prev' s' cs' => k prev' s' ((n, consumed s s') :: cs'))
  | WordB =>
      if xorb (is_word prev) (is_word (head s)) then k prev s cs else None
  end.

End Matcher.

(** [re.match] at one position. *)
Definition match_here (r : regex) (prev : option ascii) (s : list ascii) : option caps :=
  run r prev s [] (fun _ _ cs => Some cs).

(** [re.search]: the leftmost position with a match. *)
Fixpoint search_from (r : regex) (prev : option ascii) (s : list ascii) : option caps :=
  match match_here r prev s with
  | Some cs => Some cs
  | None =>
      match s with
      | [] => None
      | c :: s' => search_from r (Some c) s'
      end
  end.

Definition search (r : regex) (s : string) : option caps :=
  search_from r None (list_ascii_of_string s).

(** [m.group(n) or ""] *)
Definition group_str (cs : caps) (n : nat) : string :=
  match group cs n with
  | Some l => string_of_list_ascii l
  | None => ""
  end.

(** Pattern builders. *)
Definition chr (a : ascii) : ascii -> bool := Ascii.eqb a.

(** A letter under [re.I]. *)
Definition chr_i (a : ascii) : ascii -> bool :=
  fun c => Ascii.eqb (Py.lower_char a) (Py.lower_char c).

Definition one_of (l : string) : ascii -> bool :=
  fun c => existsb (Ascii.eqb c) (list_ascii_of_string l).

Fixpoint lit (s : string) : regex :=
  match s with
  | EmptyString => Eps
  | String a s' => Seq (Cls (chr a)) (lit s')
  end.

Fixpoint lit_i (s : string) : regex :=
  match s with
  | EmptyString => Eps
  | String a s' => Seq (Cls (chr_i a)) (lit_i s')
  end.

Fixpoint seq (l : list regex) : regex :=
  match l with
  | [] => Eps
  | r :: l' => Seq r (seq l')
  end.

Definition star (p : ascii -> bool) : regex := Rep p 0 None.
Definition plus (p : ascii -> bool) : regex := Rep p 1 None.

End Re.

(** ** [normalize.py] *)

(** [r"(\d{1,3})\s*%?"] *)
Definition percent_re : Re.regex :=
  Re.seq [Re.Group 1 (Re.Rep Py.isdigit 1 (Some 3));
          Re.star Py.isspace;
          Re.Opt (Re.Cls (Re.chr "%"))].

Definition normalize_percent (text : string) : option Z :=
  if String.eqb text "" then None else
  match Re.search percent_re text with
  | None => None
  | Some m =>
      let val := Py.int_of_digits 0 (list_ascii_of_string (Re.group_str m 1)) in
      if (0 <=? val)%Z && (val <=? 100)%Z then Some val else None
  end.

Definition normalize_status (text : pyval) : option string :=
  match text with
  | VNone => None
  | _ =>
      let t := Py.lower (Py.strip (py_str text)) in
      if String.eqb t "" then None
      else if Py.mem t ["positive"; "pos"; "+"; "yes"; "detected"] then Some "Positive"
      else if Py.mem t ["negative"; "neg"; "-"; "no"; "not detected"] then Some "Negative"
      else if Py.mem t ["equivocal"; "borderline"; "indeterminate"] then Some "Equivocal"
      else if Py.mem t ["unknown"; "pending"; "n/a"; "na"] then Some "Unknown"
      else if Py.endswith_char "+" t then Some "Positive"
      else if Py.endswith_char "-" t then Some "Negative"
      else None
  end.

Definition ihc_to_status (ihc : pyval) : option string :=
  if negb (truthy ihc) then None else
  let s := Py.lower (Py.strip (py_str ihc)) in
  let s := Py.remove_ws s in
  if Py.mem s ["3+"; "3"] then Some "Positive"
  else if Py.mem s ["2+"; "2"] then Some "Equivocal"
  else if Py.mem s ["1+"; "1"; "0"; "0+"] then Some "Negative"
  else if Py.mem s ["0/1+"; "0-1+"; "0-1"] then Some "Negative"
  else None.

Definition fish_to_status (fish : pyval) : option string :=
  if negb (truthy fish) then None else
  let s := Py.lower (Py.strip (py_str fish)) in
  if Py.contains "not amplified" s || Py.contains "nonampl" s || Py.contains "non-ampl" s
  then Some "Negative"
  else if Py.contains "no ampl" s || Py.contains "no amplification" s then Some "Negative"
  else if Py.contains "amplified" s || Py.contains "amplification" s then Some "Positive"
  else if Py.contains "positive" s || Py.contains "pos" s then Some "Positive"
  else if Py.contains "negative" s || Py.contains "neg" s then Some "Negative"
  else None.

(** Truthiness of an [Optional[str]]. *)
Definition str_truthy (o : option string) : bool :=
  match o with
  | Some s => negb (String.eqb s "")
  | None => false
  end.

Definition opt_mem (o : option string) (l : list string) : bool :=
  match o with
  | Some s => Py.mem s l
  | None => false
  end.

Definition her2_final_status (ihc_score fish explicit : pyval)
  : option string * option string :=
  let fish_status := fish_to_status fish in
  if str_truthy fish_status then (fish_status, Some "fish") else
  let ihc_status := ihc_to_status ihc_score in
  if str_truthy ihc_status then (ihc_status, Some "ihc") else
  let exp := normalize_status explicit in
  if opt_mem exp ["Positive"; "Negative"; "Equivocal"] then (exp, Some "explicit")
  else (None, None).

Definition of_opt (o : option string) : pyval :=
  match o with
  | Some s => VStr s
  | None => VNone
  end.

(** [x.strip() if x else None] *)
Definition strip_opt (o : option string) : option string :=
  match o with
  | Some s => if String.eqb s "" then None else Some (Py.strip s)
  | None => None
  end.

Definition reconcile_her2 (ihc_score fish explicit : option string)
  : option string * option string * option string :=
  let ihc_score := strip_opt ihc_score in
  let fish := strip_opt fish in
  let explicit := strip_opt explicit in
  let fish_status := fish_to_status (of_opt fish) in
  if str_truthy fish_status then (fish_status, ihc_score, fish) else
  let ihc_status := ihc_to_status (of_opt ihc_score) in
  if str_truthy ihc_status then (ihc_status, ihc_score, fish) else
  let exp := normalize_status (of_opt explicit) in
  if opt_mem exp ["Positive"; "Negative"; "Equivocal"] then (exp, ihc_score, fish)
  else (None, ihc_score, fish).

Definition normalize_histology (text : string) : option string :=
  if String.eqb text "" then None else
  let t := Py.lower text in
  let has_idc := Py.contains "invasive ductal" t || Py.contains "idc" t in
  let has_ilc := Py.contains "invasive lobular" t || Py.contains "ilc" t in
  if has_idc && has_ilc then Some "Mixed"
  else if Py.contains "dcis" t || Py.contains "ductal carcinoma in situ" t then Some "DCIS"
  else if has_idc then Some "IDC"
  else if has_ilc then Some "ILC"
  else None.

(** [r"\bgrade\s*[:\-]?\s*(\d)\b"] *)
Definition grade_re : Re.regex :=
  Re.seq [Re.WordB; Re.lit "grade"; Re.star Py.isspace;
          Re.Opt (Re.Cls (Re.one_of ":-")); Re.star Py.isspace;
          Re.Group 1 (Re.Cls Py.isdigit); Re.WordB].

Definition normalize_grade (text : string) : option string :=
  if String.eqb text "" then None else
  let t := Py.lower text in
  match Re.search grade_re t with
  | Some m =>
      let g := Re.group_str m 1 in
      if Py.mem g ["1"; "2"; "3"] then Some g else None
  | None => None
  end.

(** [r"\bstage\s*([ivx]+)\s*([abc])?\b"] *)
Definition stage_re : Re.regex :=
  Re.seq [Re.WordB; Re.lit "stage"; Re.star Py.isspace;
          Re.Group 1 (Re.plus (Re.one_of "ivx")); Re.star Py.isspace;
          Re.Opt (Re.Group 2 (Re.Cls (Re.one_of "abc"))); Re.WordB].

Definition normalize_stage (text : string) : option string :=
  if String.eqb text "" then None else
  match Re.search stage_re (Py.lower text) with
  | None => None
  | Some m =>
      let roman := Py.upper (Re.group_str m 1) in
      let suffix := Py.upper (Re.group_str m 2) in
      Some (roman +:+ suffix)
  end.

(** ** [schema.py] *)

Definition PHENOTYPE_COLUMNS_V1 : list string :=
  ["patient_id";
   "er_status"; "er_percent"; "er_confidence";
   "pr_status"; "pr_percent"; "pr_confidence";
   "her2_ihc_score"; "her2_fish"; "her2_final_status"; "her2_confidence";
   "ki67_percent"; "ki67_confidence";
   "histology"; "histology_confidence"; "grade";
   "stage_clinical"; "stage_path"].

(** The precedence table, a [dict] whose keys are strings and [None]. *)
Definition NOTE_TYPE_PRECEDENCE : list (pyval * Z) :=
  [(VStr "Pathology", 100); (VStr "SurgicalPathology", 100);
   (VStr "PathologyAddendum", 100); (VStr "Addendum", 100);
   (VStr "OncologyConsult", 70);
   (VStr "Radiology", 40);
   (VStr "ProgressNote", 30);
   (VStr "Unknown", 0); (VStr "", 0); (VNone, 0)]%Z.

(** [d.get(k, dflt)] on such a table. *)
Fixpoint table_get (d : list (pyval * Z)) (k : pyval) (dflt : Z) : Z :=
  match d with
  | [] => dflt
  | (k', v) :: d' => if py_eq k' k then v else table_get d' k dflt
  end.

(** ** [evidence.py] *)

(** The [Evidence] dataclass; [confidence] is kept in hundredths. *)
Record Evidence := mkEvidence {
  patient_id : pyval;
  note_id : pyval;
  note_date : pyval;
  note_type : pyval;
  field : string;
  value : string;
  start : nat;
  end_ : nat;
  snippet : string;
  label : string;
  confidence : nat;
  is_negated : bool;
  is_uncertain : bool
}.

(** The alias property [Evidence.entity]. *)
Definition entity (e : Evidence) : string := field e.

(** ** [aggregate.py] *)

(** What the aggregator reads of an evidence row, through [getattr] with a
    default: an attribute that is missing reads as [None] (as [False] for
    the two flags, which are then taken through [bool]). *)
Record evobj := mkEvobj {
  a_patient_id : pyval;
  a_field : pyval;
  a_entity : pyval;
  a_value : pyval;
  a_is_negated : bool;
  a_is_uncertain : bool
}.

Definition attrs (e : Evidence) : evobj :=
  {| a_patient_id := patient_id e;
     a_field := VStr (field e);
     a_entity := VStr (entity e);
     a_value := VStr (value e);
     a_is_negated := is_negated e;
     a_is_uncertain := is_uncertain e |}.

(** A calendar date as [datetime.date] holds it; years, months and days
    start at one. *)
Record date := mkDate {
  year : positive;
  month : positive;
  day : positive
}.

Definition is_leap (y : Z) : bool :=
  ((y mod 4 =? 0) && (negb (y mod 100 =? 0) || (y mod 400 =? 0)))%Z.

Definition days_before_year (y : Z) : Z :=
  let y := (y - 1)%Z in
  (y * 365 + y / 4 - y / 100 + y / 400)%Z.

Definition days_before_month (y : Z) (m : positive) : Z :=
  let base :=
    match Z.pos m with
    | 1 => 0 | 2 => 31 | 3 => 59 | 4 => 90 | 5 => 120 | 6 => 151
    | 7 => 181 | 8 => 212 | 9 => 243 | 10 => 273 | 11 => 304 | _ => 334
    end%Z in
  (base + if (2 <? Z.pos m)%Z && is_leap y then 1 else 0)%Z.

(** [date.toordinal()]: days since 0001-01-01, which has ordinal 1. *)
Definition toordinal (d : date) : Z :=
  (days_before_year (Z.pos (year d)) + days_before_month (Z.pos (year d)) (month d)
   + Z.pos (day d))%Z.

Abbreviation row := (gmap string pyval).

Definition base_fields : list string :=
  ["er_status"; "pr_status";
   "her2_ihc_score"; "her2_fish";
   "ki67_percent"; "histology"; "grade";
   "stage_clinical"; "stage_path";
   "er_percent"; "pr_percent"].

Definition _confidence_bucket (note_type : pyval) : string :=
  if negb (truthy note_type) then "unknown" else
  let nt := Py.lower (py_str note_type) in
  if Py.contains "addendum" nt then "addendum"
  else if Py.contains "path" nt then "pathology"
  else if Py.contains "oncology" nt || Py.contains "consult" nt then "consult"
  else if Py.contains "radio" nt then "radiology"
  else "unknown".

Definition _norm_val (v : pyval) : string :=
  match v with
  | VNone => ""
  | VFloat {| f_int := Some z |} => Py.str_of_int z
  | _ => Py.strip (py_str v)
  end.

(** One evidence row passes the three [continue] tests. *)
Definition ev_matches (patient_id : pyval) (field : string) (target_val : string)
    (e : evobj) : bool :=
  py_eq (a_patient_id e) patient_id
  && py_eq (py_or (a_field e) (a_entity e)) (VStr field)
  && String.eqb (_norm_val (a_value e)) target_val.

(** The loop of [_evidence_support]; [any_support] is the flag carried
    from the rows already seen, and a clean row ends the loop. *)
Fixpoint _evidence_support_loop (evidence_rows : list evobj) (patient_id : pyval)
    (field : string) (target_val : string) (any_support : bool) : bool * bool :=
  match evidence_rows with
  | [] => (false, any_support)
  | e :: rest =>
      if negb (py_eq (a_patient_id e) patient_id)
      then _evidence_support_loop rest patient_id field target_val any_support
      else if negb (py_eq (py_or (a_field e) (a_entity e)) (VStr field))
      then _evidence_support_loop rest patient_id field target_val any_support
      else if negb (String.eqb (_norm_val (a_value e)) target_val)
      then _evidence_support_loop rest patient_id field target_val any_support
      else if negb (a_is_negated e) && negb (a_is_uncertain e)
      then (true, true)
      else _evidence_support_loop rest patient_id field target_val true
  end.

Definition _evidence_support (evidence_rows : list evobj) (patient_id : pyval)
    (field : string) (value : pyval) : bool * bool :=
  _evidence_support_loop evidence_rows patient_id field (_norm_val value) false.

Definition _compute_her2_final (ihc_score fish : pyval) : option string * option string :=
  if truthy fish then
    let f := Py.lower (Py.strip (py_str fish)) in
    if Py.contains "ampl" f && negb (Py.contains "not" f) then (Some "Positive", Some "fish")
    else if Py.contains "not" f && Py.contains "ampl" f then (Some "Negative", Some "fish")
    else if Py.contains "neg" f then (Some "Negative", Some "fish")
    else if Py.contains "pos" f then (Some "Positive", Some "fish")
    else (Some "Unknown", Some "fish")
  else if truthy ihc_score then
    let s := Py.lower (Py.strip (py_str ihc_score)) in
    if Py.contains "3" s && Py.contains "+" s then (Some "Positive", Some "ihc")
    else if Py.startswith "3" s then (Some "Positive", Some "ihc")
    else if Py.startswith "2" s && Py.contains "+" s then (Some "Equivocal", Some "ihc")
    else if Py.startswith "1" s && Py.contains "+" s then (Some "Negative", Some "ihc")
    else if Py.startswith "0" s then (Some "Negative", Some "ihc")
    else if String.eqb s "3" then (Some "Positive", Some "ihc")
    else if String.eqb s "2" then (Some "Equivocal", Some "ihc")
    else if String.eqb s "1" || String.eqb s "0" then (Some "Negative", Some "ihc")
    else (Some "Unknown", Some "ihc")
  else (None, None).

(** Tuples of two integers compare lexicographically. *)
Definition key_lt (a b : Z * Z) : bool :=
  ((a.1 <? b.1) || ((a.1 =? b.1) && (a.2 <? b.2)))%Z.

(** [sorted(rows, key=key, reverse=True)].  The library sort is stable and
    [reverse=True] keeps it so, which fixes the result: descending by key,
    rows of equal key in their input order.  Insertion from the right
    computes it. *)
Section Sorted.
Context {A : Type} (key : A -> Z * Z).

Fixpoint insert_desc (x : A) (l : list A) : list A :=
  match l with
  | [] => [x]
  | y :: l' => if key_lt (key x) (key y) then y :: insert_desc x l' else x :: y :: l'
  end.

Definition sorted_reverse (l : list A) : list A := foldr insert_desc [] l.
End Sorted.

(** The value a row gives for a field is missing: [v is None or v == ""]. *)
Definition is_blank (v : pyval) : bool :=
  match v with
  | VNone => true
  | _ => py_eq v (VStr "")
  end.

Section Aggregate.

(** [dateutil.parser.parse(d).date()], or [None] where the parser raises. *)
Variable dtparse : string -> option date.

Definition _parse_date (d : pyval) : option date :=
  if negb (truthy d) then None else
  match d with
  | VStr s => dtparse s
  | _ => None
  end.

Definition _note_score (note_type note_date : pyval) : Z * Z :=
  let tscore := table_get NOTE_TYPE_PRECEDENCE note_type 0 in
  let d := _parse_date note_date in
  let dscore := match d with Some d => toordinal d | None => 0%Z end in
  (tscore, dscore).

Definition row_key (r : row) : Z * Z :=
  _note_score (get r "note_type") (get r "note_date").

(** First pass: the first ranked row whose value has clean evidence. *)
Fixpoint first_clean (ranked : list row) (evidence_rows : list evobj)
    (patient_id : pyval) (f : string) : pyval * option row :=
  match ranked with
  | [] => (VNone, None)
  | r :: rest =>
      let v := get r f in
      if is_blank v then first_clean rest evidence_rows patient_id f
      else if (_evidence_support evidence_rows patient_id f v).1
      then (v, Some r)
      else first_clean rest evidence_rows patient_id f
  end.

(** Second pass: the first ranked row with a value. *)
Fixpoint first_nonempty (ranked : list row) (f : string) (chosen : pyval * option row)
    : pyval * option row :=
  match ranked with
  | [] => chosen
  | r :: rest =>
      let v := get r f in
      if is_blank v then first_nonempty rest f chosen else (v, Some r)
  end.

Definition choose (ranked : list row) (evidence_rows : list evobj)
    (patient_id : pyval) (f : string) : pyval * option row :=
  let c := first_clean ranked evidence_rows patient_id f in
  match c.1 with
  | VNone => first_nonempty ranked f c
  | _ => c
  end.

(** The body of the loop over the base fields. *)
Definition pick_field (ranked : list row) (evidence_rows : list evobj)
    (patient_id : pyval) (out : row) (f : string) : row :=
  match choose ranked evidence_rows patient_id f with
  | (_, None) => out
  | (chosen, Some chosen_row) =>
      let out := <[f := chosen]> out in
      let out := <[f +:+ "__source_note_id" := get chosen_row "note_id"]> out in
      let out := <[f +:+ "__source_note_type" := get chosen_row "note_type"]> out in
      let out := <[f +:+ "__source_note_date" := get chosen_row "note_date"]> out in
      let bucket := VStr (_confidence_bucket (get chosen_row "note_type")) in
      if String.eqb f "er_status" then <["er_confidence" := bucket]> out
      else if String.eqb f "er_percent"
      then <["er_confidence" := py_or (get out "er_confidence") bucket]> out
      else if String.eqb f "pr_status" then <["pr_confidence" := bucket]> out
      else if String.eqb f "pr_percent"
      then <["pr_confidence" := py_or (get out "pr_confidence") bucket]> out
      else if String.eqb f "ki67_percent" then <["ki67_confidence" := bucket]> out
      else if String.eqb f "histology" then <["histology_confidence" := bucket]> out
      else out
  end.

Definition init_columns (out : row) : row :=
  fold_left (fun out col => if String.eqb col "patient_id" then out else <[col := VNone]> out)
            PHENOTYPE_COLUMNS_V1 out.

Definition init_sources (out : row) : row :=
  fold_left (fun out f =>
               <[f +:+ "__source_note_date" := VNone]>
                 (<[f +:+ "__source_note_type" := VNone]>
                    (<[f +:+ "__source_note_id" := VNone]> out)))
            base_fields out.

Definition set_opt (k : string) (o : option string) (out : row) : row :=
  match o with
  | Some s => <[k := VStr s]> out
  | None => out
  end.

Definition aggregate_patient (note_rows : list row) (evidence_rows : list evobj) : row :=
  match note_rows with
  | [] => ∅
  | first :: _ =>
      let patient_id := get first "patient_id" in
      if negb (truthy patient_id) then ∅ else
      let out : row := {["patient_id" := patient_id]} in
      let out := init_columns out in
      let out := init_sources out in
      let ranked := sorted_reverse row_key note_rows in
      let out := fold_left (pick_field ranked evidence_rows patient_id) base_fields out in
      let '(her2_final, her2_conf) :=
        _compute_her2_final (get out "her2_ihc_score") (get out "her2_fish") in
      let out := set_opt "her2_final_status" her2_final out in
      let out := set_opt "her2_confidence" her2_conf out in
      out
  end.

End Aggregate.

(** ** [preprocess.py] *)

Definition cr : ascii := ascii_of_nat 13.
Definition nl : ascii := ascii_of_nat 10.
Definition tab : ascii := ascii_of_nat 9.

(** [text.replace("\r\n", "\n")] *)
Fixpoint replace_crlf (s : list ascii) : list ascii :=
  match s with
  | [] => []
  | c :: s' =>
      match s' with
      | d :: s'' =>
          if Ascii.eqb c cr && Ascii.eqb d nl
          then
            nl :: match replace_crlf s' with
                  | _ :: t => t
                  | [] => []
                  end
          else c :: replace_crlf s'
      | [] => [c]
      end
  end.

(** [re.sub] of the runs of [p] of length at least [lo] by [repl]; [run]
    holds the run being read. *)
Fixpoint sub_runs (p : ascii -> bool) (lo : nat) (repl : list ascii)
    (run : list ascii) (s : list ascii) : list ascii :=
  let flush := if (lo <=? length run)%nat then repl else run in
  match s with
  | [] => flush
  | c :: s' =>
      if p c then sub_runs p lo repl (run ++ [c]) s'
      else flush ++ c :: sub_runs p lo repl [] s'
  end.

Definition clean_text (text : string) : string :=
  if String.eqb text "" then "" else
  let t := replace_crlf (list_ascii_of_string text) in
  let t := List.map (fun c => if Ascii.eqb c cr then nl else c) t in
  let t := sub_runs (fun c => Ascii.eqb c tab || Ascii.eqb c " ") 2 [" "%char] [] t in
  let t := sub_runs (Ascii.eqb nl) 3 [nl; nl] [] t in
  Py.strip (string_of_list_ascii t).

(** ** [extract.py] *)

Definition receptor (long short : string) : Re.regex :=
  Re.Alt (Re.lit_i long) (Re.lit_i short).

Definition not_pct_nl (c : ascii) : bool := negb (Ascii.eqb c "%" || Ascii.eqb c nl).

(** [[^a-z0-9]] under [re.I]. *)
Definition not_alnum_i (c : ascii) : bool :=
  let n := Py.code c in
  negb (Py.between 48 57 n || Py.between 65 90 n || Py.between 97 122 n).

(** [r"\b(?:estrogen receptor|er)\b[^%\n]{0,60}\b(\d{1,3})\s*%"], [re.I] *)
Definition pct_re (long short : string) : Re.regex :=
  Re.seq [Re.WordB; receptor long short; Re.WordB;
          Re.Rep not_pct_nl 0 (Some 60); Re.WordB;
          Re.Group 1 (Re.Rep Py.isdigit 1 (Some 3));
          Re.star Py.isspace; Re.Cls (Re.chr "%")].

Definition _ER_PCT : Re.regex := pct_re "estrogen receptor" "er".
Definition _PR_PCT : Re.regex := pct_re "progesterone receptor" "pr".

(** [r"\b(?:estrogen receptor|er)\b[^a-z0-9]{0,10}\b(?:positive|pos|\+)\b"], [re.I] *)
Definition fallback_re (long short : string) (w1 w2 sign : string) : Re.regex :=
  Re.seq [Re.WordB; receptor long short; Re.WordB;
          Re.Rep not_alnum_i 0 (Some 10); Re.WordB;
          Re.Alt (Re.lit_i w1) (Re.Alt (Re.lit_i w2) (Re.lit_i sign));
          Re.WordB].

Definition _ER_POS_FALLBACK := fallback_re "estrogen receptor" "er" "positive" "pos" "+".
Definition _ER_NEG_FALLBACK := fallback_re "estrogen receptor" "er" "negative" "neg" "-".
Definition _PR_POS_FALLBACK := fallback_re "progesterone receptor" "pr" "positive" "pos" "+".
Definition _PR_NEG_FALLBACK := fallback_re "progesterone receptor" "pr" "negative" "neg" "-".

Definition find_percent (re : Re.regex) (window : string) : option Z :=
  match Re.search re window with
  | None => None
  | Some m =>
      let val := Py.int_of_digits 0 (list_ascii_of_string (Re.group_str m 1)) in
      if (0 <=? val)%Z && (val <=? 100)%Z then Some val else None
  end.

Definition _find_er_percent : string -> option Z := find_percent _ER_PCT.
Definition _find_pr_percent : string -> option Z := find_percent _PR_PCT.

(** A recognised entity ([doc.ents]): label, matched span, offsets into the
    cleaned text, the text of its sentence and the two context flags, read as
    [False] where the recogniser does not set them. *)
Record Ent := mkEnt {
  label_ : string;
  text : string;
  start_char : nat;
  end_char : nat;
  sent_text : string;
  ctx_is_negated : bool;
  ctx_is_uncertain : bool
}.

(** The variables the loop over the entities updates. *)
Record xstate := mkX {
  phenos : gmap string pyval;
  her2_explicit : option string;
  her2_ihc : option string;
  her2_fish : option string;
  evidence : list Evidence
}.

Definition set_pheno (k : string) (v : pyval) (st : xstate) : xstate :=
  mkX (<[k := v]> (phenos st)) (her2_explicit st) (her2_ihc st) (her2_fish st) (evidence st).

Section Extract.

Variables (cleaned : string) (pid nid ndate ntype : pyval).

(** [add_ev]: the first constructor call, [Evidence(field=field, ...)],
    gives every required field and so succeeds. *)
Definition add_ev (field value : string) (ent : Ent) (label : string) (conf : nat)
    (st : xstate) : xstate :=
  let snippet :=
    let a := (start_char ent - 80)%nat in
    let b := Nat.min (end_char ent + 80) (String.length cleaned) in
    substring a (b - a) cleaned in
  let e := {| patient_id := pid; note_id := nid; note_date := ndate; note_type := ntype;
              field := field; value := value;
              start := start_char ent; end_ := end_char ent;
              snippet := snippet; label := label; confidence := conf;
              is_negated := ctx_is_negated ent; is_uncertain := ctx_is_uncertain ent |} in
  mkX (phenos st) (her2_explicit st) (her2_ihc st) (her2_fish st) (evidence st ++ [e]).

(** The ER and PR branches: status, then the percent of the sentence. *)
Definition receptor_branch (status_field percent_field status : string)
    (find : string -> option Z) (ent : Ent) (st : xstate) : xstate :=
  let st := set_pheno status_field (of_opt (normalize_status (VStr status))) st in
  let st := add_ev status_field status ent (label_ ent) 85 st in
  match find (sent_text ent) with
  | Some pct =>
      let st := set_pheno percent_field (VInt pct) st in
      add_ev percent_field (Py.str_of_int pct) ent (label_ ent) 70 st
  | None => st
  end.

(** The body of [for ent in doc.ents]. *)
Definition step (st : xstate) (ent : Ent) : xstate :=
  let label := label_ ent in
  let span := text ent in
  if String.eqb label "ER_POS"
  then receptor_branch "er_status" "er_percent" "Positive" _find_er_percent ent st
  else if String.eqb label "ER_NEG"
  then receptor_branch "er_status" "er_percent" "Negative" _find_er_percent ent st
  else if String.eqb label "PR_POS"
  then receptor_branch "pr_status" "pr_percent" "Positive" _find_pr_percent ent st
  else if String.eqb label "PR_NEG"
  then receptor_branch "pr_status" "pr_percent" "Negative" _find_pr_percent ent st
  else if String.eqb label "HER2_IHC" then
    let ihc := Py.strip span in
    add_ev "her2_ihc_score" ihc ent label 80
      (mkX (phenos st) (her2_explicit st) (Some ihc) (her2_fish st) (evidence st))
  else if String.eqb label "HER2_POS" then
    add_ev "her2_status" "Positive" ent label 75
      (mkX (phenos st) (Some "Positive") (her2_ihc st) (her2_fish st) (evidence st))
  else if String.eqb label "HER2_NEG" then
    add_ev "her2_status" "Negative" ent label 75
      (mkX (phenos st) (Some "Negative") (her2_ihc st) (her2_fish st) (evidence st))
  else if String.eqb label "HER2_FISH_POS" then
    add_ev "her2_fish" "Amplified" ent label 85
      (mkX (phenos st) (her2_explicit st) (her2_ihc st) (Some "Amplified") (evidence st))
  else if String.eqb label "HER2_FISH_NEG" then
    add_ev "her2_fish" "Not amplified" ent label 85
      (mkX (phenos st) (her2_explicit st) (her2_ihc st) (Some "Not amplified") (evidence st))
  else if String.eqb label "KI67" then
    match normalize_percent span with
    | Some val =>
        add_ev "ki67_percent" (Py.str_of_int val) ent label 80
          (set_pheno "ki67_percent" (VInt val) st)
    | None => st
    end
  else if Py.startswith "HISTOLOGY_" label then
    let hist :=
      normalize_histology
        (if negb (String.eqb label "HISTOLOGY_TEXT") then span else sent_text ent) in
    match hist with
    | Some h =>
        if str_truthy hist
        then add_ev "histology" h ent label 75 (set_pheno "histology" (VStr h) st)
        else st
    | None => st
    end
  else if String.eqb label "GRADE" then
    let g := normalize_grade (sent_text ent) in
    match g with
    | Some g' =>
        if str_truthy g
        then add_ev "grade" g' ent label 75 (set_pheno "grade" (VStr g') st)
        else st
    | None => st
    end
  else if Py.mem label ["STAGE_PATH"; "STAGE_CLIN"; "STAGE_GENERIC"] then
    let s := normalize_stage
               (if negb (String.eqb label "STAGE_GENERIC") then text ent else sent_text ent) in
    match s with
    | Some s' =>
        if negb (str_truthy s) then st
        else if String.eqb label "STAGE_PATH"
        then add_ev "stage_path" s' ent label 75 (set_pheno "stage_path" (VStr s') st)
        else if String.eqb label "STAGE_CLIN"
        then add_ev "stage_clinical" s' ent label 75 (set_pheno "stage_clinical" (VStr s') st)
        else if negb (truthy (get (phenos st) "stage_path"))
        then add_ev "stage_path" s' ent label 60 (set_pheno "stage_path" (VStr s') st)
        else if negb (truthy (get (phenos st) "stage_clinical"))
        then add_ev "stage_clinical" s' ent label 60 (set_pheno "stage_clinical" (VStr s') st)
        else st
    | None => st
    end
  else st.

Definition init_phenos : gmap string pyval :=
  list_to_map
    [("patient_id", pid); ("note_id", nid); ("note_date", ndate); ("note_type", ntype);
     ("er_status", VNone); ("er_percent", VNone);
     ("pr_status", VNone); ("pr_percent", VNone);
     ("her2_status", VNone); ("her2_ihc_score", VNone); ("her2_fish", VNone);
     ("ki67_percent", VNone); ("histology", VNone); ("grade", VNone);
     ("stage_clinical", VNone); ("stage_path", VNone)].

Definition init_state : xstate := mkX init_phenos None None None [].

Definition run_ents (ents : list Ent) : xstate := fold_left step ents init_state.

Definition is_none (v : pyval) : bool :=
  match v with
  | VNone => true
  | _ => false
  end.

Definition found (re : Re.regex) (s : string) : bool :=
  match Re.search re s with
  | Some _ => true
  | None => false
  end.

(** The regex safety net for a status left unset by the entities. *)
Definition status_fallback (k : string) (pos neg : Re.regex) (ph : gmap string pyval)
    : gmap string pyval :=
  if is_none (get ph k) then
    if found pos cleaned then <[k := of_opt (normalize_status (VStr "Positive"))]> ph
    else if found neg cleaned then <[k := of_opt (normalize_status (VStr "Negative"))]> ph
    else ph
  else ph.

Definition percent_fallback (k : string) (find : string -> option Z)
    (ph : gmap string pyval) : gmap string pyval :=
  if is_none (get ph k) then
    match find cleaned with
    | Some p => <[k := VInt p]> ph
    | None => ph
    end
  else ph.

(** What follows the loop: fallbacks, then the reconciliation of HER2. *)
Definition finish (st : xstate) : gmap string pyval * list Evidence :=
  let ph := phenos st in
  let ph := status_fallback "er_status" _ER_POS_FALLBACK _ER_NEG_FALLBACK ph in
  let ph := status_fallback "pr_status" _PR_POS_FALLBACK _PR_NEG_FALLBACK ph in
  let ph := percent_fallback "er_percent" _find_er_percent ph in
  let ph := percent_fallback "pr_percent" _find_pr_percent ph in
  let '(her2_status, her2_ihc_score, her2_fish_norm) :=
    reconcile_her2 (her2_ihc st) (her2_fish st) (her2_explicit st) in
  let ph := <["her2_status" := of_opt (normalize_status (of_opt her2_status))]> ph in
  let ph := <["her2_ihc_score" := of_opt her2_ihc_score]> ph in
  let ph := <["her2_fish" := of_opt her2_fish_norm]> ph in
  (ph, evidence st).

End Extract.

(** [extract_note]; [nlp] is the pipeline [build_nlp(model_name)] applied to
    the cleaned text, giving [doc.ents]. *)
Definition extract_note (nlp : string -> list Ent) (note_text : string)
    (patient_id note_id note_date note_type : pyval)
  : gmap string pyval * list Evidence :=
  let text := clean_text note_text in
  let ents := nlp text in
  finish text (run_ents text patient_id note_id note_date note_type ents).

(** * Definitions used by the statements *)

(** ** Section 4.2 in the words of the specification *)

Module SpecHer2.

(** The keyword rules in the words of the specification: the first rule
    one of whose keywords occurs in the text decides. *)
Definition fish_rules : list (list string * string) :=
  [(["not amplified"; "nonampl"; "non-ampl"; "no ampl"; "no amplification"], "Negative");
   (["amplified"; "amplification"], "Positive");
   (["positive"; "pos"], "Positive");
   (["negative"; "neg"], "Negative")].

Fixpoint first_rule (s : string) (rules : list (list string * string)) : option string :=
  match rules with
  | [] => None
  | (kws, st) :: rest =>
      if existsb (fun k => Py.contains k s) kws then Some st else first_rule s rest
  end.

(** The status a FISH text determines; the text is read trimmed and in
    lower case, an absent or empty text determines nothing. *)
Definition fish_determinate (fish : pyval) : option string :=
  if truthy fish then first_rule (Py.lower (Py.strip (py_str fish))) fish_rules else None.

Definition ihc_table : list (string * string) :=
  [("3+", "Positive"); ("3", "Positive");
   ("2+", "Equivocal"); ("2", "Equivocal");
   ("1+", "Negative"); ("1", "Negative"); ("0", "Negative"); ("0+", "Negative");
   ("0/1+", "Negative"); ("0-1+", "Negative"); ("0-1", "Negative")].

Fixpoint assoc (k : string) (t : list (string * string)) : option string :=
  match t with
  | [] => None
  | (k', v) :: t' => if String.eqb k k' then Some v else assoc k t'
  end.

(** The status of an IHC score by the table; the score is read trimmed,
    in lower case and without white space. *)
Definition ihc_mapped (ihc : pyval) : option string :=
  if truthy ihc
  then assoc (Py.remove_ws (Py.lower (Py.strip (py_str ihc)))) ihc_table
  else None.

Definition explicit_status (explicit : pyval) : option string :=
  match normalize_status explicit with
  | Some s => if Py.mem s ["Positive"; "Negative"; "Equivocal"] then Some s else None
  | None => None
  end.

(** Strict precedence: FISH, then IHC, then the explicit text. *)
Definition reconcile (ihc_score fish explicit : pyval) : option string * option string :=
  match fish_determinate fish with
  | Some s => (Some s, Some "fish")
  | None =>
      match ihc_mapped ihc_score with
      | Some s => (Some s, Some "ihc")
      | None =>
          match explicit_status explicit with
          | Some s => (Some s, Some "explicit")
          | None => (None, None)
          end
      end
  end.

End SpecHer2.

(** ** Evidence rows *)

(** The row is neither negated nor uncertain. *)
Definition ev_clean (e : evobj) : bool :=
  negb (a_is_negated e) && negb (a_is_uncertain e).

(** ** Ranking keys *)


(** [a] may stand before [b] in a list that descends by [key]. *)
Definition ge_key {A : Type} (key : A -> Z * Z) (a b : A) : Prop :=
  key_lt (key a) (key b) = false.


(** ** The record under construction *)

(** The keys one round of the field loop overwrites, and the confidence
    slot a percent field fills only where it is still empty. *)
Definition hard_slot (f : string) : list string :=
  if String.eqb f "er_status" then ["er_confidence"]
  else if String.eqb f "er_percent" then []
  else if String.eqb f "pr_status" then ["pr_confidence"]
  else if String.eqb f "pr_percent" then []
  else if String.eqb f "ki67_percent" then ["ki67_confidence"]
  else if String.eqb f "histology" then ["histology_confidence"]
  else [].

Definition soft_slot (f : string) : list string :=
  if String.eqb f "er_status" then []
  else if String.eqb f "er_percent" then ["er_confidence"]
  else if String.eqb f "pr_status" then []
  else if String.eqb f "pr_percent" then ["pr_confidence"]
  else [].

Definition written_hard (f : string) : list string :=
  [f; f +:+ "__source_note_id"; f +:+ "__source_note_type"; f +:+ "__source_note_date"]
  ++ hard_slot f.

(** ** Runs of a character class *)

(** The first character of a list is not in the class (or the list is empty). *)
Definition not_next (p : ascii -> bool) (s : list ascii) : bool :=
  match s with
  | c :: _ => negb (p c)
  | [] => true
  end.

Definition within (hi : option nat) (n : nat) : Prop :=
  match hi with
  | Some h => (n <= h)%nat
  | None => True
  end.

Definition last_char (prev : option ascii) (ds : list ascii) : option ascii :=
  match rev ds with
  | c :: _ => Some c
  | [] => prev
  end.

Definition all_chars (p : ascii -> bool) (s : string) : bool :=
  forallb p (list_ascii_of_string s).

Definition no_digit (s : string) : bool := all_chars (fun c => negb (Py.isdigit c)) s.

Definition starts_with_digit (s : string) : bool :=
  negb (not_next Py.isdigit (list_ascii_of_string s)).

(** The value of a decimal text. *)
Definition int_of (ds : string) : Z := Py.int_of_digits 0 (list_ascii_of_string ds).

(** The decimal text of an integer from 0 to 999 is one to three digits
    whose value is the integer. *)
Definition render_ok (v : Z) : bool :=
  let ds := Py.str_of_int v in
  all_chars Py.isdigit ds && (1 <=? String.length ds)%nat && (String.length ds <=? 3)%nat
  && (int_of ds =? v)%Z.

(** The first character, if any, is not white space. *)
Definition head_solid (s : string) : bool :=
  match s with
  | EmptyString => true
  | String c _ => negb (Py.isspace c)
  end.

(** [c in s] for one character. *)
Fixpoint has (c : ascii) (s : string) : bool :=
  match s with
  | EmptyString => false
  | String d s' => Ascii.eqb c d || has c s'
  end.

(** ** Mentions and fields *)

(** The mention sets the field to [v] whatever the field held. *)
Definition overwrites (cleaned : string) (pid nid ndate ntype : pyval)
    (ent : Ent) (f : string) (v : pyval) : Prop :=
  forall st, get (phenos (step cleaned pid nid ndate ntype st ent)) f = v.

(** The mention leaves the field as it was. *)
Definition leaves (cleaned : string) (pid nid ndate ntype : pyval)
    (f : string) (ent : Ent) : Prop :=
  forall st, get (phenos (step cleaned pid nid ndate ntype st ent)) f = get (phenos st) f.

(** Evaluates the tests of the label dispatch on a literal label. *)
Ltac eval_label_tests :=
  repeat match goal with
         | |- context [String.eqb ?a ?b] =>
             let r := eval vm_compute in (String.eqb a b) in
             match r with
             | true => change (String.eqb a b) with true
             | false => change (String.eqb a b) with false
             end
         | |- context [Py.startswith ?a ?b] =>
             let r := eval vm_compute in (Py.startswith a b) in
             match r with
             | true => change (Py.startswith a b) with true
             | false => change (Py.startswith a b) with false
             end
         end.

(** ** Fixtures: the scenarios of the specification *)

Module Scenario.

(** A date parser for the dates of the scenarios; every other text is
    one it fails on. *)
Definition dtparse (s : string) : option date :=
  if String.eqb s "2023-01-01" then Some (mkDate 2023 1 1)
  else if String.eqb s "2023-02-01" then Some (mkDate 2023 2 1)
  else if String.eqb s "2022-12-01" then Some (mkDate 2022 12 1)
  else None.

Definition note (id type date : string) (fields : list (string * pyval)) : row :=
  list_to_map ([("patient_id", VStr "p1"); ("note_id", VStr id);
                ("note_type", VStr type); ("note_date", VStr date)] ++ fields).

Definition note_R : row := note "R" "Radiology" "2023-01-01" [("er_status", VStr "Positive")].
Definition note_P : row := note "P" "Pathology" "2023-02-01" [("er_status", VStr "Negative")].

(** The same pathology note, older than the radiology note. *)
Definition note_P_old : row :=
  note "P" "Pathology" "2022-12-01" [("er_status", VStr "Negative")].

(** A pathology note whose date does not parse. *)
Definition note_U : row :=
  note "U" "Pathology" "date unknown" [("er_status", VStr "Negative")].

Definition ev (f v : string) (negated : bool) : evobj :=
  mkEvobj (VStr "p1") (VStr f) (VStr f) (VStr v) negated false.

Definition clean_B : list evobj :=
  [ev "er_status" "Positive" false; ev "er_status" "Negative" false].

(** One note whose only ER mention is negated. *)
Definition note_N : row := note "N" "ProgressNote" "" [("er_status", VStr "Positive")].
Definition negated_N : list evobj := [ev "er_status" "Positive" true].

(** HER2 values as the extractor leaves them: the span of the IHC
    mention, and no FISH. *)
Definition note_H : row :=
  note "H" "Pathology" "2023-02-01" [("her2_ihc_score", VStr "HER2 3+")].

(** A FISH text with none of the keywords. *)
Definition note_F : row :=
  note "F" "Pathology" "2023-02-01"
       [("her2_ihc_score", VStr "3+"); ("her2_fish", VStr "equivocal")].

(** IHC 2+ with a FISH result. *)
Definition note_A : row :=
  note "A" "Pathology" "2023-02-01"
       [("her2_ihc_score", VStr "2+"); ("her2_fish", VStr "Not amplified")].

(** A note with two ER mentions, as a recogniser reports them. *)
Definition two_er_text : string := "ER positive. Later ER negative.".
Definition ent_er_pos : Ent := mkEnt "ER_POS" "ER positive" 0 11 "ER positive." false false.
Definition ent_er_neg : Ent :=
  mkEnt "ER_NEG" "ER negative" 19 30 "Later ER negative." false false.
Definition ent_her2 : Ent := mkEnt "HER2_IHC" "HER2 3+" 0 7 "HER2 3+." false false.
Definition nlp_two_er (cleaned : string) : list Ent := [ent_er_pos; ent_er_neg].

(** A row without a patient id. *)
Definition anonymous : row := list_to_map [("note_id", VStr "X"); ("er_status", VStr "Positive")].

End Scenario.

(** ** The keys of a patient record *)

Definition source_keys (f : string) : list string :=
  [f +:+ "__source_note_id"; f +:+ "__source_note_type"; f +:+ "__source_note_date"].

(** The columns of the schema and the three source keys of every base field. *)
Definition record_keys : list string :=
  PHENOTYPE_COLUMNS_V1 ++ flat_map source_keys base_fields.

(** The value of the row has clean evidence for the field. *)
Definition supported (evidence_rows : list evobj) (patient_id : pyval) (f : string)
    (r : gmap string pyval) : bool :=
  negb (is_blank (get r f)) && (_evidence_support evidence_rows patient_id f (get r f)).1.

(** ** Further fixtures *)

Module Fixture.

(** A second pathology note of the same date as [Scenario.note_P], with the
    opposite ER status. *)
Definition note_P2 : gmap string pyval :=
  Scenario.note "P2" "Pathology" "2023-02-01" [("er_status", VStr "Positive")].

(** A pathology note without any ER status. *)
Definition note_blank : gmap string pyval :=
  Scenario.note "B" "Pathology" "2023-02-01" [("grade", VStr "2")].

(** Evidence: the ER-negative mention is negated, the ER-positive one is clean. *)
Definition ev_neg_negated : list evobj :=
  [Scenario.ev "er_status" "Negative" true; Scenario.ev "er_status" "Positive" false].

End Fixture.

(** ** Tidy texts *)

(** Every run of characters of the class [p] is shorter than [lo]; [cur]
    characters of the class stand before the list. *)
Fixpoint runs_below (p : ascii -> bool) (lo cur : nat) (s : list ascii) : bool :=
  match s with
  | [] => (cur <? lo)%nat
  | c :: s' =>
      if p c then runs_below p lo (S cur) s'
      else (cur <? lo)%nat && runs_below p lo 0 s'
  end.

(** A tab or a space, the class of [[\t ]]. *)
Definition blank (c : ascii) : bool := Ascii.eqb c tab || Ascii.eqb c " ".

(** No carriage return, no two blanks in a row, no three newlines in a row,
    no white space at either end. *)
Definition tidy (t : string) : Prop :=
  forallb (fun c => negb (Ascii.eqb c cr)) (list_ascii_of_string t) = true
  /\ runs_below blank 2 0 (list_ascii_of_string t) = true
  /\ runs_below (Ascii.eqb nl) 3 0 (list_ascii_of_string t) = true
  /\ Py.strip t = t.

(** A text without a percent sign. *)
Definition no_percent (s : list ascii) : bool :=
  forallb (fun c => negb (Ascii.eqb c "%")) s.

(** ** The writes of the extraction loop *)

(** The fields of the note record that the loop over the mentions sets. *)
Definition loop_fields : list string :=
  ["er_status"; "er_percent"; "pr_status"; "pr_percent"; "ki67_percent"; "histology";
   "grade"; "stage_clinical"; "stage_path"].

(** The fields a pattern over the whole text may fill after the loop. *)
Definition fallback_fields : list string :=
  ["er_status"; "pr_status"; "er_percent"; "pr_percent"].

(** The keys of a note record. *)
Definition note_keys : list string :=
  ["patient_id"; "note_id"; "note_date"; "note_type";
   "er_status"; "er_percent"; "pr_status"; "pr_percent";
   "her2_status"; "her2_ihc_score"; "her2_fish";
   "ki67_percent"; "histology"; "grade"; "stage_clinical"; "stage_path"].

(** The evidence row [e] records the mention [ent], found in the note of
    the given identity. *)
Definition records (pid nid ndate ntype : pyval) (ent : Ent) (e : Evidence) : Prop :=
  patient_id e = pid /\ note_id e = nid /\ note_date e = ndate /\ note_type e = ntype
  /\ label e = label_ ent /\ start e = start_char ent /\ end_ e = end_char ent
  /\ is_negated e = ctx_is_negated ent /\ is_uncertain e = ctx_is_uncertain ent.

(** The evidence row [e] is for the field [f] and carries the value [v],
    values compared the way [_evidence_support] compares them. *)
Definition backs (f : string) (v : pyval) (e : Evidence) : Prop :=
  field e = f /\ _norm_val (VStr (value e)) = _norm_val v.

Section Writes.

Variables (cleaned : string) (pid nid ndate ntype : pyval) (ent : Ent).

(** One write of the loop body for the mention [ent]: a field of the record
    or one of the three HER2 variables is set, and one evidence row is added
    for it. *)
Inductive write : xstate -> xstate -> Prop :=
| write_field (f : string) (v : pyval) (sv : string) (c : nat) (st : xstate) :
    In f loop_fields -> v <> VNone -> _norm_val (VStr sv) = _norm_val v ->
    write st (add_ev cleaned pid nid ndate ntype f sv ent (label_ ent) c (set_pheno f v st))
| write_ihc (sv : string) (c : nat) (st : xstate) :
    write st (add_ev cleaned pid nid ndate ntype "her2_ihc_score" sv ent (label_ ent) c
                (mkX (phenos st) (her2_explicit st) (Some sv) (her2_fish st) (evidence st)))
| write_explicit (sv : string) (c : nat) (st : xstate) :
    write st (add_ev cleaned pid nid ndate ntype "her2_status" sv ent (label_ ent) c
                (mkX (phenos st) (Some sv) (her2_ihc st) (her2_fish st) (evidence st)))
| write_fish (sv : string) (c : nat) (st : xstate) :
    write st (add_ev cleaned pid nid ndate ntype "her2_fish" sv ent (label_ ent) c
                (mkX (phenos st) (her2_explicit st) (her2_ihc st) (Some sv) (evidence st))).

End Writes.

(** The state of the loop agrees with its evidence: a field the loop has not
    set has no evidence row, a field it has set has a row backing its value,
    and so has each HER2 variable. *)
Definition backed (st : xstate) : Prop :=
  (forall f, In f loop_fields ->
     (get (phenos st) f = VNone /\ Forall (fun e => field e <> f) (evidence st))
     \/ (get (phenos st) f <> VNone /\ Exists (backs f (get (phenos st) f)) (evidence st)))
  /\ (forall sv, her2_ihc st = Some sv ->
        Exists (fun e => field e = "her2_ihc_score" /\ value e = sv) (evidence st))
  /\ (forall sv, her2_fish st = Some sv ->
        Exists (fun e => field e = "her2_fish" /\ value e = sv) (evidence st)).

(** The note record has its sixteen keys and the identity it was given. *)
Definition shaped (pid nid ndate ntype : pyval) (ph : gmap string pyval) : Prop :=
  dom ph = list_to_set note_keys
  /\ get ph "patient_id" = pid /\ get ph "note_id" = nid
  /\ get ph "note_date" = ndate /\ get ph "note_type" = ntype.

(** A note with an IHC score after its FISH result. *)
Module Her2Note.

Definition note_text : string := "FISH: not amplified. HER2 3+ by IHC.".
Definition ent_fish : Ent :=
  mkEnt "HER2_FISH_NEG" "not amplified" 6 19 "FISH: not amplified." false false.
Definition ent_ihc : Ent := mkEnt "HER2_IHC" "HER2 3+" 21 28 "HER2 3+ by IHC." false false.
Definition nlp (cleaned : string) : list Ent := [ent_fish; ent_ihc].

End Her2Note.

(** What the loop reads of a mention when it writes the record. *)
Definition content (ent : Ent) : string * string * string :=
  (label_ ent, text ent, sent_text ent).

(** The state of the loop without its evidence. *)
Definition decided (st : xstate)
  : gmap string pyval * option string * option string * option string :=
  (phenos st, her2_explicit st, her2_ihc st, her2_fish st).

(** The mentions of [Her2Note], the FISH result negated and the score
    uncertain. *)
Definition nlp_flagged (cleaned : string) : list Ent :=
  [mkEnt "HER2_FISH_NEG" "not amplified" 6 19 "FISH: not amplified." true false;
   mkEnt "HER2_IHC" "HER2 3+" 21 28 "HER2 3+ by IHC." false true].

(** ** The values of a note record *)

Definition one_of_strings (l : list string) (v : pyval) : bool :=
  match v with
  | VStr s => Py.mem s l
  | _ => false
  end.

Definition percent_value (v : pyval) : bool :=
  match v with
  | VInt z => (0 <=? z)%Z && (z <=? 100)%Z
  | _ => false
  end.

(** The value [v] is none or one of the values the field [f] of a note
    record takes; a field not named here takes any value. *)
Definition in_domain (f : string) (v : pyval) : bool :=
  is_none v ||
  (if Py.mem f ["er_status"; "pr_status"] then one_of_strings ["Positive"; "Negative"] v
   else if Py.mem f ["er_percent"; "pr_percent"; "ki67_percent"] then percent_value v
   else if String.eqb f "her2_status"
   then one_of_strings ["Positive"; "Negative"; "Equivocal"] v
   else if String.eqb f "her2_fish" then one_of_strings ["Amplified"; "Not amplified"] v
   else if String.eqb f "histology" then one_of_strings ["Mixed"; "DCIS"; "IDC"; "ILC"] v
   else if String.eqb f "grade" then one_of_strings ["1"; "2"; "3"] v
   else true).

(** The fields [in_domain] restricts. *)
Definition domain_fields : list string :=
  ["er_status"; "pr_status"; "er_percent"; "pr_percent"; "ki67_percent";
   "her2_status"; "her2_fish"; "histology"; "grade"].

Definition valid_record (ph : gmap string pyval) : Prop :=
  Forall (fun f => in_domain f (get ph f) = true) domain_fields.

(** The record of the loop is valid and its FISH variable holds one of the
    two FISH texts. *)
Definition valid (st : xstate) : Prop :=
  valid_record (phenos st)
  /\ one_of_strings ["Amplified"; "Not amplified"] (of_opt (her2_fish st))
     || is_none (of_opt (her2_fish st)) = true.

(** * Properties *)

(** ** The embedding on sample inputs *)

Example strip_ex : Py.strip "  Not Amplified " = "Not Amplified".
Proof. reflexivity. Qed.

Example str_of_int_ex : Py.str_of_int 35 = "35" /\ Py.str_of_int 0 = "0" /\ Py.str_of_int (-7) = "-7".
Proof. repeat split; reflexivity. Qed.

Example normalize_percent_ex :
  normalize_percent "7%" = Some 7%Z /\ normalize_percent "150%" = None
  /\ normalize_percent "Ki-67: 35 %" = Some 67%Z.
Proof. repeat split; reflexivity. Qed.

Example normalize_stage_ex :
  normalize_stage "Pathologic Stage IIA." = Some "IIA"
  /\ normalize_stage "stage iv disease" = Some "IV"
  /\ normalize_stage "restage ii" = None
  /\ normalize_stage "stage i cancer" = Some "I"
  /\ normalize_stage "stage iid" = None.
Proof. repeat split; reflexivity. Qed.

Example normalize_grade_ex :
  normalize_grade "Histologic Grade: 2" = Some "2" /\ normalize_grade "grade 4" = None.
Proof. repeat split; reflexivity. Qed.

Example her2_ex :
  her2_final_status (VStr "3+") (VStr "not amplified") VNone = (Some "Negative", Some "fish")
  /\ her2_final_status (VStr "3+") VNone (VStr "Negative") = (Some "Positive", Some "ihc").
Proof. repeat split; reflexivity. Qed.

(** ** HER2 reconciliation (section 4.2 of the specification) *)

Lemma fish_to_status_rules (fish : pyval) :
  fish_to_status fish = SpecHer2.fish_determinate fish.
Proof.
  unfold fish_to_status, SpecHer2.fish_determinate.
  destruct (truthy fish); cbn [negb]; [|reflexivity].
  set (s := Py.lower (Py.strip (py_str fish))).
  cbn [SpecHer2.first_rule SpecHer2.fish_rules existsb].
  rewrite !orb_false_r.
  destruct (Py.contains "not amplified" s), (Py.contains "nonampl" s),
    (Py.contains "non-ampl" s); cbn [orb]; reflexivity.
Qed.

Lemma ihc_to_status_table (ihc : pyval) :
  ihc_to_status ihc = SpecHer2.ihc_mapped ihc.
Proof.
  unfold ihc_to_status, SpecHer2.ihc_mapped.
  destruct (truthy ihc); cbn [negb]; [|reflexivity].
  set (s := Py.remove_ws _).
  unfold Py.mem. cbn [existsb SpecHer2.assoc SpecHer2.ihc_table].
  rewrite !orb_false_r.
  repeat (destruct (String.eqb s _); cbn [orb]; try reflexivity).
Qed.

Lemma fish_status_truthy (fish : pyval) (s : string) :
  fish_to_status fish = Some s -> str_truthy (Some s) = true.
Proof.
  rewrite fish_to_status_rules. unfold SpecHer2.fish_determinate.
  destruct (truthy fish); [|discriminate].
  generalize (Py.lower (Py.strip (py_str fish))). intros t.
  cbn [SpecHer2.first_rule SpecHer2.fish_rules].
  repeat (destruct (existsb _ _); [intros [= <-]; reflexivity|]).
  discriminate.
Qed.

Lemma ihc_status_truthy (ihc : pyval) (s : string) :
  ihc_to_status ihc = Some s -> str_truthy (Some s) = true.
Proof.
  rewrite ihc_to_status_table. unfold SpecHer2.ihc_mapped.
  destruct (truthy ihc); [|discriminate].
  generalize (Py.remove_ws (Py.lower (Py.strip (py_str ihc)))). intros t.
  cbn [SpecHer2.assoc SpecHer2.ihc_table].
  repeat (destruct (String.eqb t _); [intros [= <-]; reflexivity|]).
  discriminate.
Qed.

(** C1.  The reconciliation is the strict, short-circuiting precedence of
    the specification: a FISH text that is determinate by the keyword rules
    gives (status, "fish") whatever the IHC score and the explicit text are;
    otherwise an IHC score in the table gives (status, "ihc"); otherwise an
    explicit text normalising to Positive, Negative or Equivocal gives
    (status, "explicit"); otherwise (none, none).  In particular IHC "3+"
    with FISH "not amplified" gives (Negative, "fish"), and IHC "3+" with
    no FISH and explicit "Negative" gives (Positive, "ihc"). *)
Theorem her2_final_status_precedence :
  (forall ihc_score fish explicit : pyval,
     her2_final_status ihc_score fish explicit = SpecHer2.reconcile ihc_score fish explicit)
  /\ her2_final_status (VStr "3+") (VStr "not amplified") VNone
     = (Some "Negative", Some "fish")
  /\ her2_final_status (VStr "3+") VNone (VStr "Negative")
     = (Some "Positive", Some "ihc").
Proof.
  split; [|split; reflexivity].
  intros ihc fish explicit.
  unfold her2_final_status, SpecHer2.reconcile.
  rewrite <- fish_to_status_rules, <- ihc_to_status_table.
  destruct (fish_to_status fish) as [s|] eqn:Hf.
  { rewrite (fish_status_truthy _ _ Hf). reflexivity. }
  cbn [str_truthy].
  destruct (ihc_to_status ihc) as [s|] eqn:Hi.
  { rewrite (ihc_status_truthy _ _ Hi). reflexivity. }
  cbn [str_truthy].
  unfold SpecHer2.explicit_status, opt_mem.
  destruct (normalize_status explicit) as [s|]; [|reflexivity].
  destruct (Py.mem s _); reflexivity.
Qed.

(** ** Evidence support (section 4.4) *)

Lemma _evidence_support_loop_spec (rows : list evobj) (pid : pyval) (f tv : string)
    (any_support : bool) :
  _evidence_support_loop rows pid f tv any_support
  = (existsb (fun e => ev_matches pid f tv e && ev_clean e) rows,
     any_support || existsb (ev_matches pid f tv) rows).
Proof.
  revert any_support.
  induction rows as [|e rows IH]; intros any_support; cbn [_evidence_support_loop existsb].
  - now rewrite orb_false_r.
  - unfold ev_matches at 1 3. unfold ev_clean at 1.
    destruct (py_eq (a_patient_id e) pid); cbn [negb andb orb]; [|apply IH].
    destruct (py_eq (py_or (a_field e) (a_entity e)) (VStr f)); cbn [negb andb orb]; [|apply IH].
    destruct (String.eqb (_norm_val (a_value e)) tv); cbn [negb andb orb]; [|apply IH].
    destruct (negb (a_is_negated e) && negb (a_is_uncertain e)); cbn [orb].
    + now rewrite orb_true_r.
    + rewrite IH. now rewrite orb_true_r.
Qed.

Lemma existsb_elem_of {A : Type} (p : A -> bool) (l : list A) :
  existsb p l = true <-> exists x, x ∈ l /\ p x = true.
Proof.
  rewrite existsb_exists. split; intros (x & Hx & Hp); exists x; split; auto;
    now apply list_elem_of_In.
Qed.

(** C6.  [_evidence_support] answers (clean, any): clean holds exactly
    when some evidence row of the patient and the field whose canonical value
    equals the canonical query value is neither negated nor uncertain; any
    holds exactly when some such row exists whatever its flags.  Values are
    compared canonically: an integral float gives its integer text (35.0 and
    "35" agree), a string is trimmed.  The field of a row is its [field]
    attribute, or its legacy alias [entity] where [field] is missing or
    empty. *)
Theorem _evidence_support_spec :
  (forall (rows : list evobj) (pid : pyval) (f : string) (v : pyval),
     ((_evidence_support rows pid f v).1 = true <->
      exists e, e ∈ rows /\ ev_matches pid f (_norm_val v) e = true
                /\ a_is_negated e = false /\ a_is_uncertain e = false)
     /\ ((_evidence_support rows pid f v).2 = true <->
         exists e, e ∈ rows /\ ev_matches pid f (_norm_val v) e = true))
  /\ (forall (pid : pyval) (f tv : string) (e : evobj),
        ev_matches pid f tv e = true <->
        py_eq (a_patient_id e) pid = true
        /\ py_eq (if truthy (a_field e) then a_field e else a_entity e) (VStr f) = true
        /\ _norm_val (a_value e) = tv)
  /\ (forall (z : Z) (s : string), _norm_val (VFloat (PyFloat (Some z) s)) = Py.str_of_int z)
  /\ (forall s : string, _norm_val (VStr s) = Py.strip s)
  /\ _norm_val (VFloat (PyFloat (Some 35%Z) "35.0")) = _norm_val (VStr "35")
  /\ (_evidence_support
        [mkEvobj (VStr "p1") VNone (VStr "ki67_percent") (VStr "35") false false]
        (VStr "p1") "ki67_percent" (VFloat (PyFloat (Some 35%Z) "35.0"))) = (true, true).
Proof.
  split; [|split; [|repeat split; reflexivity]].
  - intros rows pid f v. unfold _evidence_support.
    rewrite _evidence_support_loop_spec. cbn [fst snd orb]. split.
    + rewrite existsb_elem_of. split.
      * intros (e & He & Hm). apply andb_true_iff in Hm as [Hm Hc].
        unfold ev_clean in Hc. apply andb_true_iff in Hc as [Hn Hu].
        apply negb_true_iff in Hn, Hu. eauto 6.
      * intros (e & He & Hm & Hn & Hu). exists e. split; [exact He|].
        unfold ev_clean. now rewrite Hm, Hn, Hu.
    + apply existsb_elem_of.
  - intros pid f tv e. unfold ev_matches, py_or.
    rewrite !andb_true_iff, String.eqb_eq. tauto.
Qed.

(** ** Ranking *)

Lemma key_lt_spec (a b : Z * Z) :
  key_lt a b = true <-> (a.1 < b.1 \/ (a.1 = b.1 /\ a.2 < b.2))%Z.
Proof.
  unfold key_lt. rewrite orb_true_iff, andb_true_iff, !Z.ltb_lt, Z.eqb_eq. tauto.
Qed.

Lemma key_lt_false (a b : Z * Z) :
  key_lt a b = false <-> (b.1 < a.1 \/ (a.1 = b.1 /\ b.2 <= a.2))%Z.
Proof.
  rewrite <- not_true_iff_false, key_lt_spec. lia.
Qed.


Section SortedFacts.
Context {A : Type} (key : A -> Z * Z).

Lemma ge_key_trans (a b c : A) : ge_key key a b -> ge_key key b c -> ge_key key a c.
Proof. unfold ge_key. rewrite !key_lt_false. lia. Qed.

Lemma insert_desc_perm (x : A) (l : list A) :
  Permutation (insert_desc key x l) (x :: l).
Proof.
  induction l as [|y l IH]; cbn [insert_desc]; [reflexivity|].
  destruct (key_lt (key x) (key y)); [|reflexivity].
  rewrite IH. apply perm_swap.
Qed.

Lemma sorted_reverse_perm (l : list A) : Permutation (sorted_reverse key l) l.
Proof.
  induction l as [|x l IH]; cbn; [reflexivity|].
  rewrite insert_desc_perm. now constructor.
Qed.

Lemma insert_desc_sorted (x : A) (l : list A) :
  StronglySorted (ge_key key) l -> StronglySorted (ge_key key) (insert_desc key x l).
Proof.
  induction 1 as [|y l Hs IH Hall]; cbn [insert_desc].
  - repeat constructor.
  - destruct (key_lt (key x) (key y)) eqn:Hxy.
    + constructor; [exact IH|].
      rewrite insert_desc_perm. constructor; [|exact Hall].
      unfold ge_key. apply key_lt_false. apply key_lt_spec in Hxy. lia.
    + constructor; [now constructor|].
      constructor; [exact Hxy|].
      eapply Forall_impl; [exact Hall|].
      intros z Hz. eapply ge_key_trans; eauto.
Qed.

Lemma sorted_reverse_sorted (l : list A) : StronglySorted (ge_key key) (sorted_reverse key l).
Proof.
  induction l as [|x l IH]; cbn; [constructor|]. now apply insert_desc_sorted.
Qed.

Lemma strongly_sorted_lookup (l : list A) (i j : nat) (a b : A) :
  StronglySorted (ge_key key) l -> l !! i = Some a -> l !! j = Some b -> (i < j)%nat ->
  ge_key key a b.
Proof.
  intros Hs. revert i j. induction Hs as [|x l Hs IH Hall]; intros i j Hi Hj Hlt.
  - discriminate.
  - destruct j as [|j]; [lia|]. cbn in Hj.
    destruct i as [|i]; cbn in Hi.
    + injection Hi as <-. rewrite Forall_forall in Hall.
      apply Hall. eapply list_elem_of_lookup_2; eauto.
    + eapply IH; eauto. lia.
Qed.



(** A row whose key is above all the others comes first. *)
Lemma insert_desc_head (x : A) (l : list A) :
  Forall (fun y => key_lt (key x) (key y) = false) l -> insert_desc key x l = x :: l.
Proof.
  destruct 1 as [|y l Hy _]; cbn [insert_desc]; [reflexivity|]. now rewrite Hy.
Qed.

Lemma sorted_reverse_top (l1 l2 : list A) (p : A) :
  Forall (fun y => key_lt (key y) (key p) = true) (l1 ++ l2) ->
  sorted_reverse key (l1 ++ p :: l2) = p :: sorted_reverse key (l1 ++ l2).
Proof.
  induction l1 as [|a l1 IH]; intros Hall.
  - cbn [app] in *. cbn [sorted_reverse foldr]. fold (sorted_reverse key l2).
    apply insert_desc_head.
    rewrite sorted_reverse_perm.
    eapply Forall_impl; [exact Hall|].
    intros y Hy. apply key_lt_false. apply key_lt_spec in Hy. lia.
  - cbn [app] in *. apply Forall_cons_1 in Hall as [Ha Hall].
    cbn [sorted_reverse foldr]. fold (sorted_reverse key (l1 ++ p :: l2)).
    fold (sorted_reverse key (l1 ++ l2)).
    rewrite (IH Hall). cbn [insert_desc]. now rewrite Ha.
Qed.

End SortedFacts.

(** ** The record under construction *)

Lemma get_insert (m : row) (k' k : string) (v : pyval) :
  get (<[k' := v]> m) k = if String.eqb k k' then v else get m k.
Proof.
  unfold get. destruct (String.eqb k k') eqn:E.
  - apply String.eqb_eq in E as ->. now rewrite lookup_insert_eq.
  - apply String.eqb_neq in E. rewrite lookup_insert_ne; [reflexivity|congruence].
Qed.

Lemma get_empty (k : string) : get ∅ k = VNone.
Proof. unfold get. now rewrite lookup_empty. Qed.

Lemma append_eqb_l (f a b : string) : String.eqb (f +:+ a) (f +:+ b) = String.eqb a b.
Proof.
  induction f as [|c f IH]; [reflexivity|].
  change (String.eqb (String c (f +:+ a)) (String c (f +:+ b)) = String.eqb a b).
  cbn [String.eqb]. now rewrite Ascii.eqb_refl.
Qed.

Lemma append_eqb_self (f a : string) :
  String.eqb a "" = false -> String.eqb f (f +:+ a) = false.
Proof.
  intros Ha. induction f as [|c f IH].
  - now rewrite String.eqb_sym.
  - change (String.eqb (String c f) (String c (f +:+ a)) = false).
    cbn [String.eqb]. now rewrite Ascii.eqb_refl.
Qed.

Section FieldLoop.
Variable dtparse : string -> option date.
Variables (ranked : list row) (evidence_rows : list evobj) (pid : pyval).

Abbreviation pick := (pick_field ranked evidence_rows pid).

Lemma pick_field_frame (out : row) (g k : string) :
  Py.mem k (written_hard g) = false ->
  (Py.mem k (soft_slot g) = true -> truthy (get out k) = true) ->
  get (pick out g) k = get out k.
Proof.
  unfold written_hard, Py.mem. cbn [existsb app]. rewrite !orb_false_iff.
  intros (H1 & H2 & H3 & H4 & Hh) Hs.
  unfold pick_field. destruct (choose _ _ _ _) as [c [r|]]; [|reflexivity].
  unfold hard_slot in Hh. unfold soft_slot in Hs.
  destruct (String.eqb g "er_status");
    [cbn in Hh; apply orb_false_iff in Hh as [Hh _];
     rewrite !get_insert, Hh, H4, H3, H2, H1; reflexivity|].
  destruct (String.eqb g "er_percent").
  { rewrite get_insert. destruct (String.eqb k "er_confidence") eqn:E.
    - apply String.eqb_eq in E as ->.
      rewrite !get_insert, H4, H3, H2, H1.
      unfold py_or. now rewrite Hs by reflexivity.
    - rewrite !get_insert, H4, H3, H2, H1. reflexivity. }
  destruct (String.eqb g "pr_status");
    [cbn in Hh; apply orb_false_iff in Hh as [Hh _];
     rewrite !get_insert, Hh, H4, H3, H2, H1; reflexivity|].
  destruct (String.eqb g "pr_percent").
  { rewrite get_insert. destruct (String.eqb k "pr_confidence") eqn:E.
    - apply String.eqb_eq in E as ->.
      rewrite !get_insert, H4, H3, H2, H1.
      unfold py_or. now rewrite Hs by reflexivity.
    - rewrite !get_insert, H4, H3, H2, H1. reflexivity. }
  destruct (String.eqb g "ki67_percent");
    [cbn in Hh; apply orb_false_iff in Hh as [Hh _];
     rewrite !get_insert, Hh, H4, H3, H2, H1; reflexivity|].
  destruct (String.eqb g "histology");
    [cbn in Hh; apply orb_false_iff in Hh as [Hh _];
     rewrite !get_insert, Hh, H4, H3, H2, H1; reflexivity|].
  rewrite !get_insert, H4, H3, H2, H1. reflexivity.
Qed.

(** A key that one field [f] of the list decides, and that no other field
    of the list disturbs, keeps the value [f] gave it. *)
Lemma fold_pick_get (fs : list string) (f k : string) (val : pyval) :
  forall out : row,
  In f fs ->
  forallb (fun g => String.eqb g f
                    || (negb (Py.mem k (written_hard g))
                        && (negb (Py.mem k (soft_slot g)) || truthy val))) fs = true ->
  (forall out', get (pick out' f) k = val) ->
  get (fold_left pick fs out) k = val.
Proof.
  induction fs as [|g fs IH] using rev_ind; intros out Hin Hall Hf; [destruct Hin|].
  rewrite fold_left_app. cbn [fold_left].
  rewrite forallb_app in Hall. apply andb_true_iff in Hall as [Hall Hg].
  cbn [forallb] in Hg. rewrite andb_true_r in Hg.
  destruct (String.eqb g f) eqn:E.
  - apply String.eqb_eq in E as ->. apply Hf.
  - cbn [orb] in Hg. apply andb_true_iff in Hg as [Hh Hs].
    apply negb_true_iff in Hh.
    assert (Hf' : In f fs).
    { apply in_app_or in Hin as [Hin|[->|[]]]; [exact Hin|].
      now rewrite String.eqb_refl in E. }
    specialize (IH out Hf' Hall Hf).
    rewrite pick_field_frame; [exact IH|exact Hh|].
    intros Hsoft. rewrite Hsoft in Hs. cbn in Hs. now rewrite IH.
Qed.

(** A key no field of the list writes keeps its value. *)
Lemma fold_pick_frame (fs : list string) (k : string) :
  forall out : row,
  forallb (fun g => negb (Py.mem k (written_hard g)) && negb (Py.mem k (soft_slot g))) fs
  = true ->
  get (fold_left pick fs out) k = get out k.
Proof.
  induction fs as [|g fs IH]; intros out Hall; [reflexivity|].
  cbn [forallb] in Hall. apply andb_true_iff in Hall as [Hg Hall].
  apply andb_true_iff in Hg as [Hh Hs]. apply negb_true_iff in Hh, Hs.
  cbn [fold_left]. rewrite IH by exact Hall.
  apply pick_field_frame; [exact Hh|]. rewrite Hs. discriminate.
Qed.

(** What one round writes for the field it chose a value for. *)
Lemma pick_field_chosen (out : row) (f : string) (v : pyval) (r : row) :
  In f base_fields ->
  choose ranked evidence_rows pid f = (v, Some r) ->
  get (pick out f) f = v
  /\ get (pick out f) (f +:+ "__source_note_id") = get r "note_id"
  /\ get (pick out f) (f +:+ "__source_note_type") = get r "note_type"
  /\ get (pick out f) (f +:+ "__source_note_date") = get r "note_date"
  /\ (forall k, In k (hard_slot f) ->
        get (pick out f) k = VStr (_confidence_bucket (get r "note_type"))).
Proof.
  intros Hin Hc. unfold pick_field. rewrite Hc.
  cbn [base_fields In] in Hin.
  repeat (destruct Hin as [<-|Hin];
          [cbn [String.eqb Ascii.eqb Bool.eqb]; repeat split;
           try (rewrite !get_insert; reflexivity);
           intros k Hk; vm_compute in Hk;
           first [destruct Hk as [<-|[]]; rewrite !get_insert; reflexivity
                 |destruct Hk]|]).
  destruct Hin.
Qed.

End FieldLoop.

Lemma get_set_opt (k : string) (o : option string) (m : row) (k' : string) :
  get (set_opt k o m) k'
  = if String.eqb k' k then match o with Some s => VStr s | None => get m k' end
    else get m k'.
Proof.
  unfold set_opt. destruct o; [apply get_insert|]. now destruct (String.eqb k' k).
Qed.

Lemma _confidence_bucket_truthy (t : pyval) : truthy (VStr (_confidence_bucket t)) = true.
Proof.
  unfold _confidence_bucket.
  destruct (negb (truthy t)); [reflexivity|].
  destruct (Py.contains "addendum" _); [reflexivity|].
  destruct (Py.contains "path" _); [reflexivity|].
  destruct (_ || _); [reflexivity|].
  destruct (Py.contains "radio" _); reflexivity.
Qed.

Section Aggregated.
Variable dtparse : string -> option date.
Variables (first : row) (rest : list row) (evidence_rows : list evobj).
Hypothesis Hpid : truthy (get first "patient_id") = true.

Let pid := get first "patient_id".
Let ranked := sorted_reverse (row_key dtparse) (first :: rest).
Let out0 : row := init_sources (init_columns {["patient_id" := pid]}).
Let picked := fold_left (pick_field ranked evidence_rows pid) base_fields out0.

(** The record returned for a patient: the picked fields, then the two
    derived HER2 keys. *)
Lemma aggregate_patient_eq :
  aggregate_patient dtparse (first :: rest) evidence_rows
  = let c := _compute_her2_final (get picked "her2_ihc_score") (get picked "her2_fish") in
    set_opt "her2_confidence" c.2 (set_opt "her2_final_status" c.1 picked).
Proof.
  unfold aggregate_patient. rewrite Hpid. cbn [negb].
  fold pid. fold out0. fold ranked. fold picked.
  now destruct (_compute_her2_final _ _).
Qed.

Lemma aggregate_get_picked (k : string) :
  String.eqb k "her2_final_status" = false ->
  String.eqb k "her2_confidence" = false ->
  get (aggregate_patient dtparse (first :: rest) evidence_rows) k = get picked k.
Proof.
  intros H1 H2. rewrite aggregate_patient_eq. cbn zeta.
  now rewrite !get_set_opt, H2, H1.
Qed.

(** What the record holds for a base field a row was chosen for. *)
Lemma aggregate_chosen (f : string) (v : pyval) (r : row) :
  In f base_fields ->
  choose ranked evidence_rows pid f = (v, Some r) ->
  let out := aggregate_patient dtparse (first :: rest) evidence_rows in
  get out f = v
  /\ get out (f +:+ "__source_note_id") = get r "note_id"
  /\ get out (f +:+ "__source_note_type") = get r "note_type"
  /\ get out (f +:+ "__source_note_date") = get r "note_date"
  /\ (forall k, In k (hard_slot f) ->
        get out k = VStr (_confidence_bucket (get r "note_type"))).
Proof.
  intros Hin Hc out.
  assert (Hp : forall out', _) by
    (intros out'; exact (pick_field_chosen ranked evidence_rows pid out' f v r Hin Hc)).
  cbn [base_fields In] in Hin.
  repeat (destruct Hin as [<-|Hin];
    [repeat split;
     try (subst out; rewrite aggregate_get_picked by reflexivity;
          match type of Hc with
          | choose _ _ _ ?g = _ => apply fold_pick_get with (f := g)
          end;
          [cbn; tauto|vm_compute; reflexivity|intros out'; apply (Hp out')]);
     intros k Hk; vm_compute in Hk;
     first [destruct Hk as [<-|[]];
            subst out; rewrite aggregate_get_picked by reflexivity;
            match type of Hc with
            | choose _ _ _ ?g = _ => apply fold_pick_get with (f := g)
            end;
            [cbn; tauto
            |rewrite _confidence_bucket_truthy; vm_compute; reflexivity
            |intros out'; apply (Hp out'); cbn; tauto]
           |destruct Hk]|]).
  destruct Hin.
Qed.

End Aggregated.

(** ** The two passes over the ranked rows *)

Lemma choose_head_clean (ranked : list row) (ev : list evobj) (pid : pyval)
    (f : string) (p : row) :
  is_blank (get p f) = false ->
  (_evidence_support ev pid f (get p f)).1 = true ->
  choose (p :: ranked) ev pid f = (get p f, Some p).
Proof.
  intros Hb Hs. unfold choose. cbn [first_clean]. rewrite Hb, Hs. cbn [fst].
  destruct (get p f); [discriminate Hb| | |]; reflexivity.
Qed.

Lemma first_clean_none (ranked : list row) (ev : list evobj) (pid : pyval) (f : string) :
  (forall v, (_evidence_support ev pid f v).1 = false) ->
  first_clean ranked ev pid f = (VNone, None).
Proof.
  intros Hs. induction ranked as [|r ranked IH]; cbn [first_clean]; [reflexivity|].
  rewrite Hs. now destruct (is_blank (get r f)).
Qed.

Lemma first_nonempty_spec (pre post : list row) (r : row) (f : string)
    (c : pyval * option row) :
  Forall (fun x => is_blank (get x f) = true) pre ->
  is_blank (get r f) = false ->
  first_nonempty (pre ++ r :: post) f c = (get r f, Some r).
Proof.
  induction 1 as [|x pre Hx _ IH]; intros Hr; cbn [first_nonempty app].
  - now rewrite Hr.
  - rewrite Hx. now apply IH.
Qed.

(** A field all of whose evidence is negated has no clean support. *)
Lemma negated_no_clean (ev : list evobj) (pid : pyval) (f : string) :
  (forall e, e ∈ ev ->
     py_eq (a_patient_id e) pid = true ->
     py_eq (py_or (a_field e) (a_entity e)) (VStr f) = true ->
     a_is_negated e = true) ->
  forall v, (_evidence_support ev pid f v).1 = false.
Proof.
  intros Hneg v. unfold _evidence_support.
  rewrite _evidence_support_loop_spec. cbn [fst].
  apply not_true_iff_false. rewrite existsb_elem_of.
  intros (e & He & Hm). apply andb_true_iff in Hm as [Hm Hc].
  unfold ev_matches in Hm. rewrite !andb_true_iff in Hm. destruct Hm as [[H1 H2] _].
  unfold ev_clean in Hc. now rewrite (Hneg e He H1 H2) in Hc.
Qed.

(** ** Dates *)

Lemma days_before_year_nonneg (y : Z) : (1 <= y -> 0 <= days_before_year y)%Z.
Proof.
  intros Hy. unfold days_before_year.
  assert (H1 : ((y - 1) / 100 <= (y - 1) / 4)%Z) by (apply Z.div_le_compat_l; lia).
  assert (H2 : (0 <= (y - 1) / 400)%Z) by (apply Z.div_pos; lia).
  lia.
Qed.

Lemma days_before_month_nonneg (y : Z) (m : positive) : (0 <= days_before_month y m)%Z.
Proof.
  unfold days_before_month.
  assert (H : forall b : bool, (0 <= if b then 1 else 0)%Z) by (intros []; lia).
  specialize (H ((2 <? Z.pos m)%Z && is_leap y)).
  repeat match goal with
         | |- context [match ?x with _ => _ end] => destruct x
         end; lia.
Qed.

Lemma toordinal_pos (d : date) : (1 <= toordinal d)%Z.
Proof.
  unfold toordinal.
  pose proof (days_before_year_nonneg (Z.pos (year d)) ltac:(lia)).
  pose proof (days_before_month_nonneg (Z.pos (year d)) (month d)).
  lia.
Qed.

(** ** Aggregation (section 4.5) *)



(** C9.  Aggregating no note record, or note records the first of which
    has no patient id, returns the empty record; the aggregator is a total
    function on these inputs, it has no error outcome. *)
Theorem aggregate_patient_empty (dtparse : string -> option date) :
  (forall evidence_rows, aggregate_patient dtparse [] evidence_rows = ∅)
  /\ (forall first rest evidence_rows,
        truthy (get first "patient_id") = false ->
        aggregate_patient dtparse (first :: rest) evidence_rows = ∅).
Proof.
  split; [reflexivity|].
  intros first rest ev H. unfold aggregate_patient. now rewrite H.
Qed.

Lemma aggregate_patient_empty_witness :
  truthy (get Scenario.anonymous "patient_id") = false
  /\ aggregate_patient Scenario.dtparse [Scenario.anonymous; Scenario.note_P] Scenario.clean_B
     = ∅.
Proof.
  split; [reflexivity|].
  apply (proj2 (aggregate_patient_empty Scenario.dtparse)). reflexivity.
Defined.

(** C10.  A note date that is absent, empty or on which the parser fails
    gets the date ordinal 0 in the ranking key, and every parsed date gets an
    ordinal of at least 1; so of two notes of equal note-type precedence, the
    one with a parsable date always stands before the one without in the
    ranked list. *)
Theorem unparsable_date_ranks_last (dtparse : string -> option date) :
  _parse_date dtparse VNone = None
  /\ _parse_date dtparse (VStr "") = None
  /\ (forall s, dtparse s = None -> _parse_date dtparse (VStr s) = None)
  /\ (forall t d, _parse_date dtparse d = None -> (_note_score dtparse t d).2 = 0%Z)
  /\ (forall t d dt, _parse_date dtparse d = Some dt -> (1 <= (_note_score dtparse t d).2)%Z)
  /\ (forall (rows : list row) (i j : nat) (r1 r2 : row),
        sorted_reverse (row_key dtparse) rows !! i = Some r1 ->
        sorted_reverse (row_key dtparse) rows !! j = Some r2 ->
        (row_key dtparse r1).1 = (row_key dtparse r2).1 ->
        _parse_date dtparse (get r1 "note_date") <> None ->
        _parse_date dtparse (get r2 "note_date") = None ->
        (i < j)%nat).
Proof.
  split; [reflexivity|]. split; [reflexivity|]. split.
  { intros s Hs. unfold _parse_date. now destruct (negb (truthy (VStr s))). }
  split.
  { intros t d Hd. unfold _note_score. now rewrite Hd. }
  split.
  { intros t d dt Hd. unfold _note_score. rewrite Hd. apply toordinal_pos. }
  intros rows i j r1 r2 Hi Hj Ht H1 H2.
  assert (Hlt : key_lt (row_key dtparse r2) (row_key dtparse r1) = true).
  { apply key_lt_spec. right. split; [now symmetry|].
    unfold row_key, _note_score in *. cbn [fst snd] in *. rewrite H2.
    destruct (_parse_date dtparse (get r1 "note_date")) as [dt|]; [|congruence].
    pose proof (toordinal_pos dt). lia. }
  destruct (Nat.lt_trichotomy i j) as [Hij|[->|Hji]]; [exact Hij| |].
  - rewrite Hi in Hj. injection Hj as <-. apply key_lt_spec in Hlt. lia.
  - pose proof (strongly_sorted_lookup (row_key dtparse) _ j i r2 r1
                  (sorted_reverse_sorted _ rows) Hj Hi Hji) as Hge.
    unfold ge_key in Hge. congruence.
Qed.

Lemma unparsable_date_ranks_last_witness :
  sorted_reverse (row_key Scenario.dtparse) [Scenario.note_U; Scenario.note_P] !! 0%nat
  = Some Scenario.note_P
  /\ sorted_reverse (row_key Scenario.dtparse) [Scenario.note_U; Scenario.note_P] !! 1%nat
     = Some Scenario.note_U
  /\ (0 < 1)%nat.
Proof.
  assert (H0 : sorted_reverse (row_key Scenario.dtparse)
                 [Scenario.note_U; Scenario.note_P] !! 0%nat = Some Scenario.note_P)
    by reflexivity.
  assert (H1 : sorted_reverse (row_key Scenario.dtparse)
                 [Scenario.note_U; Scenario.note_P] !! 1%nat = Some Scenario.note_U)
    by reflexivity.
  split; [exact H0|]. split; [exact H1|].
  destruct (unparsable_date_ranks_last Scenario.dtparse) as (_ & _ & _ & _ & _ & H).
  apply (H _ _ _ _ _ H0 H1); [reflexivity|discriminate|reflexivity].
Defined.



(** C4.  Negation gap.  Where every evidence row of the patient for a
    base field is negated, the first pass finds no value with clean support,
    and the fallback pass still selects the first non-empty value of the
    ranked notes, with its note as the source: the fallback looks at the
    value only, never at the evidence flags. *)
Theorem negation_gap (dtparse : string -> option date) (first : row) (rest : list row)
    (evidence_rows : list evobj) (f : string) (pre post : list row) (r : row) :
  truthy (get first "patient_id") = true ->
  In f base_fields ->
  (forall e, e ∈ evidence_rows ->
     py_eq (a_patient_id e) (get first "patient_id") = true ->
     py_eq (py_or (a_field e) (a_entity e)) (VStr f) = true ->
     a_is_negated e = true) ->
  sorted_reverse (row_key dtparse) (first :: rest) = pre ++ r :: post ->
  Forall (fun x => is_blank (get x f) = true) pre ->
  is_blank (get r f) = false ->
  let ranked := sorted_reverse (row_key dtparse) (first :: rest) in
  let out := aggregate_patient dtparse (first :: rest) evidence_rows in
  first_clean ranked evidence_rows (get first "patient_id") f = (VNone, None)
  /\ get out f = get r f
  /\ get out (f +:+ "__source_note_id") = get r "note_id"
  /\ get out (f +:+ "__source_note_type") = get r "note_type"
  /\ get out (f +:+ "__source_note_date") = get r "note_date".
Proof.
  intros Hpid Hf Hneg Hrank Hpre Hr ranked out.
  assert (Hclean : first_clean ranked evidence_rows (get first "patient_id") f = (VNone, None))
    by (apply first_clean_none, negated_no_clean, Hneg).
  split; [exact Hclean|].
  assert (Hc : choose ranked evidence_rows (get first "patient_id") f = (get r f, Some r)).
  { unfold choose. rewrite Hclean. cbn [fst]. subst ranked. rewrite Hrank.
    now apply first_nonempty_spec. }
  destruct (aggregate_chosen dtparse first rest evidence_rows Hpid f _ _ Hf Hc)
    as (H1 & H2 & H3 & H4 & _).
  auto.
Qed.

Lemma negation_gap_witness :
  get (aggregate_patient Scenario.dtparse [Scenario.note_N] Scenario.negated_N) "er_status"
  = VStr "Positive"
  /\ (_evidence_support Scenario.negated_N (VStr "p1") "er_status" (VStr "Positive"))
     = (false, true).
Proof.
  split; [|reflexivity].
  refine (proj1 (proj2 (negation_gap Scenario.dtparse Scenario.note_N [] Scenario.negated_N
                          "er_status" [] [] Scenario.note_N _ _ _ _ _ _))).
  - reflexivity.
  - cbn; tauto.
  - intros e He _ _. apply list_elem_of_In in He. destruct He as [<-|[]]. reflexivity.
  - reflexivity.
  - constructor.
  - reflexivity.
Defined.

(** ** The matcher on runs of a character class *)

Lemma list_ascii_of_string_app (a b : string) :
  list_ascii_of_string (a +:+ b) = list_ascii_of_string a ++ list_ascii_of_string b.
Proof.
  induction a as [|c a IH]; [reflexivity|].
  change (c :: list_ascii_of_string (a +:+ b)
          = c :: (list_ascii_of_string a ++ list_ascii_of_string b)).
  now rewrite IH.
Qed.

Lemma length_list_ascii (s : string) : length (list_ascii_of_string s) = String.length s.
Proof. induction s as [|c s IH]; cbn; [reflexivity|]. now rewrite IH. Qed.

Lemma consumed_app (ds rest : list ascii) : Re.consumed (ds ++ rest) rest = ds.
Proof.
  unfold Re.consumed. rewrite length_app.
  replace (length ds + length rest - length rest)%nat with (length ds) by lia.
  rewrite firstn_app, firstn_all, Nat.sub_diag. cbn. apply app_nil_r.
Qed.

Lemma last_char_cons (prev : option ascii) (d : ascii) (ds : list ascii) :
  last_char prev (d :: ds) = last_char (Some d) ds.
Proof.
  unfold last_char. cbn [rev].
  destruct (rev ds) as [|c l] eqn:E; reflexivity.
Qed.

Section RepFacts.
Context {R : Type}.

(** A repetition whose continuation succeeds after the longest run takes
    the longest run. *)
Lemma rep_longest (p : ascii -> bool) (ds rest : list ascii) :
  forall (lo : nat) (hi : option nat) (prev : option ascii) (cs : Re.caps)
         (k : Re.cont (R := R)) (x : R),
  forallb p ds = true ->
  within hi (length ds) ->
  hi = Some (length ds) \/ not_next p rest = true ->
  (lo <= length ds)%nat ->
  k (last_char prev ds) rest cs = Some x ->
  Re.rep p lo hi prev (ds ++ rest) cs k = Some x.
Proof.
  induction ds as [|d ds IH]; intros lo hi prev cs k x Hp Hw Hend Hlo Hk.
  - cbn [app length] in *. assert (lo = 0)%nat as -> by lia.
    destruct rest as [|c rest]; cbn [Re.rep]; [exact Hk|].
    destruct Hend as [->|Hn].
    + cbn [Re.more]. rewrite andb_false_r. exact Hk.
    + cbn [not_next] in Hn. apply negb_true_iff in Hn. rewrite Hn. exact Hk.
  - cbn [forallb] in Hp. apply andb_true_iff in Hp as [Hd Hp].
    cbn [app Re.rep]. rewrite Hd.
    assert (Hm : Re.more hi = true).
    { destruct hi as [[|h]|]; cbn in *; [lia|reflexivity|reflexivity]. }
    rewrite Hm. cbn [andb].
    rewrite (IH (pred lo) (Re.dec hi) (Some d) cs k x); [reflexivity|exact Hp| | | |].
    + destruct hi as [h|]; cbn in *; [lia|exact I].
    + destruct Hend as [->|Hn]; [left|right; exact Hn]. reflexivity.
    + cbn [length] in Hlo. lia.
    + now rewrite <- (last_char_cons prev).
Qed.

(** A repetition that may be empty and whose continuation cannot fail
    does not fail. *)
Lemma rep_total (p : ascii -> bool) (s : list ascii) :
  forall (hi : option nat) (prev : option ascii) (cs : Re.caps) (k : Re.cont (R := R))
         (f : Re.caps -> R),
  (forall prev' s' cs', k prev' s' cs' = Some (f cs')) ->
  Re.rep p 0 hi prev s cs k = Some (f cs).
Proof.
  induction s as [|c s IH]; intros hi prev cs k f Hk; cbn [Re.rep]; [apply Hk|].
  destruct (p c && Re.more hi); [|apply Hk].
  cbn [pred]. now rewrite (IH _ _ _ _ f Hk).
Qed.

End RepFacts.

(** ** [normalize_percent] *)

Lemma percent_tail (prev : option ascii) (s : list ascii) (cs : Re.caps) :
  Re.run (Re.seq [Re.star Py.isspace; Re.Opt (Re.Cls (Re.chr "%"))]) prev s cs
         (fun _ _ cs' => Some cs') = Some cs.
Proof.
  cbn [Re.seq Re.run Re.star].
  apply (rep_total _ _ _ _ _ _ (fun c => c)).
  intros prev' s' cs'. unfold Re.orelse.
  destruct s' as [|c s']; [reflexivity|]. now destruct (Re.chr "%" c).
Qed.

Lemma percent_match (prev : option ascii) (ds rest : list ascii) :
  forallb Py.isdigit ds = true ->
  (1 <= length ds <= 3)%nat ->
  length ds = 3%nat \/ not_next Py.isdigit rest = true ->
  Re.match_here percent_re prev (ds ++ rest) = Some [(1%nat, ds)].
Proof.
  intros Hd Hlen Hend. unfold Re.match_here, percent_re.
  cbn [Re.seq Re.run]. 
  apply rep_longest; [exact Hd|cbn; lia| |lia|].
  - destruct Hend as [->|Hn]; [left; reflexivity|right; exact Hn].
  - rewrite consumed_app. apply percent_tail.
Qed.

Lemma percent_no_match (prev : option ascii) (s : list ascii) :
  not_next Py.isdigit s = true -> Re.match_here percent_re prev s = None.
Proof.
  intros Hn. unfold Re.match_here, percent_re. cbn [Re.seq Re.run].
  destruct s as [|c s]; [reflexivity|].
  cbn [not_next] in Hn. apply negb_true_iff in Hn. cbn [Re.rep]. now rewrite Hn.
Qed.

Lemma percent_search (pre ds rest : list ascii) :
  forall prev,
  forallb (fun c => negb (Py.isdigit c)) pre = true ->
  forallb Py.isdigit ds = true ->
  (1 <= length ds <= 3)%nat ->
  length ds = 3%nat \/ not_next Py.isdigit rest = true ->
  Re.search_from percent_re prev (pre ++ ds ++ rest) = Some [(1%nat, ds)].
Proof.
  induction pre as [|c pre IH]; intros prev Hpre Hd Hlen Hend.
  - cbn [app]. destruct ds as [|d ds]; [cbn in Hlen; lia|].
    cbn [Re.search_from app].
    change (d :: ds ++ rest) with ((d :: ds) ++ rest).
    now rewrite percent_match.
  - cbn [forallb] in Hpre. apply andb_true_iff in Hpre as [Hc Hpre].
    cbn [app Re.search_from]. rewrite percent_no_match by exact Hc.
    now apply IH.
Qed.

Lemma int_of_digits_nonneg (s : list ascii) (acc : Z) :
  (0 <= acc -> 0 <= Py.int_of_digits acc s)%Z.
Proof.
  revert acc. induction s as [|c s IH]; intros acc Hacc; cbn [Py.int_of_digits]; [exact Hacc|].
  apply IH. lia.
Qed.

Lemma normalize_percent_run (pre ds rest : string) :
  no_digit pre = true ->
  all_chars Py.isdigit ds = true ->
  (1 <= String.length ds <= 3)%nat ->
  String.length ds = 3%nat \/ starts_with_digit rest = false ->
  normalize_percent (pre +:+ ds +:+ rest)
  = if (int_of ds <=? 100)%Z then Some (int_of ds) else None.
Proof.
  intros Hpre Hd Hlen Hend. unfold normalize_percent.
  assert (Hne : String.eqb (pre +:+ ds +:+ rest) "" = false).
  { apply String.eqb_neq. intros E. apply (f_equal list_ascii_of_string) in E.
    rewrite !list_ascii_of_string_app in E. apply (f_equal (@length ascii)) in E.
    rewrite !length_app, !length_list_ascii in E. cbn in E. lia. }
  rewrite Hne. unfold Re.search.
  rewrite !list_ascii_of_string_app.
  rewrite percent_search; try assumption.
  - unfold Re.group_str. cbn [Re.group Nat.eqb].
    rewrite list_ascii_of_string_of_list_ascii. fold (int_of ds).
    pose proof (int_of_digits_nonneg (list_ascii_of_string ds) 0 ltac:(lia)) as Hnn.
    fold (int_of ds) in Hnn. apply Z.leb_le in Hnn. now rewrite Hnn.
  - now rewrite length_list_ascii.
  - rewrite length_list_ascii. destruct Hend as [H|H]; [left; exact H|right].
    unfold starts_with_digit in H. now apply negb_false_iff in H.
Qed.

Lemma render_ok_below_1000 (v : Z) : (0 <= v <= 999)%Z -> render_ok v = true.
Proof.
  intros Hv.
  assert (Hall : forallb (fun n => render_ok (Z.of_nat n)) (seq 0 1000) = true)
    by (vm_compute; reflexivity).
  rewrite forallb_forall in Hall.
  rewrite <- (Z2Nat.id v) by lia. apply Hall. apply in_seq. lia.
Qed.

(** C7, as the code has it.  [normalize_percent] takes the first run of
    digits of the text, whatever stands before and after it, and for a run
    of one to three digits returns its value when it is at most 100, none
    otherwise.  So for every integer from 0 to 999 written in decimal where
    the digits of the text begin, the value is returned exactly when it is at
    most 100; a sign before the digits is not read.  "150%" gives none and
    "7%" gives 7. *)
Theorem normalize_percent_first_run :
  (forall pre ds rest : string,
     no_digit pre = true ->
     all_chars Py.isdigit ds = true ->
     (1 <= String.length ds <= 3)%nat ->
     starts_with_digit rest = false ->
     normalize_percent (pre +:+ ds +:+ rest)
     = if (int_of ds <=? 100)%Z then Some (int_of ds) else None)
  /\ (forall (v : Z) (pre rest : string),
        (0 <= v <= 999)%Z ->
        no_digit pre = true ->
        starts_with_digit rest = false ->
        normalize_percent (pre +:+ Py.str_of_int v +:+ rest)
        = if (v <=? 100)%Z then Some v else None)
  /\ normalize_percent "150%" = None
  /\ normalize_percent "7%" = Some 7%Z.
Proof.
  split; [|split; [|split; reflexivity]].
  - intros pre ds rest Hpre Hd Hlen Hrest. apply normalize_percent_run; auto.
  - intros v pre rest Hv Hpre Hrest.
    pose proof (render_ok_below_1000 v Hv) as Hok. unfold render_ok in Hok.
    rewrite !andb_true_iff in Hok. destruct Hok as [[[Hd H1] H3] Hval].
    apply Nat.leb_le in H1, H3. apply Z.eqb_eq in Hval.
    rewrite normalize_percent_run; auto. now rewrite Hval.
Qed.

Lemma normalize_percent_first_run_witness :
  normalize_percent ("Ki " +:+ Py.str_of_int 35 +:+ " %") = Some 35%Z
  /\ normalize_percent ("-" +:+ "5" +:+ "%") = Some 5%Z
  /\ normalize_percent ("about " +:+ Py.str_of_int 150 +:+ "%") = None.
Proof.
  destruct normalize_percent_first_run as (H1 & H2 & _).
  split; [|split].
  - apply (H2 35%Z "Ki " " %"); [lia|reflexivity|reflexivity].
  - apply (H1 "-" "5" "%"); [reflexivity|reflexivity|cbn; lia|reflexivity].
  - apply (H2 150%Z "about " "%"); [lia|reflexivity|reflexivity].
Defined.

(** C7, as the specification words it, fails: not every integer outside
    0..100 is rejected.  The sign of -5 is not read, and 1000 is read as
    100. *)
Lemma normalize_percent_not_every_integer :
  normalize_percent (Py.str_of_int (-5) +:+ "%") = Some 5%Z
  /\ normalize_percent (Py.str_of_int 1000 +:+ "%") = Some 100%Z
  /\ ~ (forall v : Z,
          normalize_percent (Py.str_of_int v +:+ "%")
          = if (0 <=? v)%Z && (v <=? 100)%Z then Some v else None).
Proof.
  split; [reflexivity|]. split; [reflexivity|].
  intros H. specialize (H (-5)%Z). vm_compute in H. discriminate H.
Qed.

(** ** Trimming, case folding and white-space removal *)

Lemma isspace_lower_char (c : ascii) : Py.isspace (Py.lower_char c) = Py.isspace c.
Proof. destruct c as [[] [] [] [] [] [] [] []]; reflexivity. Qed.

Lemma lower_lstrip (s : string) : Py.lower (Py.lstrip s) = Py.lstrip (Py.lower s).
Proof.
  induction s as [|c s IH]; [reflexivity|].
  cbn [Py.lstrip Py.lower Py.map]. rewrite isspace_lower_char.
  destruct (Py.isspace c); [exact IH|reflexivity].
Qed.

Lemma lower_rstrip (s : string) : Py.lower (Py.rstrip s) = Py.rstrip (Py.lower s).
Proof.
  induction s as [|c s IH]; [reflexivity|].
  cbn [Py.rstrip Py.lower Py.map]. fold (Py.lower s). rewrite <- IH, isspace_lower_char.
  destruct (Py.rstrip s) as [|d r]; [|reflexivity].
  cbn [Py.lower Py.map]. now destruct (Py.isspace c).
Qed.

Lemma lower_strip (s : string) : Py.lower (Py.strip s) = Py.strip (Py.lower s).
Proof. unfold Py.strip. now rewrite lower_rstrip, lower_lstrip. Qed.

Lemma rstrip_idem (s : string) : Py.rstrip (Py.rstrip s) = Py.rstrip s.
Proof.
  induction s as [|c s IH]; [reflexivity|].
  cbn [Py.rstrip]. destruct (Py.rstrip s) as [|d r] eqn:E.
  - destruct (Py.isspace c) eqn:Ec; [reflexivity|]. cbn [Py.rstrip]. now rewrite Ec.
  - change (Py.rstrip (String c (String d r))) with
      (match Py.rstrip (String d r) with
       | EmptyString => if Py.isspace c then EmptyString else String c EmptyString
       | x => String c x
       end).
    now rewrite IH.
Qed.

Lemma lstrip_head (s : string) : head_solid (Py.lstrip s) = true.
Proof.
  induction s as [|c s IH]; [reflexivity|].
  cbn [Py.lstrip]. destruct (Py.isspace c) eqn:E; [exact IH|]. cbn. now rewrite E.
Qed.

Lemma rstrip_head (s : string) : head_solid s = true -> head_solid (Py.rstrip s) = true.
Proof.
  destruct s as [|c s]; [reflexivity|]. cbn [head_solid Py.rstrip]. intros Hc.
  destruct (Py.rstrip s); [|exact Hc].
  apply negb_true_iff in Hc. rewrite Hc. cbn. now rewrite Hc.
Qed.

Lemma strip_head (s : string) : head_solid (Py.strip s) = true.
Proof. unfold Py.strip. apply rstrip_head, lstrip_head. Qed.

Lemma strip_rstrip (s : string) : Py.rstrip (Py.strip s) = Py.strip s.
Proof. unfold Py.strip. apply rstrip_idem. Qed.

Lemma remove_ws_empty_rstrip (s : string) :
  Py.remove_ws s = "" -> Py.rstrip s = "".
Proof.
  induction s as [|c s IH]; [reflexivity|].
  cbn [Py.remove_ws Py.rstrip]. destruct (Py.isspace c); [|discriminate].
  intros H. now rewrite (IH H).
Qed.

(** A trimmed text that is one character once its white space is removed
    is that character. *)
Lemma stripped_single (s : string) (c : ascii) :
  head_solid s = true -> Py.rstrip s = s ->
  Py.remove_ws s = String c "" -> s = String c "".
Proof.
  destruct s as [|d s]; [discriminate 3|].
  cbn [head_solid Py.remove_ws]. intros Hd Hr.
  apply negb_true_iff in Hd. rewrite Hd. intros [= -> Hs].
  cbn [Py.rstrip] in Hr. rewrite (remove_ws_empty_rstrip s Hs), Hd in Hr.
  now symmetry.
Qed.

Lemma contains_char (c : ascii) (s : string) : Py.contains (String c "") s = has c s.
Proof.
  induction s as [|d s IH]; [reflexivity|].
  cbn [Py.contains Py.startswith has]. rewrite IH. now rewrite andb_true_r.
Qed.

Lemma has_remove_ws (c : ascii) (s : string) :
  Py.isspace c = false -> has c (Py.remove_ws s) = has c s.
Proof.
  intros Hc. induction s as [|d s IH]; [reflexivity|].
  cbn [Py.remove_ws has]. destruct (Py.isspace d) eqn:Ed.
  - rewrite IH. destruct (Ascii.eqb c d) eqn:E; [|reflexivity].
    apply Ascii.eqb_eq in E. congruence.
  - cbn [has]. now rewrite IH.
Qed.

Lemma startswith_char_remove_ws (c : ascii) (s : string) :
  head_solid s = true ->
  Py.startswith (String c "") s = Py.startswith (String c "") (Py.remove_ws s).
Proof.
  destruct s as [|d s]; [reflexivity|]. cbn [head_solid Py.remove_ws]. intros Hd.
  apply negb_true_iff in Hd. rewrite Hd. reflexivity.
Qed.

(** ** The aggregator's own HER2 rule against section 4.2 *)

(** The aggregator's reading of an IHC text, on the trimmed lower-case text. *)
Lemma _compute_her2_final_ihc (ihc fish : pyval) (st : string) :
  truthy fish = false ->
  ihc_to_status ihc = Some st ->
  _compute_her2_final ihc fish = (Some st, Some "ihc").
Proof.
  intros Hf Hi. unfold _compute_her2_final. rewrite Hf.
  rewrite ihc_to_status_table in Hi. unfold SpecHer2.ihc_mapped in Hi.
  destruct (truthy ihc); [|discriminate Hi].
  assert (Hh : head_solid (Py.lower (Py.strip (py_str ihc))) = true)
    by (rewrite lower_strip; apply strip_head).
  assert (Hr : Py.rstrip (Py.lower (Py.strip (py_str ihc))) = Py.lower (Py.strip (py_str ihc)))
    by (rewrite lower_strip; apply strip_rstrip).
  revert Hi Hh Hr. generalize (Py.lower (Py.strip (py_str ihc))). intros s Hi Hh Hr.
  rewrite !contains_char.
  rewrite <- (has_remove_ws "3" s), <- (has_remove_ws "+" s) by reflexivity.
  rewrite !(startswith_char_remove_ws _ s Hh).
  cbn [SpecHer2.assoc SpecHer2.ihc_table] in Hi.
  repeat match type of Hi with
         | (if String.eqb ?k ?K then _ else _) = Some _ =>
             let E := fresh "E" in
             destruct (String.eqb k K) eqn:E;
             [apply String.eqb_eq in E; injection Hi as <-;
              try (rewrite (stripped_single s _ Hh Hr E));
              rewrite ?E; reflexivity|]
         end.
  discriminate Hi.
Qed.

Lemma her2_final_status_no_fish (ihc fish : pyval) :
  truthy fish = false ->
  her2_final_status ihc fish VNone
  = match ihc_to_status ihc with
    | Some st => (Some st, Some "ihc")
    | None => (None, None)
    end.
Proof.
  intros Hf. unfold her2_final_status.
  assert (fish_to_status fish = None) as -> by (unfold fish_to_status; now rewrite Hf).
  cbn [str_truthy].
  destruct (ihc_to_status ihc) as [st|] eqn:Hi; [|reflexivity].
  now rewrite (ihc_status_truthy _ _ Hi).
Qed.

(** What the record holds for the two derived HER2 keys. *)
Lemma aggregate_her2_written (dtparse : string -> option date) (first : row)
    (rest : list row) (evidence_rows : list evobj) :
  truthy (get first "patient_id") = true ->
  let out := aggregate_patient dtparse (first :: rest) evidence_rows in
  let c := _compute_her2_final (get out "her2_ihc_score") (get out "her2_fish") in
  get out "her2_final_status" = of_opt c.1 /\ get out "her2_confidence" = of_opt c.2.
Proof.
  intros Hpid out c. subst c.
  subst out.
  rewrite (aggregate_get_picked dtparse first rest evidence_rows Hpid "her2_ihc_score"),
    (aggregate_get_picked dtparse first rest evidence_rows Hpid "her2_fish") by reflexivity.
  rewrite (aggregate_patient_eq dtparse first rest evidence_rows Hpid). cbn zeta.
  set (picked := fold_left _ base_fields _).
  rewrite !get_set_opt. cbn [String.eqb Ascii.eqb Bool.eqb].
  assert (H1 : get picked "her2_final_status" = VNone).
  { subst picked. rewrite fold_pick_frame by (vm_compute; reflexivity). reflexivity. }
  assert (H2 : get picked "her2_confidence" = VNone).
  { subst picked. rewrite fold_pick_frame by (vm_compute; reflexivity). reflexivity. }
  rewrite H1, H2. destruct (_compute_her2_final _ _) as [[a|] [b|]]; split; reflexivity.
Qed.

(** C2, as the code has it.  The aggregator computes the HER2 status with
    a rule of its own.  It returns what section 4.2 returns for an absent
    explicit text where the FISH value is absent or empty and the IHC score
    is absent, empty or in the table of 4.2, and where the FISH text is
    "Amplified" or "Not amplified" once trimmed and in lower case.  Whenever
    a FISH or an IHC value is present it returns a status with its source
    ("Unknown" for a FISH text without any of its keywords), and the record
    gets her2_final_status and her2_confidence exactly as returned, so also
    as "Unknown". *)
Theorem aggregator_her2_rule :
  (forall ihc fish : pyval,
     truthy fish = false ->
     truthy ihc = false \/ ihc_to_status ihc <> None ->
     _compute_her2_final ihc fish = her2_final_status ihc fish VNone)
  /\ (forall ihc fish : pyval,
        truthy fish = true ->
        Py.lower (Py.strip (py_str fish)) = "amplified"
        \/ Py.lower (Py.strip (py_str fish)) = "not amplified" ->
        _compute_her2_final ihc fish = her2_final_status ihc fish VNone)
  /\ (forall ihc fish : pyval,
        truthy fish = true ->
        (exists st, _compute_her2_final ihc fish = (Some st, Some "fish"))
        /\ (Py.contains "ampl" (Py.lower (Py.strip (py_str fish))) = false ->
            Py.contains "neg" (Py.lower (Py.strip (py_str fish))) = false ->
            Py.contains "pos" (Py.lower (Py.strip (py_str fish))) = false ->
            _compute_her2_final ihc fish = (Some "Unknown", Some "fish")))
  /\ (forall ihc fish : pyval,
        truthy fish = false -> truthy ihc = true ->
        exists st, _compute_her2_final ihc fish = (Some st, Some "ihc"))
  /\ (forall (dtparse : string -> option date) (first : row) (rest : list row)
             (evidence_rows : list evobj),
        truthy (get first "patient_id") = true ->
        let out := aggregate_patient dtparse (first :: rest) evidence_rows in
        let c := _compute_her2_final (get out "her2_ihc_score") (get out "her2_fish") in
        get out "her2_final_status" = of_opt c.1 /\ get out "her2_confidence" = of_opt c.2).
Proof.
  split; [|split; [|split; [|split]]].
  - intros ihc fish Hf Hi. rewrite her2_final_status_no_fish by exact Hf.
    destruct (ihc_to_status ihc) as [st|] eqn:E.
    + now apply _compute_her2_final_ihc.
    + destruct Hi as [Hi|Hi]; [|congruence].
      unfold _compute_her2_final. now rewrite Hf, Hi.
  - intros ihc fish Hf Hs.
    unfold _compute_her2_final, her2_final_status, fish_to_status. rewrite Hf.
    destruct Hs as [-> | ->]; reflexivity.
  - intros ihc fish Hf. unfold _compute_her2_final. rewrite Hf. split.
    + repeat match goal with
             | |- context [if ?b then _ else _] => destruct b
             end; eauto.
    + intros -> -> ->. now rewrite andb_false_r.
  - intros ihc fish Hf Hi. unfold _compute_her2_final. rewrite Hf, Hi.
    repeat match goal with
           | |- context [if ?b then _ else _] => destruct b
           end; eauto.
  - exact aggregate_her2_written.
Qed.

Lemma aggregator_her2_rule_witness :
  _compute_her2_final (VStr "2+") VNone = her2_final_status (VStr "2+") VNone VNone
  /\ _compute_her2_final (VStr "2+") (VStr "Not amplified")
     = her2_final_status (VStr "2+") (VStr "Not amplified") VNone
  /\ _compute_her2_final (VStr "3+") (VStr "equivocal") = (Some "Unknown", Some "fish")
  /\ (exists st, _compute_her2_final (VStr "HER2 3+") VNone = (Some st, Some "ihc"))
  /\ get (aggregate_patient Scenario.dtparse [Scenario.note_A] []) "her2_final_status"
     = of_opt (_compute_her2_final
                 (get (aggregate_patient Scenario.dtparse [Scenario.note_A] []) "her2_ihc_score")
                 (get (aggregate_patient Scenario.dtparse [Scenario.note_A] []) "her2_fish")).1.
Proof.
  destruct aggregator_her2_rule as (H1 & H2 & H3 & H4 & H5).
  split; [|split; [|split; [|split]]].
  - apply H1; [reflexivity|right; discriminate].
  - apply H2; [reflexivity|right; reflexivity].
  - apply H3; reflexivity.
  - apply H4; reflexivity.
  - apply (H5 Scenario.dtparse Scenario.note_A [] []). reflexivity.
Defined.

(** C2, as the specification words it, fails: the two rules differ, and
    the record gets an "Unknown" status where 4.2 decides or yields none. *)
Lemma aggregator_her2_differs :
  _compute_her2_final (VStr "3+") (VStr "equivocal") = (Some "Unknown", Some "fish")
  /\ her2_final_status (VStr "3+") (VStr "equivocal") VNone = (Some "Positive", Some "ihc")
  /\ get (aggregate_patient Scenario.dtparse [Scenario.note_F] []) "her2_final_status"
     = VStr "Unknown"
  /\ _compute_her2_final (VStr "HER2 3+") VNone = (Some "Positive", Some "ihc")
  /\ her2_final_status (VStr "HER2 3+") VNone VNone = (None, None)
  /\ get (aggregate_patient Scenario.dtparse [Scenario.note_H] []) "her2_final_status"
     = VStr "Positive"
  /\ ~ (forall ihc fish : pyval,
          _compute_her2_final ihc fish = her2_final_status ihc fish VNone).
Proof.
  repeat split; try reflexivity.
  intros H. specialize (H (VStr "3+") (VStr "equivocal")). vm_compute in H. discriminate H.
Qed.

(** ** Extraction of one note (section 4.3) *)

Section ExtractFacts.
Variables (cleaned : string) (pid nid ndate ntype : pyval).

Abbreviation step' := (step cleaned pid nid ndate ntype).
Abbreviation run_ents' := (run_ents cleaned pid nid ndate ntype).

Lemma phenos_add_ev (f v : string) (ent : Ent) (l : string) (c : nat) (st : xstate) :
  phenos (add_ev cleaned pid nid ndate ntype f v ent l c st) = phenos st.
Proof. reflexivity. Qed.

Lemma receptor_branch_status (sf pf status : string) (find : string -> option Z)
    (ent : Ent) (st : xstate) :
  String.eqb sf pf = false ->
  get (phenos (receptor_branch cleaned pid nid ndate ntype sf pf status find ent st)) sf
  = of_opt (normalize_status (VStr status)).
Proof.
  intros Hne. unfold receptor_branch.
  destruct (find (sent_text ent)); cbn [phenos add_ev set_pheno];
    rewrite ?get_insert, ?Hne, ?String.eqb_refl; reflexivity.
Qed.

Lemma overwrites_receptor (ent : Ent) :
  (label_ ent = "ER_POS" -> overwrites cleaned pid nid ndate ntype ent "er_status" (VStr "Positive"))
  /\ (label_ ent = "ER_NEG" -> overwrites cleaned pid nid ndate ntype ent "er_status" (VStr "Negative"))
  /\ (label_ ent = "PR_POS" -> overwrites cleaned pid nid ndate ntype ent "pr_status" (VStr "Positive"))
  /\ (label_ ent = "PR_NEG" -> overwrites cleaned pid nid ndate ntype ent "pr_status" (VStr "Negative")).
Proof.
  repeat split; intros Hl st; unfold step; rewrite Hl; eval_label_tests; cbn iota;
    now rewrite receptor_branch_status.
Qed.

Lemma overwrites_ki67 (ent : Ent) (v : Z) :
  label_ ent = "KI67" -> normalize_percent (text ent) = Some v ->
  overwrites cleaned pid nid ndate ntype ent "ki67_percent" (VInt v).
Proof.
  intros Hl Hv st. unfold step. rewrite Hl. eval_label_tests. cbn iota. rewrite Hv.
  cbn [phenos add_ev set_pheno]. now rewrite get_insert.
Qed.

Lemma overwrites_histology (ent : Ent) :
  (In (label_ ent) ["HISTOLOGY_IDC"; "HISTOLOGY_ILC"; "HISTOLOGY_DCIS"] ->
   str_truthy (normalize_histology (text ent)) = true ->
   overwrites cleaned pid nid ndate ntype ent "histology" (of_opt (normalize_histology (text ent))))
  /\ (label_ ent = "HISTOLOGY_TEXT" ->
      str_truthy (normalize_histology (sent_text ent)) = true ->
      overwrites cleaned pid nid ndate ntype ent "histology" (of_opt (normalize_histology (sent_text ent)))).
Proof.
  split.
  - intros Hl Ht st. unfold step.
    destruct Hl as [<-|[<-|[<-|[]]]]; eval_label_tests; cbn iota; cbn [negb];
      destruct (normalize_histology (text ent)) as [h|]; try discriminate Ht;
      rewrite Ht; cbn [phenos add_ev set_pheno of_opt]; now rewrite get_insert.
  - intros Hl Ht st. unfold step. rewrite Hl. eval_label_tests. cbn iota. cbn [negb].
    destruct (normalize_histology (sent_text ent)) as [h|]; try discriminate Ht.
    rewrite Ht. cbn [phenos add_ev set_pheno of_opt]. now rewrite get_insert.
Qed.

Lemma overwrites_grade (ent : Ent) :
  label_ ent = "GRADE" ->
  str_truthy (normalize_grade (sent_text ent)) = true ->
  overwrites cleaned pid nid ndate ntype ent "grade" (of_opt (normalize_grade (sent_text ent))).
Proof.
  intros Hl Ht st. unfold step. rewrite Hl. eval_label_tests. cbn iota.
  destruct (normalize_grade (sent_text ent)) as [g|]; try discriminate Ht.
  rewrite Ht. cbn [phenos add_ev set_pheno of_opt]. now rewrite get_insert.
Qed.

Lemma overwrites_stage (ent : Ent) :
  (label_ ent = "STAGE_PATH" ->
   str_truthy (normalize_stage (text ent)) = true ->
   overwrites cleaned pid nid ndate ntype ent "stage_path" (of_opt (normalize_stage (text ent))))
  /\ (label_ ent = "STAGE_CLIN" ->
      str_truthy (normalize_stage (text ent)) = true ->
      overwrites cleaned pid nid ndate ntype ent "stage_clinical" (of_opt (normalize_stage (text ent)))).
Proof.
  split; intros Hl Ht st; unfold step; rewrite Hl; eval_label_tests; cbn iota;
    unfold Py.mem; cbn [existsb]; eval_label_tests; cbn [orb negb]; cbn iota;
    (destruct (normalize_stage (text ent)) as [s|]; [|discriminate Ht]);
    rewrite Ht; cbn [negb]; cbn iota;
    cbn [phenos add_ev set_pheno of_opt]; now rewrite get_insert.
Qed.

(** A generic stage mention fills [stage_path] where it is empty, else
    [stage_clinical] where that is empty, and overwrites neither. *)
Lemma stage_generic_guarded (ent : Ent) (st : xstate) (f : string) :
  label_ ent = "STAGE_GENERIC" ->
  In f ["stage_path"; "stage_clinical"] ->
  truthy (get (phenos st) f) = true ->
  get (phenos (step' st ent)) f = get (phenos st) f.
Proof.
  intros Hl Hf Ht. unfold step. rewrite Hl. eval_label_tests. cbn iota.
  unfold Py.mem. cbn [existsb]. eval_label_tests. cbn [orb negb]. cbn iota.
  destruct (normalize_stage (sent_text ent)) as [s|]; [|reflexivity].
  destruct (negb (str_truthy (Some s))); [reflexivity|].
  destruct Hf as [<-|[<-|[]]].
  - rewrite Ht. cbn [negb]. cbn iota.
    destruct (negb (truthy (get (phenos st) "stage_clinical"))); [|reflexivity].
    cbn [phenos add_ev set_pheno]. now rewrite get_insert.
  - destruct (negb (truthy (get (phenos st) "stage_path"))).
    + cbn [phenos add_ev set_pheno]. now rewrite get_insert.
    + rewrite Ht. reflexivity.
Qed.

(** The last mention that sets a field decides it. *)
Lemma run_ents_last (ents1 ents2 : list Ent) (ent : Ent) (f : string) (v : pyval) :
  overwrites cleaned pid nid ndate ntype ent f v ->
  Forall (leaves cleaned pid nid ndate ntype f) ents2 ->
  get (phenos (run_ents' (ents1 ++ ent :: ents2))) f = v.
Proof.
  intros Ho Hl. unfold run_ents. rewrite fold_left_app. cbn [fold_left].
  generalize (fold_left step' ents1 (init_state pid nid ndate ntype)). intros st0.
  specialize (Ho st0). revert Ho. generalize (step' st0 ent). clear st0.
  induction Hl as [|e ents2 He _ IH]; intros st Hst; cbn [fold_left]; [exact Hst|].
  apply IH. now rewrite He.
Qed.

(** The HER2 mentions touch no field of the record inside the loop. *)
Lemma leaves_her2 (ent : Ent) (f : string) :
  In (label_ ent) ["HER2_IHC"; "HER2_POS"; "HER2_NEG"; "HER2_FISH_POS"; "HER2_FISH_NEG"] ->
  leaves cleaned pid nid ndate ntype f ent.
Proof.
  intros Hl st. unfold step.
  destruct Hl as [<-|[<-|[<-|[<-|[<-|[]]]]]]; eval_label_tests; reflexivity.
Qed.

Lemma status_fallback_get (k : string) (pos neg : Re.regex) (ph : gmap string pyval)
    (f : string) :
  is_none (get ph f) = false ->
  get (status_fallback cleaned k pos neg ph) f = get ph f.
Proof.
  intros Hn. unfold status_fallback.
  destruct (is_none (get ph k)) eqn:Hk; [|reflexivity].
  assert (Hne : String.eqb f k = false).
  { apply String.eqb_neq. intros ->. congruence. }
  destruct (found pos cleaned); [now rewrite get_insert, Hne|].
  destruct (found neg cleaned); [now rewrite get_insert, Hne|reflexivity].
Qed.

Lemma percent_fallback_get (k : string) (find : string -> option Z)
    (ph : gmap string pyval) (f : string) :
  String.eqb f k = false ->
  get (percent_fallback cleaned k find ph) f = get ph f.
Proof.
  intros Hne. unfold percent_fallback.
  destruct (is_none (get ph k)); [|reflexivity].
  destruct (find cleaned); [now rewrite get_insert, Hne|reflexivity].
Qed.

(** What follows the loop keeps the fields the loop decided. *)
Lemma finish_keeps (st : xstate) (f : string) :
  In f ["er_status"; "pr_status"; "ki67_percent"; "histology"; "grade";
        "stage_path"; "stage_clinical"] ->
  is_none (get (phenos st) f) = false ->
  get (finish cleaned st).1 f = get (phenos st) f.
Proof.
  intros Hf Hn. unfold finish.
  destruct (reconcile_her2 _ _ _) as [[a b] c]. cbn [fst].
  assert (H3 : String.eqb f "her2_fish" = false /\ String.eqb f "her2_ihc_score" = false
               /\ String.eqb f "her2_status" = false /\ String.eqb f "pr_percent" = false
               /\ String.eqb f "er_percent" = false).
  { destruct Hf as [<-|[<-|[<-|[<-|[<-|[<-|[<-|[]]]]]]]]; repeat split; reflexivity. }
  destruct H3 as (E1 & E2 & E3 & E4 & E5).
  rewrite !get_insert, E1, E2, E3.
  rewrite !percent_fallback_get by assumption.
  rewrite status_fallback_get; rewrite status_fallback_get; auto.
Qed.

End ExtractFacts.

(** C5, as the code has it.  Within one note every mention that
    normalises sets its field unconditionally, so the last such mention of
    the sequence decides the field, and of two mentions for one field the
    later one wins; what follows the loop keeps a field the loop has set.
    Only a generic stage mention is guarded: it never replaces a stage that
    is already set. *)
Theorem extract_note_last_mention_wins (cleaned : string) (pid nid ndate ntype : pyval) :
  (forall ent : Ent,
     (label_ ent = "ER_POS" -> overwrites cleaned pid nid ndate ntype ent "er_status" (VStr "Positive"))
     /\ (label_ ent = "ER_NEG" ->
         overwrites cleaned pid nid ndate ntype ent "er_status" (VStr "Negative"))
     /\ (label_ ent = "PR_POS" ->
         overwrites cleaned pid nid ndate ntype ent "pr_status" (VStr "Positive"))
     /\ (label_ ent = "PR_NEG" ->
         overwrites cleaned pid nid ndate ntype ent "pr_status" (VStr "Negative"))
     /\ (forall v, label_ ent = "KI67" -> normalize_percent (text ent) = Some v ->
         overwrites cleaned pid nid ndate ntype ent "ki67_percent" (VInt v))
     /\ (In (label_ ent) ["HISTOLOGY_IDC"; "HISTOLOGY_ILC"; "HISTOLOGY_DCIS"] ->
         str_truthy (normalize_histology (text ent)) = true ->
         overwrites cleaned pid nid ndate ntype ent "histology"
                    (of_opt (normalize_histology (text ent))))
     /\ (label_ ent = "HISTOLOGY_TEXT" ->
         str_truthy (normalize_histology (sent_text ent)) = true ->
         overwrites cleaned pid nid ndate ntype ent "histology"
                    (of_opt (normalize_histology (sent_text ent))))
     /\ (label_ ent = "GRADE" ->
         str_truthy (normalize_grade (sent_text ent)) = true ->
         overwrites cleaned pid nid ndate ntype ent "grade"
                    (of_opt (normalize_grade (sent_text ent))))
     /\ (label_ ent = "STAGE_PATH" ->
         str_truthy (normalize_stage (text ent)) = true ->
         overwrites cleaned pid nid ndate ntype ent "stage_path"
                    (of_opt (normalize_stage (text ent))))
     /\ (label_ ent = "STAGE_CLIN" ->
         str_truthy (normalize_stage (text ent)) = true ->
         overwrites cleaned pid nid ndate ntype ent "stage_clinical"
                    (of_opt (normalize_stage (text ent)))))
  /\ (forall (ents1 ents2 : list Ent) (ent : Ent) (f : string) (v : pyval),
        overwrites cleaned pid nid ndate ntype ent f v ->
        Forall (leaves cleaned pid nid ndate ntype f) ents2 ->
        get (phenos (run_ents cleaned pid nid ndate ntype (ents1 ++ ent :: ents2))) f = v)
  /\ (forall (ents : list Ent) (e1 e2 : Ent) (f : string) (v1 v2 : pyval),
        overwrites cleaned pid nid ndate ntype e1 f v1 ->
        overwrites cleaned pid nid ndate ntype e2 f v2 ->
        get (phenos (run_ents cleaned pid nid ndate ntype (ents ++ [e1; e2]))) f = v2)
  /\ (forall (ent : Ent) (st : xstate) (f : string),
        label_ ent = "STAGE_GENERIC" ->
        In f ["stage_path"; "stage_clinical"] ->
        truthy (get (phenos st) f) = true ->
        get (phenos (step cleaned pid nid ndate ntype st ent)) f = get (phenos st) f)
  /\ (forall (st : xstate) (f : string),
        In f ["er_status"; "pr_status"; "ki67_percent"; "histology"; "grade";
              "stage_path"; "stage_clinical"] ->
        is_none (get (phenos st) f) = false ->
        get (finish cleaned st).1 f = get (phenos st) f).
Proof.
  split; [|split; [|split; [|split]]].
  - intros ent.
    destruct (overwrites_receptor cleaned pid nid ndate ntype ent) as (H1 & H2 & H3 & H4).
    destruct (overwrites_histology cleaned pid nid ndate ntype ent) as (H5 & H6).
    destruct (overwrites_stage cleaned pid nid ndate ntype ent) as (H7 & H8).
    repeat split; try assumption.
    + intros v. apply overwrites_ki67.
    + apply overwrites_grade.
  - intros ents1 ents2 ent f v. apply run_ents_last.
  - intros ents e1 e2 f v1 v2 _ H2.
    change (ents ++ [e1; e2]) with (ents ++ [e1] ++ e2 :: []).
    rewrite app_assoc. apply run_ents_last; [exact H2|constructor].
  - intros ent st f. apply stage_generic_guarded.
  - intros st f. apply finish_keeps.
Qed.

Lemma extract_note_last_mention_wins_witness :
  get (phenos (run_ents Scenario.two_er_text (VStr "p1") (VStr "n1") VNone VNone
                 ([Scenario.ent_er_pos] ++ Scenario.ent_er_neg :: [Scenario.ent_her2])))
      "er_status"
  = VStr "Negative".
Proof.
  destruct (extract_note_last_mention_wins Scenario.two_er_text (VStr "p1") (VStr "n1")
              VNone VNone) as (HA & HB & _).
  apply HB.
  - apply (HA Scenario.ent_er_neg). reflexivity.
  - constructor; [|constructor]. apply leaves_her2. cbn. tauto.
Defined.

(** C5, as the specification words it, fails: the first mention does not
    keep the field.  A note with an ER-positive mention followed by an
    ER-negative mention comes out ER-negative. *)
Lemma extract_note_first_mention_loses :
  normalize_status (VStr "Positive") = Some "Positive"
  /\ get (extract_note Scenario.nlp_two_er Scenario.two_er_text
            (VStr "p1") (VStr "n1") VNone VNone).1 "er_status"
     = VStr "Negative"
  /\ ~ (forall (cleaned : string) (pid nid ndate ntype : pyval) (e1 : Ent) (ents : list Ent),
          label_ e1 = "ER_POS" ->
          get (phenos (run_ents cleaned pid nid ndate ntype (e1 :: ents))) "er_status"
          = VStr "Positive").
Proof.
  split; [reflexivity|]. split; [vm_compute; reflexivity|].
  intros H.
  specialize (H Scenario.two_er_text (VStr "p1") (VStr "n1") VNone VNone
                Scenario.ent_er_pos [Scenario.ent_er_neg] eq_refl).
  vm_compute in H. discriminate H.
Qed.

(** ** [normalize_stage] *)

Lemma run_lit {R : Type} (p : string) (rest : list ascii) :
  forall (prev : option ascii) (cs : Re.caps) (k : Re.cont (R := R)),
  Re.run (Re.lit p) prev (list_ascii_of_string p ++ rest) cs k
  = k (last_char prev (list_ascii_of_string p)) rest cs.
Proof.
  induction p as [|a p IH]; intros prev cs k; [reflexivity|].
  cbn [Re.lit Re.run list_ascii_of_string app]. unfold Re.chr at 1.
  rewrite Ascii.eqb_refl, IH. now rewrite <- (last_char_cons prev).
Qed.

Lemma ivx_cases (c : ascii) :
  Re.one_of "ivx" c = true -> c = "i"%char \/ c = "v"%char \/ c = "x"%char.
Proof.
  unfold Re.one_of. cbn [list_ascii_of_string existsb].
  rewrite !orb_true_iff, !Ascii.eqb_eq. intuition discriminate.
Qed.

Lemma ivx_facts (c : ascii) :
  Re.one_of "ivx" c = true ->
  Py.isword c = true /\ Py.isspace c = false /\ Re.one_of "abc" c = false
  /\ Py.lower_char c = c.
Proof.
  intros H. destruct (ivx_cases c H) as [-> | [-> | ->]]; repeat split; reflexivity.
Qed.

Lemma lower_ivx (r : string) : all_chars (Re.one_of "ivx") r = true -> Py.lower r = r.
Proof.
  unfold all_chars. induction r as [|c r IH]; [reflexivity|].
  cbn [list_ascii_of_string forallb Py.lower Py.map]. intros H.
  apply andb_true_iff in H as [Hc Hr]. fold (Py.lower r).
  rewrite (IH Hr). now destruct (ivx_facts c Hc) as (_ & _ & _ & ->).
Qed.

Lemma lower_spaces (w : string) : all_chars Py.isspace w = true -> Py.lower w = w.
Proof.
  unfold all_chars. induction w as [|c w IH]; [reflexivity|].
  cbn [list_ascii_of_string forallb Py.lower Py.map]. intros H.
  apply andb_true_iff in H as [Hc Hw]. fold (Py.lower w). rewrite (IH Hw).
  f_equal. revert Hc. destruct c as [[] [] [] [] [] [] [] []]; vm_compute; congruence.
Qed.

Lemma lower_append (a b : string) : Py.lower (a +:+ b) = Py.lower a +:+ Py.lower b.
Proof.
  induction a as [|c a IH]; [reflexivity|].
  change (String (Py.lower_char c) (Py.lower (a +:+ b))
          = String (Py.lower_char c) (Py.lower a +:+ Py.lower b)).
  now rewrite IH.
Qed.

Lemma last_char_forall (p : ascii -> bool) (prev : option ascii) (ds : list ascii) :
  forallb p ds = true -> ds <> [] ->
  exists c, last_char prev ds = Some c /\ p c = true.
Proof.
  intros Hp Hne. unfold last_char.
  destruct (rev ds) as [|c l] eqn:E.
  - apply (f_equal (@rev ascii)) in E. rewrite rev_involutive in E. now destruct Hne.
  - exists c. split; [reflexivity|]. rewrite forallb_forall in Hp. apply Hp.
    apply in_rev. rewrite E. now left.
Qed.

(** At a position not preceded by a word character, "stage", any white
    space and a run of the letters i, v, x that ends the text match, and the
    run is the numeral group; no suffix is captured. *)
Lemma stage_match (prev : option ascii) (ws roman : list ascii) :
  Re.is_word prev = false ->
  forallb Py.isspace ws = true ->
  forallb (Re.one_of "ivx") roman = true ->
  roman <> [] ->
  Re.match_here stage_re prev (list_ascii_of_string "stage" ++ ws ++ roman)
  = Some [(1%nat, roman)].
Proof.
  intros Hprev Hws Hroman Hne. unfold Re.match_here, stage_re.
  cbn [Re.seq]. cbn [Re.run]. rewrite Hprev. cbn [list_ascii_of_string app head Re.is_word].
  change (xorb false (Py.isword "s")) with true. cbv iota.
  change ("s" :: "t" :: "a" :: "g" :: "e" :: ws ++ roman)%char
    with (list_ascii_of_string "stage" ++ (ws ++ roman)).
  rewrite run_lit. cbn [Re.run].
  destruct roman as [|c0 roman0] eqn:Er; [now destruct Hne|]. rewrite <- Er in *.
  assert (Hc0 : Re.one_of "ivx" c0 = true).
  { rewrite Er in Hroman. cbn [forallb] in Hroman. now apply andb_true_iff in Hroman. }
  unfold Re.star. apply rep_longest; [exact Hws|exact I| |lia|].
  { right. rewrite Er. cbn [not_next].
    destruct (ivx_facts c0 Hc0) as (_ & -> & _). reflexivity. }
  cbn [Re.run]. unfold Re.plus.
  rewrite <- (app_nil_r roman) at 1.
  apply rep_longest; [exact Hroman|exact I|right; reflexivity| |].
  { rewrite Er. cbn. lia. }
  assert (Hcons : Re.consumed roman [] = roman)
    by (rewrite <- (app_nil_r roman) at 1; apply consumed_app).
  rewrite Hcons.
  cbn [Re.rep Nat.eqb Re.run Re.orelse head].
  destruct (last_char_forall (Re.one_of "ivx") (last_char (last_char prev
              (list_ascii_of_string "stage")) ws) roman Hroman) as (c & -> & Hc).
  { rewrite Er. discriminate. }
  cbn [Re.is_word]. destruct (ivx_facts c Hc) as (-> & _). reflexivity.
Qed.

Lemma search_from_here (r : Re.regex) (prev : option ascii) (s : list ascii) (cs : Re.caps) :
  Re.match_here r prev s = Some cs -> Re.search_from r prev s = Some cs.
Proof. intros H. destruct s; cbn [Re.search_from]; now rewrite H. Qed.

Lemma append_empty_r (s : string) : s +:+ "" = s.
Proof.
  induction s as [|c s IH]; [reflexivity|].
  change (String c (s +:+ "") = String c s). now rewrite IH.
Qed.

(** C8.  The numeral of [normalize_stage] is any run of the letters i, v
    and x, not one of I, II, III and IV only: "stage", optional white space and
    such a run give the run in upper case, whatever the run is.  So
    "Stage V", "stage xiv" and "stage iiii" are accepted, as "Stage IIIA"
    is. *)
Theorem normalize_stage_any_run :
  (forall ws r : string,
     all_chars Py.isspace ws = true ->
     all_chars (Re.one_of "ivx") r = true ->
     r <> "" ->
     normalize_stage ("stage" +:+ ws +:+ r) = Some (Py.upper r))
  /\ normalize_stage "Stage V" = Some "V"
  /\ normalize_stage "stage xiv" = Some "XIV"
  /\ normalize_stage "stage iiii" = Some "IIII"
  /\ normalize_stage "Stage IIIA" = Some "IIIA".
Proof.
  split; [|repeat split; reflexivity].
  intros ws r Hws Hr Hne. unfold normalize_stage.
  change (String.eqb ("stage" +:+ ws +:+ r) "") with false. cbv iota.
  rewrite !lower_append, (lower_spaces ws Hws), (lower_ivx r Hr).
  change (Py.lower "stage") with "stage".
  unfold Re.search. rewrite !list_ascii_of_string_app.
  rewrite (search_from_here _ _ _ [(1%nat, list_ascii_of_string r)]).
  - unfold Re.group_str. cbn [Re.group Nat.eqb].
    rewrite string_of_list_ascii_of_string. cbn [Py.upper Py.map].
    now rewrite append_empty_r.
  - apply stage_match; [reflexivity|exact Hws|exact Hr|].
    destruct r; [now destruct Hne|discriminate].
Qed.

Lemma normalize_stage_any_run_witness :
  normalize_stage ("stage" +:+ " " +:+ "vvv") = Some "VVV".
Proof.
  apply (proj1 normalize_stage_any_run " " "vvv"); [reflexivity|reflexivity|discriminate].
Defined.

(** * Further properties of the code *)

(** ** Status normalisation *)

Lemma lower_char_idem (c : ascii) : Py.lower_char (Py.lower_char c) = Py.lower_char c.
Proof. destruct c as [[] [] [] [] [] [] [] []]; reflexivity. Qed.

Lemma lower_idem (s : string) : Py.lower (Py.lower s) = Py.lower s.
Proof.
  induction s as [|c s IH]; [reflexivity|].
  cbn [Py.lower Py.map]. fold (Py.lower s). fold (Py.lower (Py.lower s)).
  now rewrite lower_char_idem, IH.
Qed.

Lemma lstrip_head_solid (s : string) : head_solid s = true -> Py.lstrip s = s.
Proof.
  destruct s as [|c s]; [reflexivity|]. cbn [head_solid Py.lstrip]. intros H.
  apply negb_true_iff in H. now rewrite H.
Qed.

Lemma strip_idem (s : string) : Py.strip (Py.strip s) = Py.strip s.
Proof.
  unfold Py.strip at 1. rewrite (lstrip_head_solid _ (strip_head s)). apply strip_rstrip.
Qed.

(** The text [normalize_status] decides on. *)
Lemma normalize_status_text (s s' : string) :
  Py.lower (Py.strip s) = Py.lower (Py.strip s') ->
  normalize_status (VStr s) = normalize_status (VStr s').
Proof. intros H. unfold normalize_status. cbn [py_str]. now rewrite H. Qed.

(** X1.  [normalize_status] returns one of the four canonical statuses or
    nothing, and it is idempotent: a status it returns normalises to itself. *)
Theorem normalize_status_idempotent (text : pyval) (s : string) :
  normalize_status text = Some s ->
  In s ["Positive"; "Negative"; "Equivocal"; "Unknown"]
  /\ normalize_status (VStr s) = Some s.
Proof.
  unfold normalize_status at 1.
  destruct text as [|t|z|f]; [discriminate| | |];
    repeat match goal with
           | |- (if ?b then _ else _) = Some _ -> _ => destruct b
           end;
    intros [= <-]; (split; [cbn; tauto|reflexivity]).
Qed.

Lemma normalize_status_idempotent_witness :
  normalize_status (VStr "Positive") = Some "Positive".
Proof.
  apply (normalize_status_idempotent (VStr " ER+ ") "Positive"). reflexivity.
Defined.

(** X2.  [normalize_status] reads its text trimmed and without regard to
    case: trimming the text, or putting it in lower case, beforehand changes
    nothing, and an empty or all-white-space text gives nothing, as [None]
    does. *)
Theorem normalize_status_trim_case :
  (forall s, normalize_status (VStr (Py.strip s)) = normalize_status (VStr s))
  /\ (forall s, normalize_status (VStr (Py.lower s)) = normalize_status (VStr s))
  /\ (forall s, Py.strip s = "" -> normalize_status (VStr s) = normalize_status VNone).
Proof.
  split; [|split].
  - intros s. apply normalize_status_text. now rewrite strip_idem.
  - intros s. apply normalize_status_text. now rewrite <- lower_strip, lower_idem.
  - intros s H. unfold normalize_status. cbn [py_str]. now rewrite H.
Qed.

Lemma normalize_status_trim_case_witness :
  normalize_status (VStr "   ") = normalize_status VNone.
Proof. apply (proj2 (proj2 normalize_status_trim_case)). reflexivity. Defined.

(** ** HER2 reconciliation *)

Lemma fish_to_status_values (fish : pyval) (s : string) :
  fish_to_status fish = Some s -> s = "Positive" \/ s = "Negative".
Proof.
  rewrite fish_to_status_rules. unfold SpecHer2.fish_determinate.
  destruct (truthy fish); [|discriminate].
  generalize (Py.lower (Py.strip (py_str fish))). intros t.
  cbn [SpecHer2.first_rule SpecHer2.fish_rules].
  repeat (destruct (existsb _ _); [intros [= <-]; tauto|]).
  discriminate.
Qed.

Lemma ihc_to_status_values (ihc : pyval) (s : string) :
  ihc_to_status ihc = Some s -> In s ["Positive"; "Negative"; "Equivocal"].
Proof.
  rewrite ihc_to_status_table. unfold SpecHer2.ihc_mapped.
  destruct (truthy ihc); [|discriminate].
  generalize (Py.remove_ws (Py.lower (Py.strip (py_str ihc)))). intros t.
  cbn [SpecHer2.assoc SpecHer2.ihc_table].
  repeat (destruct (String.eqb t _); [intros [= <-]; cbn; tauto|]).
  discriminate.
Qed.

(** X3.  The reconciled HER2 status is Positive, Negative or Equivocal and
    never "Unknown"; it comes with its source, and there is a status exactly
    when there is a source.  A status taken from FISH is Positive or
    Negative; none is returned only when neither the FISH text nor the IHC
    score decides. *)
Theorem her2_final_status_range (ihc_score fish explicit : pyval) :
  match her2_final_status ihc_score fish explicit with
  | (Some s, Some src) =>
      (src = "fish" /\ fish_to_status fish = Some s /\ (s = "Positive" \/ s = "Negative"))
      \/ (src = "ihc" /\ fish_to_status fish = None /\ ihc_to_status ihc_score = Some s
          /\ In s ["Positive"; "Negative"; "Equivocal"])
      \/ (src = "explicit" /\ fish_to_status fish = None /\ ihc_to_status ihc_score = None
          /\ normalize_status explicit = Some s
          /\ In s ["Positive"; "Negative"; "Equivocal"])
  | (None, None) => fish_to_status fish = None /\ ihc_to_status ihc_score = None
  | _ => False
  end.
Proof.
  unfold her2_final_status.
  destruct (fish_to_status fish) as [s|] eqn:Hf.
  { rewrite (fish_status_truthy _ _ Hf). left.
    pose proof (fish_to_status_values _ _ Hf). tauto. }
  cbn [str_truthy].
  destruct (ihc_to_status ihc_score) as [s|] eqn:Hi.
  { rewrite (ihc_status_truthy _ _ Hi). right. left.
    pose proof (ihc_to_status_values _ _ Hi). tauto. }
  cbn [str_truthy]. unfold opt_mem.
  destruct (normalize_status explicit) as [s|] eqn:He; [|tauto].
  destruct (Py.mem s _) eqn:Hm; [|tauto].
  right. right. repeat split.
  unfold Py.mem in Hm. cbn [existsb] in Hm.
  rewrite !orb_true_iff, !String.eqb_eq in Hm. cbn. intuition (auto; discriminate).
Qed.

Lemma strip_opt_fish (fish : option string) :
  fish_to_status (of_opt (strip_opt fish)) = fish_to_status (of_opt fish).
Proof.
  destruct fish as [s|]; [|reflexivity]. cbn [strip_opt].
  destruct (String.eqb s "") eqn:E; [apply String.eqb_eq in E as ->; reflexivity|].
  cbn [of_opt]. unfold fish_to_status. cbn [truthy py_str]. rewrite E, strip_idem.
  destruct (String.eqb (Py.strip s) "") eqn:E'; [|reflexivity].
  apply String.eqb_eq in E'. rewrite E'. reflexivity.
Qed.

Lemma strip_opt_ihc (ihc : option string) :
  ihc_to_status (of_opt (strip_opt ihc)) = ihc_to_status (of_opt ihc).
Proof.
  destruct ihc as [s|]; [|reflexivity]. cbn [strip_opt].
  destruct (String.eqb s "") eqn:E; [apply String.eqb_eq in E as ->; reflexivity|].
  cbn [of_opt]. unfold ihc_to_status. cbn [truthy py_str]. rewrite E, strip_idem.
  destruct (String.eqb (Py.strip s) "") eqn:E'; [|reflexivity].
  apply String.eqb_eq in E'. rewrite E'. reflexivity.
Qed.

Lemma strip_opt_status (explicit : option string) :
  normalize_status (of_opt (strip_opt explicit)) = normalize_status (of_opt explicit).
Proof.
  destruct explicit as [s|]; [|reflexivity]. cbn [strip_opt].
  destruct (String.eqb s "") eqn:E; [apply String.eqb_eq in E as ->; reflexivity|].
  cbn [of_opt]. apply normalize_status_text. now rewrite strip_idem.
Qed.

(** X4.  The per-note reconciliation [reconcile_her2] and the function
    [her2_final_status] decide the same status on the same three texts; the
    per-note one returns beside it the IHC and FISH texts trimmed, an empty
    text as none. *)
Theorem reconcile_her2_status (ihc_score fish explicit : option string) :
  reconcile_her2 ihc_score fish explicit
  = ((her2_final_status (of_opt ihc_score) (of_opt fish) (of_opt explicit)).1,
     strip_opt ihc_score, strip_opt fish).
Proof.
  unfold reconcile_her2, her2_final_status.
  rewrite strip_opt_fish, strip_opt_ihc, strip_opt_status.
  destruct (str_truthy (fish_to_status (of_opt fish))); [reflexivity|].
  destruct (str_truthy (ihc_to_status (of_opt ihc_score))); [reflexivity|].
  destruct (opt_mem _ _); reflexivity.
Qed.

(** ** Evidence support and the order of the evidence *)

Lemma existsb_perm {A : Type} (p : A -> bool) (l l' : list A) :
  Permutation l l' -> existsb p l = existsb p l'.
Proof.
  induction 1 as [|x l l' _ IH|x y l|l l' l'' _ IH1 _ IH2]; cbn [existsb].
  - reflexivity.
  - now rewrite IH.
  - now destruct (p x), (p y).
  - now rewrite IH1.
Qed.

(** X5.  Clean support implies support, and the answer of
    [_evidence_support] does not depend on the order of the evidence rows,
    although the loop stops at the first clean row; evidence added before or
    after a list never takes support away. *)
Theorem _evidence_support_order (pid : pyval) (f : string) (v : pyval) :
  (forall rows, (_evidence_support rows pid f v).1 = true ->
                (_evidence_support rows pid f v).2 = true)
  /\ (forall rows rows', Permutation rows rows' ->
                         _evidence_support rows pid f v = _evidence_support rows' pid f v)
  /\ (forall rows more,
        ((_evidence_support rows pid f v).1 = true ->
         (_evidence_support (rows ++ more) pid f v).1 = true
         /\ (_evidence_support (more ++ rows) pid f v).1 = true)
        /\ ((_evidence_support rows pid f v).2 = true ->
            (_evidence_support (rows ++ more) pid f v).2 = true
            /\ (_evidence_support (more ++ rows) pid f v).2 = true)).
Proof.
  unfold _evidence_support. split; [|split].
  - intros rows. rewrite _evidence_support_loop_spec. cbn [fst snd orb].
    rewrite !existsb_exists. intros (e & He & Hm). exists e. split; [exact He|].
    now apply andb_true_iff in Hm.
  - intros rows rows' Hp. rewrite !_evidence_support_loop_spec.
    now rewrite (existsb_perm _ _ _ Hp), (existsb_perm (ev_matches pid f (_norm_val v)) _ _ Hp).
  - intros rows more. rewrite !_evidence_support_loop_spec. cbn [fst snd orb].
    rewrite !existsb_app. split; intros ->; now rewrite ?orb_true_r.
Qed.

Lemma _evidence_support_order_witness :
  (_evidence_support Scenario.clean_B (VStr "p1") "er_status" (VStr "Negative")).2 = true
  /\ _evidence_support (rev Scenario.clean_B) (VStr "p1") "er_status" (VStr "Negative")
     = _evidence_support Scenario.clean_B (VStr "p1") "er_status" (VStr "Negative").
Proof.
  destruct (_evidence_support_order (VStr "p1") "er_status" (VStr "Negative"))
    as (H1 & H2 & _).
  split.
  - apply H1. reflexivity.
  - apply H2. symmetry. apply Permutation_rev.
Defined.

(** ** The choice of a value among the ranked notes *)

Lemma first_clean_cases (ranked : list row) (ev : list evobj) (pid : pyval) (f : string) :
  (first_clean ranked ev pid f = (VNone, None)
   /\ Forall (fun x => supported ev pid f x = false) ranked)
  \/ (exists pre r post,
        ranked = pre ++ r :: post
        /\ Forall (fun x => supported ev pid f x = false) pre
        /\ supported ev pid f r = true
        /\ first_clean ranked ev pid f = (get r f, Some r)).
Proof.
  induction ranked as [|x ranked IH]; [left; split; [reflexivity|constructor]|].
  cbn [first_clean].
  destruct (supported ev pid f x) eqn:Hx.
  - right. exists [], x, ranked. unfold supported in Hx.
    apply andb_true_iff in Hx as [Hb Hs]. apply negb_true_iff in Hb.
    rewrite Hb, Hs. repeat split; [constructor|].
    unfold supported. now rewrite Hb, Hs.
  - assert (Hgo : (if is_blank (get x f) then first_clean ranked ev pid f
                   else if (_evidence_support ev pid f (get x f)).1 then (get x f, Some x)
                        else first_clean ranked ev pid f) = first_clean ranked ev pid f).
    { unfold supported in Hx. destruct (is_blank (get x f)); [reflexivity|].
      cbn in Hx. now rewrite Hx. }
    rewrite Hgo. destruct IH as [[H1 H2]|(pre & r & post & -> & Hpre & Hr & Hc)].
    + left. split; [exact H1|now constructor].
    + right. exists (x :: pre), r, post. repeat split; try assumption. now constructor.
Qed.

Lemma first_nonempty_cases (ranked : list row) (f : string) (c : pyval * option row) :
  (first_nonempty ranked f c = c /\ Forall (fun x => is_blank (get x f) = true) ranked)
  \/ (exists pre r post,
        ranked = pre ++ r :: post
        /\ Forall (fun x => is_blank (get x f) = true) pre
        /\ is_blank (get r f) = false
        /\ first_nonempty ranked f c = (get r f, Some r)).
Proof.
  induction ranked as [|x ranked IH]; [left; split; [reflexivity|constructor]|].
  cbn [first_nonempty]. destruct (is_blank (get x f)) eqn:Hx.
  - destruct IH as [[H1 H2]|(pre & r & post & -> & Hpre & Hr & Hc)].
    + left. split; [exact H1|now constructor].
    + right. exists (x :: pre), r, post. repeat split; try assumption. now constructor.
  - right. exists [], x, ranked. repeat split; [constructor|exact Hx].
Qed.

Lemma not_blank_not_none (v : pyval) : is_blank v = false -> v <> VNone.
Proof. now destruct v. Qed.

(** The outcome of the two passes: no value at all, the first value with
    clean evidence, or, where no value has clean evidence, the first value. *)
Lemma choose_cases (ranked : list row) (ev : list evobj) (pid : pyval) (f : string) :
  (choose ranked ev pid f = (VNone, None)
   /\ Forall (fun x => is_blank (get x f) = true) ranked)
  \/ (exists pre r post,
        ranked = pre ++ r :: post
        /\ Forall (fun x => supported ev pid f x = false) pre
        /\ supported ev pid f r = true
        /\ choose ranked ev pid f = (get r f, Some r))
  \/ (exists pre r post,
        ranked = pre ++ r :: post
        /\ Forall (fun x => supported ev pid f x = false) ranked
        /\ Forall (fun x => is_blank (get x f) = true) pre
        /\ is_blank (get r f) = false
        /\ choose ranked ev pid f = (get r f, Some r)).
Proof.
  unfold choose.
  destruct (first_clean_cases ranked ev pid f)
    as [[Hc Hall]|(pre & r & post & Hr & Hpre & Hs & Hc)]; rewrite Hc; cbn [fst].
  - destruct (first_nonempty_cases ranked f (VNone, None))
      as [[Hn Hb]|(pre & r & post & Hr & Hpre & Hb & Hn)]; rewrite Hn.
    + now left.
    + right. right. exists pre, r, post. now repeat split.
  - right. left. exists pre, r, post. repeat split; try assumption.
    unfold supported in Hs. apply andb_true_iff in Hs as [Hb _].
    apply negb_true_iff, not_blank_not_none in Hb.
    now destruct (get r f).
Qed.

Section Unchosen.
Variables (ranked : list row) (evidence_rows : list evobj) (pid : pyval) (f : string).
Hypothesis Hnone : choose ranked evidence_rows pid f = (VNone, None).

Lemma pick_field_unchosen (out : row) : pick_field ranked evidence_rows pid out f = out.
Proof. unfold pick_field. now rewrite Hnone. Qed.

Lemma fold_pick_unchosen (fs : list string) (k : string) :
  forall out : row,
  forallb (fun g => String.eqb g f
                    || (negb (Py.mem k (written_hard g)) && negb (Py.mem k (soft_slot g))))
          fs = true ->
  get (fold_left (pick_field ranked evidence_rows pid) fs out) k = get out k.
Proof.
  induction fs as [|g fs IH]; intros out Hall; [reflexivity|].
  cbn [forallb] in Hall. apply andb_true_iff in Hall as [Hg Hall].
  cbn [fold_left]. rewrite IH by exact Hall.
  destruct (String.eqb g f) eqn:E.
  - apply String.eqb_eq in E as ->. now rewrite pick_field_unchosen.
  - cbn [orb] in Hg. apply andb_true_iff in Hg as [Hh Hs].
    apply negb_true_iff in Hh, Hs.
    apply pick_field_frame; [exact Hh|]. rewrite Hs. discriminate.
Qed.

End Unchosen.

(** What the record holds for a base field no note has a value for. *)
Lemma aggregate_unchosen (dtparse : string -> option date) (first : row) (rest : list row)
    (evidence_rows : list evobj) (f : string) :
  truthy (get first "patient_id") = true ->
  In f base_fields ->
  choose (sorted_reverse (row_key dtparse) (first :: rest)) evidence_rows
         (get first "patient_id") f = (VNone, None) ->
  let out := aggregate_patient dtparse (first :: rest) evidence_rows in
  get out f = VNone
  /\ get out (f +:+ "__source_note_id") = VNone
  /\ get out (f +:+ "__source_note_type") = VNone
  /\ get out (f +:+ "__source_note_date") = VNone.
Proof.
  intros Hpid Hin Hc out. subst out.
  cbn [base_fields In] in Hin.
  repeat (destruct Hin as [<-|Hin];
    [repeat split;
     (rewrite aggregate_get_picked by (assumption || reflexivity);
      rewrite (fold_pick_unchosen _ _ _ _ Hc) by (vm_compute; reflexivity);
      reflexivity)|]).
  destruct Hin.
Qed.

(** ** Which note supplies a field *)

Lemma key_lt_irrefl (k : Z * Z) : key_lt k k = false.
Proof. apply key_lt_false. lia. Qed.

Lemma sorted_reverse_equal_keys {A : Type} (key : A -> Z * Z) (k : Z * Z) (l : list A) :
  Forall (fun x => key x = k) l -> sorted_reverse key l = l.
Proof.
  induction 1 as [|x l Hx Hl IH]; [reflexivity|].
  cbn [sorted_reverse foldr]. fold (sorted_reverse key l). rewrite IH.
  apply insert_desc_head. eapply Forall_impl; [exact Hl|].
  intros y Hy. cbn beta. rewrite Hx, Hy. apply key_lt_irrefl.
Qed.

(** X6.  Recency and authority.  A note whose rank (note-type precedence,
    then date ordinal) is strictly above that of every other note of the
    patient, and whose value for a base field has clean evidence, supplies
    the field and its three source keys.  In particular, of notes of one
    note type the most recently dated one wins. *)
Theorem aggregate_top_rank (dtparse : string -> option date) (l1 l2 : list row)
    (p first : row) (rest : list row) (evidence_rows : list evobj) (f : string) :
  l1 ++ p :: l2 = first :: rest ->
  truthy (get first "patient_id") = true ->
  Forall (fun r =>
            (row_key dtparse r).1 < (row_key dtparse p).1
            \/ ((row_key dtparse r).1 = (row_key dtparse p).1
                /\ (row_key dtparse r).2 < (row_key dtparse p).2))%Z (l1 ++ l2) ->
  In f base_fields ->
  supported evidence_rows (get first "patient_id") f p = true ->
  let out := aggregate_patient dtparse (l1 ++ p :: l2) evidence_rows in
  get out f = get p f
  /\ get out (f +:+ "__source_note_id") = get p "note_id"
  /\ get out (f +:+ "__source_note_type") = get p "note_type"
  /\ get out (f +:+ "__source_note_date") = get p "note_date".
Proof.
  intros Hrows Hpid Hothers Hf Hs out.
  unfold supported in Hs. apply andb_true_iff in Hs as [Hb Hs]. apply negb_true_iff in Hb.
  assert (Hrank : sorted_reverse (row_key dtparse) (first :: rest)
                  = p :: sorted_reverse (row_key dtparse) (l1 ++ l2)).
  { rewrite <- Hrows. apply sorted_reverse_top.
    eapply Forall_impl; [exact Hothers|]. intros r Hr. now apply key_lt_spec. }
  assert (Hc := choose_head_clean (sorted_reverse (row_key dtparse) (l1 ++ l2))
                  evidence_rows (get first "patient_id") f p Hb Hs).
  rewrite <- Hrank in Hc.
  pose proof (aggregate_chosen dtparse first rest evidence_rows Hpid f _ _ Hf Hc) as H.
  cbn zeta in H. rewrite <- Hrows in H. fold out in H. tauto.
Qed.

Lemma aggregate_top_rank_witness :
  get (aggregate_patient Scenario.dtparse [Scenario.note_P_old; Fixture.note_P2]
         Scenario.clean_B) "er_status"
  = VStr "Positive".
Proof.
  refine (proj1 (aggregate_top_rank Scenario.dtparse [Scenario.note_P_old] []
                   Fixture.note_P2 Scenario.note_P_old [Fixture.note_P2] Scenario.clean_B
                   "er_status" _ _ _ _ _)).
  - reflexivity.
  - reflexivity.
  - apply Forall_cons. split; [right; split; reflexivity|constructor].
  - cbn; tauto.
  - reflexivity.
Defined.

Lemma first_true_unique {A : Type} (p : A -> bool) (pre pre' post post' : list A) (r r' : A) :
  pre ++ r :: post = pre' ++ r' :: post' ->
  Forall (fun x => p x = false) pre -> p r = true ->
  Forall (fun x => p x = false) pre' -> p r' = true ->
  pre' = pre /\ r' = r.
Proof.
  intros Hsplit Hpre Hr. revert pre' Hsplit.
  induction Hpre as [|x pre Hx _ IH]; intros pre' Hsplit Hpre' Hr'.
  - destruct pre' as [|y pre']; cbn in Hsplit.
    + now injection Hsplit as -> _.
    + injection Hsplit as -> _. apply Forall_cons in Hpre' as [Hy _]. congruence.
  - destruct pre' as [|y pre']; cbn in Hsplit.
    + injection Hsplit as -> _. congruence.
    + injection Hsplit as -> Hsplit. apply Forall_cons in Hpre' as [_ Hpre'].
      destruct (IH pre' Hsplit Hpre' Hr') as [-> ->]. now split.
Qed.

(** X7.  Input order breaks ties.  Where all notes of the patient have the
    same rank (the same note-type precedence and date ordinal), the first
    note in input order whose value for a base field has clean evidence
    supplies the field and its source keys. *)
Theorem aggregate_equal_rank (dtparse : string -> option date) (first : row)
    (rest : list row) (evidence_rows : list evobj) (f : string)
    (pre post : list row) (r : row) :
  truthy (get first "patient_id") = true ->
  Forall (fun x => row_key dtparse x = row_key dtparse first) rest ->
  In f base_fields ->
  first :: rest = pre ++ r :: post ->
  Forall (fun x => supported evidence_rows (get first "patient_id") f x = false) pre ->
  supported evidence_rows (get first "patient_id") f r = true ->
  let out := aggregate_patient dtparse (first :: rest) evidence_rows in
  sorted_reverse (row_key dtparse) (first :: rest) = first :: rest
  /\ get out f = get r f
  /\ get out (f +:+ "__source_note_id") = get r "note_id"
  /\ get out (f +:+ "__source_note_type") = get r "note_type"
  /\ get out (f +:+ "__source_note_date") = get r "note_date".
Proof.
  intros Hpid Heq Hf Hrows Hpre Hr out.
  assert (Hrank : sorted_reverse (row_key dtparse) (first :: rest) = first :: rest).
  { apply (sorted_reverse_equal_keys _ (row_key dtparse first)). now constructor. }
  split; [exact Hrank|].
  assert (Hc : choose (sorted_reverse (row_key dtparse) (first :: rest)) evidence_rows
                 (get first "patient_id") f = (get r f, Some r)).
  { rewrite Hrank, Hrows.
    destruct (choose_cases (pre ++ r :: post) evidence_rows (get first "patient_id") f)
      as [[_ Hall]|[(pre' & r' & post' & Hsplit & Hpre' & Hr' & Hc)
                   |(_ & _ & _ & _ & Hall & _)]].
    - exfalso. rewrite Forall_app, Forall_cons in Hall. destruct Hall as (_ & Hb & _).
      unfold supported in Hr. now rewrite Hb in Hr.
    - assert (Hsame : pre' = pre /\ r' = r)
        by (eapply first_true_unique; eauto).
      destruct Hsame as [_ ->]. exact Hc.
    - exfalso. rewrite Forall_app, Forall_cons in Hall. destruct Hall as (_ & Hb & _).
      congruence. }
  destruct (aggregate_chosen dtparse first rest evidence_rows Hpid f _ _ Hf Hc)
    as (H1 & H2 & H3 & H4 & _).
  auto.
Qed.

Lemma aggregate_equal_rank_witness :
  get (aggregate_patient Scenario.dtparse [Fixture.note_blank; Fixture.note_P2; Scenario.note_P]
         Scenario.clean_B) "er_status"
  = VStr "Positive".
Proof.
  refine (proj1 (proj2 (aggregate_equal_rank Scenario.dtparse Fixture.note_blank
                          [Fixture.note_P2; Scenario.note_P] Scenario.clean_B "er_status"
                          [Fixture.note_blank] [Scenario.note_P] Fixture.note_P2
                          _ _ _ _ _ _))).
  - reflexivity.
  - repeat constructor.
  - cbn; tauto.
  - reflexivity.
  - repeat constructor.
  - reflexivity.
Defined.

(** X8.  Clean evidence comes before rank.  Where some note of the patient
    has a value with clean evidence for a base field, the value the record
    gets has clean evidence too, whatever higher-ranked notes say without
    clean evidence. *)
Theorem aggregate_prefers_clean (dtparse : string -> option date) (first : row)
    (rest : list row) (evidence_rows : list evobj) (f : string) (r : row) :
  truthy (get first "patient_id") = true ->
  In f base_fields ->
  In r (first :: rest) ->
  supported evidence_rows (get first "patient_id") f r = true ->
  let out := aggregate_patient dtparse (first :: rest) evidence_rows in
  is_blank (get out f) = false
  /\ (_evidence_support evidence_rows (get first "patient_id") f (get out f)).1 = true.
Proof.
  intros Hpid Hf Hin Hr out.
  assert (Hin' : In r (sorted_reverse (row_key dtparse) (first :: rest))).
  { eapply Permutation_in; [symmetry; apply sorted_reverse_perm|exact Hin]. }
  destruct (choose_cases (sorted_reverse (row_key dtparse) (first :: rest)) evidence_rows
              (get first "patient_id") f)
    as [[_ Hall]|[(pre & r' & post & _ & _ & Hr' & Hc)|(_ & _ & _ & _ & Hall & _)]].
  - exfalso. rewrite Forall_forall in Hall. apply list_elem_of_In in Hin'.
    specialize (Hall r Hin'). unfold supported in Hr. now rewrite Hall in Hr.
  - destruct (aggregate_chosen dtparse first rest evidence_rows Hpid f _ _ Hf Hc)
      as (H1 & _). fold out in H1. rewrite H1.
    unfold supported in Hr'. apply andb_true_iff in Hr' as [Hb Hs].
    now apply negb_true_iff in Hb.
  - exfalso. rewrite Forall_forall in Hall. apply list_elem_of_In in Hin'.
    specialize (Hall r Hin'). congruence.
Qed.

Lemma aggregate_prefers_clean_witness :
  (_evidence_support Fixture.ev_neg_negated (VStr "p1") "er_status"
     (get (aggregate_patient Scenario.dtparse [Scenario.note_R; Scenario.note_P]
             Fixture.ev_neg_negated) "er_status")).1 = true.
Proof.
  refine (proj2 (aggregate_prefers_clean Scenario.dtparse Scenario.note_R [Scenario.note_P]
                   Fixture.ev_neg_negated "er_status" Scenario.note_R _ _ _ _)).
  - reflexivity.
  - cbn; tauto.
  - now left.
  - reflexivity.
Defined.

(** X9.  Provenance.  For every base field the record either has no
    value, and then no note of the patient has one and the source keys are
    empty, or it has the value of one of the patient's notes, and the three
    source keys are the id, type and date of that very note. *)
Theorem aggregate_provenance (dtparse : string -> option date) (first : row)
    (rest : list row) (evidence_rows : list evobj) (f : string) :
  truthy (get first "patient_id") = true ->
  In f base_fields ->
  let out := aggregate_patient dtparse (first :: rest) evidence_rows in
  (Forall (fun x => is_blank (get x f) = true) (first :: rest)
   /\ get out f = VNone
   /\ get out (f +:+ "__source_note_id") = VNone
   /\ get out (f +:+ "__source_note_type") = VNone
   /\ get out (f +:+ "__source_note_date") = VNone)
  \/ (exists r, In r (first :: rest)
                /\ is_blank (get r f) = false
                /\ get out f = get r f
                /\ get out (f +:+ "__source_note_id") = get r "note_id"
                /\ get out (f +:+ "__source_note_type") = get r "note_type"
                /\ get out (f +:+ "__source_note_date") = get r "note_date").
Proof.
  intros Hpid Hf out.
  pose proof (sorted_reverse_perm (row_key dtparse) (first :: rest)) as Hperm.
  destruct (choose_cases (sorted_reverse (row_key dtparse) (first :: rest)) evidence_rows
              (get first "patient_id") f)
    as [[Hc Hall]|[(pre & r & post & Hsplit & _ & Hr & Hc)
                  |(pre & r & post & Hsplit & _ & _ & Hb & Hc)]].
  - left. split.
    + rewrite Forall_forall in *. intros x Hx. apply Hall.
      apply list_elem_of_In. eapply Permutation_in; [symmetry; exact Hperm|].
      now apply list_elem_of_In.
    + now apply aggregate_unchosen.
  - right. exists r.
    destruct (aggregate_chosen dtparse first rest evidence_rows Hpid f _ _ Hf Hc)
      as (H1 & H2 & H3 & H4 & _).
    split; [|split; [|auto]].
    + eapply Permutation_in; [exact Hperm|]. rewrite Hsplit. apply in_elt.
    + unfold supported in Hr. apply andb_true_iff in Hr as [Hr _].
      now apply negb_true_iff in Hr.
  - right. exists r.
    destruct (aggregate_chosen dtparse first rest evidence_rows Hpid f _ _ Hf Hc)
      as (H1 & H2 & H3 & H4 & _).
    split; [|split; [|auto]]; [|exact Hb].
    eapply Permutation_in; [exact Hperm|]. rewrite Hsplit. apply in_elt.
Qed.

Lemma aggregate_provenance_witness :
  get (aggregate_patient Scenario.dtparse [Fixture.note_blank] []) "er_status" = VNone
  /\ get (aggregate_patient Scenario.dtparse [Fixture.note_blank] []) "grade" = VStr "2".
Proof.
  split.
  - destruct (aggregate_provenance Scenario.dtparse Fixture.note_blank [] [] "er_status")
      as [(_ & H & _)|(r & Hin & Hb & _)]; [reflexivity|cbn; tauto|exact H|].
    destruct Hin as [<-|[]]. discriminate Hb.
  - destruct (aggregate_provenance Scenario.dtparse Fixture.note_blank [] [] "grade")
      as [(Hall & _)|(r & Hin & _ & H & _)]; [reflexivity|cbn; tauto| |].
    + apply Forall_cons in Hall as [Hb _]. discriminate Hb.
    + destruct Hin as [<-|[]]. exact H.
Defined.

(** ** The key set of the patient record *)

Lemma insert_keep_dom (m : row) (k : string) (v : pyval) (D : gset string) :
  dom m = D -> k ∈ D -> dom (<[k := v]> m) = D.
Proof.
  intros <- Hk. rewrite dom_insert_L.
  apply subseteq_union_1_L, singleton_subseteq_l. exact Hk.
Qed.

Ltac in_record_keys :=
  apply elem_of_list_to_set, list_elem_of_In; cbn;
  repeat (first [left; reflexivity | right]).

Lemma pick_field_dom (ranked : list row) (evidence_rows : list evobj) (pid : pyval)
    (out : row) (f : string) :
  In f base_fields ->
  dom out = list_to_set record_keys ->
  dom (pick_field ranked evidence_rows pid out f) = list_to_set record_keys.
Proof.
  intros Hf Hdom. unfold pick_field.
  destruct (choose _ _ _ _) as [c [r|]]; [|exact Hdom].
  cbn [base_fields In] in Hf.
  repeat (destruct Hf as [<-|Hf];
          [cbn [String.eqb Ascii.eqb Bool.eqb];
           repeat (apply insert_keep_dom; [|in_record_keys]); exact Hdom|]).
  destruct Hf.
Qed.

Lemma fold_pick_dom (ranked : list row) (evidence_rows : list evobj) (pid : pyval)
    (fs : list string) :
  forall out : row,
  Forall (fun f => In f base_fields) fs ->
  dom out = list_to_set record_keys ->
  dom (fold_left (pick_field ranked evidence_rows pid) fs out) = list_to_set record_keys.
Proof.
  induction fs as [|f fs IH]; intros out Hfs Hdom; [exact Hdom|].
  apply Forall_cons in Hfs as [Hf Hfs]. cbn [fold_left].
  apply IH; [exact Hfs|]. now apply pick_field_dom.
Qed.

(** X10.  Stable columns.  Whatever the notes and the evidence are, the
    record of a patient has exactly the keys of the schema and the three
    source keys of every base field, and its patient id is that of the first
    note. *)
Theorem aggregate_record_keys (dtparse : string -> option date) (first : row)
    (rest : list row) (evidence_rows : list evobj) :
  truthy (get first "patient_id") = true ->
  let out := aggregate_patient dtparse (first :: rest) evidence_rows in
  dom out = list_to_set record_keys
  /\ get out "patient_id" = get first "patient_id".
Proof.
  intros Hpid out. subst out. split.
  - rewrite (aggregate_patient_eq dtparse first rest evidence_rows Hpid). cbn zeta.
    destruct (_compute_her2_final _ _) as [a b]. cbn [fst snd].
    assert (Hpicked : dom (fold_left
                             (pick_field (sorted_reverse (row_key dtparse) (first :: rest))
                                         evidence_rows (get first "patient_id"))
                             base_fields
                             (init_sources (init_columns {["patient_id" := get first "patient_id"]})))
                      = list_to_set record_keys).
    { apply fold_pick_dom.
      - apply Forall_forall. intros f Hf. now apply list_elem_of_In.
      - generalize (get first "patient_id"). intros pid.
        apply (bool_decide_unpack _). vm_compute. exact I. }
    unfold set_opt.
    destruct a, b; repeat (apply insert_keep_dom; [|in_record_keys]); exact Hpicked.
  - rewrite aggregate_get_picked by (assumption || reflexivity).
    rewrite fold_pick_frame by (vm_compute; reflexivity). reflexivity.
Qed.

Lemma aggregate_record_keys_witness :
  get (aggregate_patient Scenario.dtparse [Scenario.note_R; Scenario.note_P] Scenario.clean_B)
      "patient_id" = VStr "p1".
Proof.
  refine (proj2 (aggregate_record_keys Scenario.dtparse Scenario.note_R [Scenario.note_P]
                   Scenario.clean_B _)).
  reflexivity.
Defined.


(** ** [clean_text] *)

Lemma runs_below_weaken (p : ascii -> bool) (lo : nat) (s : list ascii) :
  forall cur cur', (cur' <= cur)%nat ->
  runs_below p lo cur s = true -> runs_below p lo cur' s = true.
Proof.
  induction s as [|c s IH]; intros cur cur' Hle; cbn [runs_below].
  - rewrite !Nat.ltb_lt. lia.
  - destruct (p c).
    + apply IH. lia.
    + rewrite !andb_true_iff, !Nat.ltb_lt. intros [H1 H2]. split; [lia|exact H2].
Qed.

Lemma runs_below_class (p : ascii -> bool) (lo : nat) (l rest : list ascii) :
  forall cur, forallb p l = true ->
  runs_below p lo cur (l ++ rest) = runs_below p lo (cur + length l) rest.
Proof.
  induction l as [|c l IH]; intros cur Hl; cbn [app length].
  - now rewrite Nat.add_0_r.
  - cbn [forallb] in Hl. apply andb_true_iff in Hl as [Hc Hl].
    cbn [runs_below]. rewrite Hc, IH by exact Hl. f_equal. lia.
Qed.

(** Characters outside the class end the run that stands before them. *)
Lemma runs_below_others (q : ascii -> bool) (n : nat) (l rest : list ascii) :
  forall cur, forallb (fun c => negb (q c)) l = true -> l <> [] ->
  runs_below q n cur (l ++ rest) = (cur <? n)%nat && runs_below q n 0 rest.
Proof.
  induction l as [|c l IH]; intros cur Hl Hne; [now destruct Hne|].
  cbn [forallb] in Hl. apply andb_true_iff in Hl as [Hc Hl]. apply negb_true_iff in Hc.
  cbn [app runs_below]. rewrite Hc.
  destruct l as [|d l]; [reflexivity|].
  rewrite (IH 0%nat Hl) by discriminate.
  destruct (0 <? n)%nat eqn:E; [reflexivity|].
  apply Nat.ltb_ge in E. assert (n = 0)%nat as -> by lia.
  now rewrite andb_false_r.
Qed.

Lemma runs_below_prefix (p : ascii -> bool) (lo : nat) (a b : list ascii) :
  forall cur, runs_below p lo cur (a ++ b) = true -> runs_below p lo cur a = true.
Proof.
  induction a as [|c a IH]; intros cur; cbn [app runs_below].
  - destruct b as [|d b]; cbn [runs_below]; [auto|].
    destruct (p d).
    + intros H. apply (runs_below_weaken p lo b (S cur) cur) in H; [|lia].
      clear -H. revert cur H. induction b as [|e b IH]; intros cur; cbn [runs_below]; [auto|].
      destruct (p e); [intros H; apply (IH (S cur)) in H; apply Nat.ltb_lt in H;
                       apply Nat.ltb_lt; lia|].
      now intros [H _]%andb_true_iff.
    + now intros [H _]%andb_true_iff.
  - destruct (p c); [apply IH|].
    rewrite !andb_true_iff. intros [H1 H2]. split; [exact H1|now apply IH].
Qed.

Section SubRuns.
Variables (p : ascii -> bool) (lo : nat) (repl : list ascii).

Lemma sub_runs_id (s : list ascii) :
  forall run, runs_below p lo (length run) s = true ->
  sub_runs p lo repl run s = run ++ s.
Proof.
  induction s as [|c s IH]; intros run; cbn [runs_below sub_runs].
  - intros H. apply Nat.ltb_lt in H.
    destruct (lo <=? length run)%nat eqn:E; [apply Nat.leb_le in E; lia|].
    now rewrite app_nil_r.
  - destruct (p c).
    + intros H. rewrite IH; [now rewrite <- app_assoc|].
      rewrite length_app. cbn. now rewrite Nat.add_1_r.
    + intros [H1 H2]%andb_true_iff. apply Nat.ltb_lt in H1.
      destruct (lo <=? length run)%nat eqn:E; [apply Nat.leb_le in E; lia|].
      now rewrite (IH [] H2).
Qed.

Lemma sub_runs_forallb (q : ascii -> bool) (s : list ascii) :
  forallb q repl = true ->
  forall run, forallb q run = true -> forallb q s = true ->
  forallb q (sub_runs p lo repl run s) = true.
Proof.
  intros Hrepl. induction s as [|c s IH]; intros run Hrun Hs; cbn [sub_runs].
  - now destruct (lo <=? length run)%nat.
  - cbn [forallb] in Hs. apply andb_true_iff in Hs as [Hc Hs].
    destruct (p c).
    + apply IH; [|exact Hs]. rewrite forallb_app, Hrun. cbn. now rewrite Hc.
    + rewrite forallb_app. cbn [forallb]. rewrite Hc, (IH [] eq_refl Hs).
      now destruct (lo <=? length run)%nat; rewrite ?Hrepl, ?Hrun.
Qed.

Hypothesis Hrepl_class : forallb p repl = true.

Lemma sub_runs_below (s : list ascii) :
  (length repl < lo)%nat ->
  forall run, forallb p run = true ->
  runs_below p lo 0 (sub_runs p lo repl run s) = true.
Proof.
  intros Hlen. induction s as [|c s IH]; intros run Hrun; cbn [sub_runs].
  - destruct (lo <=? length run)%nat eqn:E.
    + rewrite <- (app_nil_r repl), runs_below_class by exact Hrepl_class.
      cbn. now apply Nat.ltb_lt.
    + rewrite <- (app_nil_r run), runs_below_class by exact Hrun.
      cbn. apply Nat.ltb_lt. apply Nat.leb_gt in E. lia.
  - destruct (p c) eqn:Hc.
    + apply IH. rewrite forallb_app, Hrun. cbn. now rewrite Hc.
    + destruct (lo <=? length run)%nat eqn:E.
      * rewrite runs_below_class by exact Hrepl_class. cbn [runs_below]. rewrite Hc.
        rewrite (IH [] eq_refl), andb_true_r. now apply Nat.ltb_lt.
      * rewrite runs_below_class by exact Hrun. cbn [runs_below]. rewrite Hc.
        rewrite (IH [] eq_refl), andb_true_r. apply Nat.ltb_lt. apply Nat.leb_gt in E. lia.
Qed.

(** Replacing the runs of one class keeps the runs of a disjoint class
    apart, the replacement being non-empty. *)
Lemma sub_runs_keeps (q : ascii -> bool) (n : nat) (s : list ascii) :
  (forall c, p c = true -> q c = false) ->
  (1 <= lo)%nat -> repl <> [] ->
  forall run cur, forallb p run = true ->
  runs_below q n cur (run ++ s) = true ->
  runs_below q n cur (sub_runs p lo repl run s) = true.
Proof.
  intros Hdisj Hlo Hne.
  assert (Hnq : forall l, forallb p l = true -> forallb (fun c => negb (q c)) l = true).
  { intros l Hl. rewrite forallb_forall in *. intros c Hc.
    now rewrite (Hdisj c (Hl c Hc)). }
  assert (Hflush : forall run cur rest, forallb p run = true ->
             runs_below q n cur (run ++ rest) = true ->
             runs_below q n cur ((if (lo <=? length run)%nat then repl else run) ++ rest) = true).
  { intros run cur rest Hrun H.
    destruct (lo <=? length run)%nat eqn:E; [|exact H].
    apply Nat.leb_le in E.
    assert (run <> []) by (intros ->; cbn in E; lia).
    rewrite runs_below_others in H by auto.
    rewrite runs_below_others by auto. exact H. }
  induction s as [|c s IH]; intros run cur Hrun H; cbn [sub_runs].
  - pose proof (Hflush run cur [] Hrun H) as H'. now rewrite app_nil_r in H'.
  - destruct (p c) eqn:Hc.
    + apply IH; [rewrite forallb_app, Hrun; cbn; now rewrite Hc|].
      now rewrite <- app_assoc.
    + apply Hflush in H; [|exact Hrun].
      revert H. generalize (if (lo <=? length run)%nat then repl else run). intros fl H.
      revert cur H. induction fl as [|d fl IHfl]; intros cur H; cbn [app runs_below] in *.
      * destruct (q c).
        -- apply (IH [] (S cur) eq_refl). exact H.
        -- apply andb_true_iff in H as [H1 H2]. rewrite H1. apply (IH [] 0%nat eq_refl H2).
      * destruct (q d); [now apply IHfl|].
        apply andb_true_iff in H as [H1 H2]. rewrite H1. now apply IHfl.
Qed.

End SubRuns.

Lemma replace_crlf_id (s : list ascii) :
  forallb (fun c => negb (Ascii.eqb c cr)) s = true -> replace_crlf s = s.
Proof.
  induction s as [|c s IH]; [reflexivity|].
  cbn [forallb]. intros [Hc Hs]%andb_true_iff. apply negb_true_iff in Hc.
  cbn [replace_crlf]. destruct s as [|d s]; [reflexivity|].
  rewrite Hc. cbn [andb]. now rewrite (IH Hs).
Qed.

Lemma map_cr_id (s : list ascii) :
  forallb (fun c => negb (Ascii.eqb c cr)) s = true ->
  List.map (fun c => if Ascii.eqb c cr then nl else c) s = s.
Proof.
  induction s as [|c s IH]; [reflexivity|].
  cbn [forallb]. intros [Hc Hs]%andb_true_iff. apply negb_true_iff in Hc.
  cbn [List.map]. now rewrite Hc, (IH Hs).
Qed.

Lemma map_cr_none (s : list ascii) :
  forallb (fun c => negb (Ascii.eqb c cr))
          (List.map (fun c => if Ascii.eqb c cr then nl else c) s) = true.
Proof.
  induction s as [|c s IH]; [reflexivity|].
  cbn [List.map forallb]. rewrite IH, andb_true_r.
  destruct (Ascii.eqb c cr) eqn:E; [reflexivity|]. now rewrite E.
Qed.

(** Trimming keeps a part of the text: something is cut off in front and
    something behind. *)
Lemma lstrip_suffix (s : string) : exists a, s = a +:+ Py.lstrip s.
Proof.
  induction s as [|c s [a IH]]; [now exists ""|].
  cbn [Py.lstrip]. destruct (Py.isspace c).
  - exists (String c a). change (String c s = String c (a +:+ Py.lstrip s)).
    now rewrite <- IH.
  - now exists "".
Qed.

Lemma rstrip_prefix (s : string) : exists b, s = Py.rstrip s +:+ b.
Proof.
  induction s as [|c s [b IH]]; [now exists ""|].
  cbn [Py.rstrip]. destruct (Py.rstrip s) as [|d r] eqn:E.
  - destruct (Py.isspace c).
    + now exists (String c s).
    + exists s. reflexivity.
  - exists b. change (String c s = String c (String d r +:+ b)). now rewrite <- IH.
Qed.

Lemma strip_part (s : string) : exists a b, s = a +:+ Py.strip s +:+ b.
Proof.
  destruct (lstrip_suffix s) as [a Ha]. destruct (rstrip_prefix (Py.lstrip s)) as [b Hb].
  exists a, b. unfold Py.strip. now rewrite <- Hb.
Qed.

Lemma runs_below_part (p : ascii -> bool) (lo : nat) (a m b : list ascii) :
  runs_below p lo 0 (a ++ m ++ b) = true -> runs_below p lo 0 m = true.
Proof.
  intros H. apply (runs_below_prefix p lo m b).
  revert H. generalize (m ++ b). intros l. generalize 0%nat at 1.
  induction a as [|c a IH]; intros cur H; cbn [app] in H.
  - eapply runs_below_weaken; [|exact H]. lia.
  - cbn [runs_below] in H. destruct (p c); [now apply (IH (S cur))|].
    apply andb_true_iff in H as [_ H]. now apply (IH 0%nat).
Qed.

Lemma forallb_part {A : Type} (q : A -> bool) (a m b : list A) :
  forallb q (a ++ m ++ b) = true -> forallb q m = true.
Proof. rewrite !forallb_app, !andb_true_iff. tauto. Qed.


Lemma tidy_clean_text (text : string) : tidy (clean_text text).
Proof.
  unfold clean_text. destruct (String.eqb text ""); [repeat split; reflexivity|].
  set (l1 := List.map _ (replace_crlf _)).
  set (l2 := sub_runs _ 2 _ [] l1).
  set (l3 := sub_runs _ 3 _ [] l2).
  assert (H1 : forallb (fun c => negb (Ascii.eqb c cr)) l1 = true) by apply map_cr_none.
  assert (H2 : forallb (fun c => negb (Ascii.eqb c cr)) l2 = true)
    by (apply sub_runs_forallb; auto).
  assert (H3 : forallb (fun c => negb (Ascii.eqb c cr)) l3 = true)
    by (apply sub_runs_forallb; auto).
  assert (B2 : runs_below blank 2 0 l2 = true)
    by (apply (sub_runs_below blank 2 [" "%char]); [reflexivity|cbn; lia|reflexivity]).
  assert (B3 : runs_below blank 2 0 l3 = true).
  { apply (sub_runs_keeps (Ascii.eqb nl) 3 [nl; nl] eq_refl blank 2);
      [|lia|discriminate|reflexivity|exact B2].
    intros c Hc. apply Ascii.eqb_eq in Hc as <-. reflexivity. }
  assert (N3 : runs_below (Ascii.eqb nl) 3 0 l3 = true)
    by (apply sub_runs_below; [reflexivity|cbn; lia|reflexivity]).
  destruct (strip_part (string_of_list_ascii l3)) as (a & b & Hpart).
  apply (f_equal list_ascii_of_string) in Hpart.
  rewrite list_ascii_of_string_of_list_ascii, !list_ascii_of_string_app in Hpart.
  rewrite Hpart in H3, B3, N3.
  repeat split.
  - exact (forallb_part _ _ _ _ H3).
  - exact (runs_below_part _ _ _ _ _ B3).
  - exact (runs_below_part _ _ _ _ _ N3).
  - apply strip_idem.
Qed.

(** X11.  [clean_text] returns a tidy text: without carriage returns,
    without two blanks (tabs or spaces) in a row, without three newlines in a
    row and without white space at either end. *)
Theorem clean_text_tidy (text : string) : tidy (clean_text text).
Proof. exact (tidy_clean_text text). Qed.

(** X12.  [clean_text] leaves a tidy text as it is, and so cleaning twice
    is cleaning once. *)
Theorem clean_text_idempotent :
  (forall text, tidy text -> clean_text text = text)
  /\ (forall text, clean_text (clean_text text) = clean_text text).
Proof.
  assert (Hid : forall text, tidy text -> clean_text text = text).
  { intros text (Hcr & Hb & Hn & Hs). unfold clean_text.
    destruct (String.eqb text "") eqn:E; [now apply String.eqb_eq in E|].
    rewrite replace_crlf_id, map_cr_id by exact Hcr.
    rewrite (sub_runs_id _ 2 _ _ []) by exact Hb. cbn [app].
    rewrite (sub_runs_id _ 3 _ _ []) by exact Hn. cbn [app].
    now rewrite string_of_list_ascii_of_string. }
  split; [exact Hid|]. intros text. apply Hid, tidy_clean_text.
Qed.

Lemma clean_text_idempotent_witness : clean_text "ER: Positive (90%)." = "ER: Positive (90%).".
Proof. apply (proj1 clean_text_idempotent). repeat split; reflexivity. Defined.


(** ** What a match tells about the text *)

Section MatchFacts.
Context {R : Type}.

(** A repetition that matched took a run of its class, at least [lo] long,
    and went on after it. *)
Lemma rep_inv (p : ascii -> bool) (s : list ascii) :
  forall (lo : nat) (hi : option nat) (prev : option ascii) (cs : Re.caps)
         (k : Re.cont (R := R)) (x : R),
  Re.rep p lo hi prev s cs k = Some x ->
  exists ds rest,
    s = ds ++ rest /\ forallb p ds = true /\ (lo <= length ds)%nat
    /\ k (last_char prev ds) rest cs = Some x.
Proof.
  induction s as [|c s IH]; intros lo hi prev cs k x; cbn [Re.rep].
  - destruct (lo =? 0)%nat eqn:E; [|discriminate]. apply Nat.eqb_eq in E as ->.
    intros H. exists [], []. repeat split; [lia|exact H].
  - assert (Hstop : (if (lo =? 0)%nat then k prev (c :: s) cs else None) = Some x ->
                    exists ds rest, c :: s = ds ++ rest /\ forallb p ds = true
                                    /\ (lo <= length ds)%nat
                                    /\ k (last_char prev ds) rest cs = Some x).
    { destruct (lo =? 0)%nat eqn:E; [|discriminate]. apply Nat.eqb_eq in E as ->.
      intros H. exists [], (c :: s). repeat split; [lia|exact H]. }
    destruct (p c && Re.more hi) eqn:Hc; [|exact Hstop].
    unfold Re.orelse.
    destruct (Re.rep p (pred lo) (Re.dec hi) (Some c) s cs k) as [y|] eqn:Hrec; [|exact Hstop].
    intros [= ->]. apply IH in Hrec as (ds & rest & -> & Hds & Hlo & Hk).
    apply andb_true_iff in Hc as [Hc _].
    exists (c :: ds), rest. repeat split.
    + cbn. now rewrite Hc.
    + cbn. lia.
    + now rewrite last_char_cons.
Qed.

Lemma lit_inv (w : string) :
  forall (prev : option ascii) (s : list ascii) (cs : Re.caps) (k : Re.cont (R := R)) (x : R),
  Re.run (Re.lit w) prev s cs k = Some x ->
  exists rest, s = list_ascii_of_string w ++ rest
               /\ k (last_char prev (list_ascii_of_string w)) rest cs = Some x.
Proof.
  induction w as [|a w IH]; intros prev s cs k x; cbn [Re.lit Re.run].
  - intros H. now exists s.
  - destruct s as [|c s]; [discriminate|]. unfold Re.chr at 1.
    destruct (Ascii.eqb a c) eqn:E; [|discriminate]. apply Ascii.eqb_eq in E as <-.
    intros H. apply IH in H as (rest & -> & Hk).
    exists rest. split; [reflexivity|].
    cbn [list_ascii_of_string]. now rewrite (last_char_cons prev).
Qed.

(** A pattern cannot match where its continuation fails on every rest of
    the text; [ok] is a property of texts that their rests inherit. *)
Lemma run_fails (ok : list ascii -> bool) (r : Re.regex) :
  (forall c s, ok (c :: s) = true -> ok s = true) ->
  forall (prev : option ascii) (s : list ascii) (cs : Re.caps) (k : Re.cont (R := R)),
  (forall prev' s' cs', ok s' = true -> k prev' s' cs' = None) ->
  ok s = true ->
  Re.run r prev s cs k = None.
Proof.
  intros Htail. induction r as [|p|r1 IH1 r2 IH2|r1 IH1 r2 IH2|p lo hi|r1 IH1|n r1 IH1|];
    intros prev s cs k Hk Hs; cbn [Re.run].
  - now apply Hk.
  - destruct s as [|c s]; [reflexivity|]. destruct (p c); [|reflexivity].
    apply Hk. now apply (Htail c).
  - apply IH1; [|exact Hs]. intros prev' s' cs' Hs'. now apply IH2.
  - unfold Re.orelse. rewrite IH1 by assumption. now apply IH2.
  - revert lo hi prev Hs. induction s as [|c s IHs]; intros lo hi prev Hs; cbn [Re.rep].
    + destruct (lo =? 0)%nat; [now apply Hk|reflexivity].
    + assert (Hstop : (if (lo =? 0)%nat then k prev (c :: s) cs else None) = None)
        by (destruct (lo =? 0)%nat; [now apply Hk|reflexivity]).
      destruct (p c && Re.more hi); [|exact Hstop].
      unfold Re.orelse. rewrite IHs; [exact Hstop|now apply (Htail c)].
  - unfold Re.orelse. rewrite IH1 by assumption. now apply Hk.
  - apply IH1; [|exact Hs]. intros prev' s' cs' Hs'. now apply Hk.
  - destruct (xorb _ _); [now apply Hk|reflexivity].
Qed.

End MatchFacts.

Lemma search_from_fails (ok : list ascii -> bool) (r : Re.regex) :
  (forall c s, ok (c :: s) = true -> ok s = true) ->
  (forall prev s, ok s = true -> Re.match_here r prev s = None) ->
  forall prev s, ok s = true -> Re.search_from r prev s = None.
Proof.
  intros Htail Hhere prev s. revert prev.
  induction s as [|c s IH]; intros prev Hs; cbn [Re.search_from]; rewrite Hhere by exact Hs.
  - reflexivity.
  - apply IH. now apply (Htail c).
Qed.

Lemma search_from_inv (r : Re.regex) (s : list ascii) :
  forall prev m, Re.search_from r prev s = Some m ->
  exists pre prev' s', s = pre ++ s' /\ Re.match_here r prev' s' = Some m.
Proof.
  induction s as [|c s IH]; intros prev m; cbn [Re.search_from].
  - destruct (Re.match_here r prev []) eqn:E; [|discriminate].
    intros [= <-]. now exists [], prev, [].
  - destruct (Re.match_here r prev (c :: s)) eqn:E.
    + intros [= <-]. now exists [], prev, (c :: s).
    + intros H. apply IH in H as (pre & prev' & s' & -> & Hm).
      now exists (c :: pre), prev', s'.
Qed.

(** ** The percent of a receptor needs a percent sign *)


Lemma seq_fails {R : Type} (ok : list ascii -> bool) (l : list Re.regex) (last : Re.regex) :
  (forall c s, ok (c :: s) = true -> ok s = true) ->
  (forall prev s cs (k : Re.cont (R := R)), ok s = true -> Re.run last prev s cs k = None) ->
  forall prev s cs (k : Re.cont (R := R)), ok s = true ->
  Re.run (Re.seq (l ++ [last])) prev s cs k = None.
Proof.
  intros Htail Hlast. induction l as [|r l IH]; intros prev s cs k Hs; cbn [app Re.seq Re.run].
  - now apply Hlast.
  - apply (run_fails ok); [exact Htail| |exact Hs].
    intros prev' s' cs' Hs'. now apply IH.
Qed.

Lemma no_percent_tail (c : ascii) (s : list ascii) :
  no_percent (c :: s) = true -> no_percent s = true.
Proof. unfold no_percent. cbn [forallb]. now intros [_ H]%andb_true_iff. Qed.

Lemma pct_re_needs_sign (long short : string) (prev : option ascii) (s : list ascii) :
  no_percent s = true -> Re.match_here (pct_re long short) prev s = None.
Proof.
  intros Hs. unfold Re.match_here, pct_re.
  change [Re.WordB; receptor long short; Re.WordB; Re.Rep not_pct_nl 0 (Some 60); Re.WordB;
          Re.Group 1 (Re.Rep Py.isdigit 1 (Some 3)); Re.star Py.isspace; Re.Cls (Re.chr "%")]
    with ([Re.WordB; receptor long short; Re.WordB; Re.Rep not_pct_nl 0 (Some 60); Re.WordB;
           Re.Group 1 (Re.Rep Py.isdigit 1 (Some 3)); Re.star Py.isspace]
          ++ [Re.Cls (Re.chr "%")]).
  apply (seq_fails no_percent); [exact no_percent_tail| |exact Hs].
  clear. intros prev s cs k Hs. cbn [Re.run]. destruct s as [|c s]; [reflexivity|].
  unfold no_percent in Hs. cbn [forallb] in Hs. apply andb_true_iff in Hs as [Hc _].
  apply negb_true_iff in Hc. unfold Re.chr. now rewrite Ascii.eqb_sym, Hc.
Qed.

(** X13.  The percent of a receptor is taken only where a percent sign
    stands: on a text without one, neither the ER nor the PR percent is
    found, whatever digits the text has. *)
Theorem receptor_percent_needs_sign (window : string) :
  no_percent (list_ascii_of_string window) = true ->
  _find_er_percent window = None /\ _find_pr_percent window = None.
Proof.
  intros Hw.
  assert (Hnone : forall long short,
             Re.search_from (pct_re long short) None (list_ascii_of_string window) = None).
  { intros long short. apply (search_from_fails no_percent); [exact no_percent_tail| |exact Hw].
    intros prev s Hs. now apply pct_re_needs_sign. }
  unfold _find_er_percent, _find_pr_percent, find_percent, Re.search, _ER_PCT, _PR_PCT.
  now rewrite !Hnone.
Qed.

Lemma receptor_percent_needs_sign_witness :
  _find_er_percent "ER positive in 90 of 100 cells" = None /\
  _find_pr_percent "ER positive in 90 of 100 cells" = None.
Proof. apply receptor_percent_needs_sign. reflexivity. Defined.

(** ** The evidence of one note *)

Section WriteFacts.
Variables (cleaned : string) (pid nid ndate ntype : pyval).

Abbreviation write' := (write cleaned pid nid ndate ntype).
Abbreviation step'' := (step cleaned pid nid ndate ntype).
Abbreviation add_ev' := (add_ev cleaned pid nid ndate ntype).

Lemma receptor_branch_writes (sf pf status : string) (find : string -> option Z)
    (ent : Ent) (st : xstate) :
  In sf loop_fields -> In pf loop_fields ->
  of_opt (normalize_status (VStr status)) = VStr status ->
  rtc (write' ent) st (receptor_branch cleaned pid nid ndate ntype sf pf status find ent st).
Proof.
  intros Hsf Hpf Hs. unfold receptor_branch. rewrite Hs.
  destruct (find (sent_text ent)) as [pct|].
  - eapply rtc_l; [|apply rtc_once].
    + now apply (write_field _ _ _ _ _ _ sf (VStr status) status 85 st).
    + now apply write_field.
  - apply rtc_once. now apply (write_field _ _ _ _ _ _ sf (VStr status) status 85 st).
Qed.

Ltac in_fields := cbn; repeat (first [left; reflexivity | right]).

(** The body of the loop is at most two writes. *)
Lemma step_writes (st : xstate) (ent : Ent) : rtc (write' ent) st (step'' st ent).
Proof.
  unfold step.
  destruct (String.eqb (label_ ent) "ER_POS");
    [apply receptor_branch_writes; [in_fields|in_fields|reflexivity]|].
  destruct (String.eqb (label_ ent) "ER_NEG");
    [apply receptor_branch_writes; [in_fields|in_fields|reflexivity]|].
  destruct (String.eqb (label_ ent) "PR_POS");
    [apply receptor_branch_writes; [in_fields|in_fields|reflexivity]|].
  destruct (String.eqb (label_ ent) "PR_NEG");
    [apply receptor_branch_writes; [in_fields|in_fields|reflexivity]|].
  destruct (String.eqb (label_ ent) "HER2_IHC"); [apply rtc_once, write_ihc|].
  destruct (String.eqb (label_ ent) "HER2_POS"); [apply rtc_once, write_explicit|].
  destruct (String.eqb (label_ ent) "HER2_NEG"); [apply rtc_once, write_explicit|].
  destruct (String.eqb (label_ ent) "HER2_FISH_POS"); [apply rtc_once, write_fish|].
  destruct (String.eqb (label_ ent) "HER2_FISH_NEG"); [apply rtc_once, write_fish|].
  destruct (String.eqb (label_ ent) "KI67").
  { destruct (normalize_percent (text ent)) as [val|]; [|apply rtc_refl].
    apply rtc_once. apply write_field; [in_fields|discriminate|reflexivity]. }
  destruct (Py.startswith "HISTOLOGY_" (label_ ent)).
  { destruct (normalize_histology _) as [h|]; [|apply rtc_refl].
    destruct (str_truthy (Some h)); [|apply rtc_refl].
    apply rtc_once. apply write_field; [in_fields|discriminate|reflexivity]. }
  destruct (String.eqb (label_ ent) "GRADE").
  { destruct (normalize_grade _) as [g|]; [|apply rtc_refl].
    destruct (str_truthy (Some g)); [|apply rtc_refl].
    apply rtc_once. apply write_field; [in_fields|discriminate|reflexivity]. }
  destruct (Py.mem (label_ ent) _); [|apply rtc_refl].
  destruct (normalize_stage _) as [s|]; [|apply rtc_refl].
  destruct (negb (str_truthy (Some s))); [apply rtc_refl|].
  destruct (String.eqb (label_ ent) "STAGE_PATH");
    [apply rtc_once, write_field; [in_fields|discriminate|reflexivity]|].
  destruct (String.eqb (label_ ent) "STAGE_CLIN");
    [apply rtc_once, write_field; [in_fields|discriminate|reflexivity]|].
  destruct (negb (truthy (get (phenos st) "stage_path")));
    [apply rtc_once, write_field; [in_fields|discriminate|reflexivity]|].
  destruct (negb (truthy (get (phenos st) "stage_clinical")));
    [apply rtc_once, write_field; [in_fields|discriminate|reflexivity]|].
  apply rtc_refl.
Qed.

(** What every write keeps, the loop keeps. *)
Lemma run_ents_invariant (P : xstate -> Prop) (ents : list Ent) :
  P (init_state pid nid ndate ntype) ->
  (forall ent st st', In ent ents -> P st -> write' ent st st' -> P st') ->
  P (run_ents cleaned pid nid ndate ntype ents).
Proof.
  unfold run_ents. generalize (init_state pid nid ndate ntype).
  induction ents as [|ent ents IH]; intros st Hst Hw; cbn [fold_left]; [exact Hst|].
  apply IH.
  - pose proof (step_writes st ent) as Hrtc.
    induction Hrtc as [|x y z Hxy _ IHr]; [exact Hst|].
    apply IHr. apply (Hw ent x y); [now left|exact Hst|exact Hxy].
  - intros e s s' He. apply Hw. now right.
Qed.

End WriteFacts.

Section EvidenceFacts.
Variables (cleaned : string) (pid nid ndate ntype : pyval).

(** A write adds one evidence row, which records its mention. *)
Lemma write_evidence (ent : Ent) (st st' : xstate) :
  write cleaned pid nid ndate ntype ent st st' ->
  exists e, evidence st' = evidence st ++ [e] /\ records pid nid ndate ntype ent e.
Proof.
  intros Hw. destruct Hw; eexists; (split; [reflexivity|]); repeat split.
Qed.

Lemma loop_field_not_her2 (f : string) :
  In f loop_fields ->
  f <> "her2_ihc_score" /\ f <> "her2_status" /\ f <> "her2_fish".
Proof.
  intros Hf. cbn in Hf.
  repeat (destruct Hf as [<-|Hf]; [repeat split; discriminate|]). destruct Hf.
Qed.

(** A row for another field changes nothing for the field [f]. *)
Lemma backed_field_grow (ph : gmap string pyval) (ev : list Evidence) (e : Evidence)
    (f : string) :
  field e <> f ->
  (get ph f = VNone /\ Forall (fun e => field e <> f) ev)
  \/ (get ph f <> VNone /\ Exists (backs f (get ph f)) ev) ->
  (get ph f = VNone /\ Forall (fun e => field e <> f) (ev ++ [e]))
  \/ (get ph f <> VNone /\ Exists (backs f (get ph f)) (ev ++ [e])).
Proof.
  intros Hne [[Hn Hall]|[Hs Hex]]; [left|right]; (split; [assumption|]).
  - apply Forall_app. split; [exact Hall|]. now constructor.
  - apply Exists_app. now left.
Qed.

Lemma write_backed (ent : Ent) (st st' : xstate) :
  write cleaned pid nid ndate ntype ent st st' -> backed st -> backed st'.
Proof.
  intros Hw (Hf & Hi & Hfi).
  destruct Hw as [f0 v sv c st Hin Hv Hsv|sv c st|sv c st|sv c st];
    (split; [|split]); cbn [add_ev set_pheno phenos evidence her2_ihc her2_fish].
  - intros f Hfin. rewrite get_insert. destruct (String.eqb f f0) eqn:E.
    + apply String.eqb_eq in E as ->. right. split; [exact Hv|].
      apply Exists_app. right. constructor. split; [reflexivity|exact Hsv].
    + apply String.eqb_neq in E.
      apply backed_field_grow; [cbn; congruence|now apply Hf].
  - intros sv' H. apply Exists_app. left. now apply Hi.
  - intros sv' H. apply Exists_app. left. now apply Hfi.
  - intros f Hfin. apply backed_field_grow; [|now apply Hf].
    cbn. intros <-. now apply loop_field_not_her2 in Hfin.
  - intros sv' [= <-]. apply Exists_app. right. constructor. now split.
  - intros sv' H. apply Exists_app. left. now apply Hfi.
  - intros f Hfin. apply backed_field_grow; [|now apply Hf].
    cbn. intros <-. now apply loop_field_not_her2 in Hfin.
  - intros sv' H. apply Exists_app. left. now apply Hi.
  - intros sv' H. apply Exists_app. left. now apply Hfi.
  - intros f Hfin. apply backed_field_grow; [|now apply Hf].
    cbn. intros <-. now apply loop_field_not_her2 in Hfin.
  - intros sv' H. apply Exists_app. left. now apply Hi.
  - intros sv' [= <-]. apply Exists_app. right. constructor. now split.
Qed.

Lemma init_backed : backed (init_state pid nid ndate ntype).
Proof.
  split; [|split]; [|discriminate|discriminate].
  intros f Hf. left. split; [|constructor].
  cbn in Hf. repeat (destruct Hf as [<-|Hf]; [reflexivity|]). destruct Hf.
Qed.

Lemma run_ents_backed (ents : list Ent) : backed (run_ents cleaned pid nid ndate ntype ents).
Proof.
  apply run_ents_invariant; [exact init_backed|].
  intros ent st st' _ Hb Hw. now apply (write_backed ent st).
Qed.

Lemma run_ents_records (ents : list Ent) :
  Forall (fun e => exists ent, In ent ents /\ records pid nid ndate ntype ent e)
         (evidence (run_ents cleaned pid nid ndate ntype ents)).
Proof.
  apply (run_ents_invariant cleaned pid nid ndate ntype
           (fun st => Forall (fun e => exists ent, In ent ents /\ records pid nid ndate ntype ent e)
                             (evidence st))); [constructor|].
  intros ent st st' Hin Hall Hw.
  destruct (write_evidence ent st st' Hw) as (e & -> & He).
  apply Forall_app. split; [exact Hall|]. constructor; [|constructor]. now exists ent.
Qed.

Lemma finish_evidence (st : xstate) : (finish cleaned st).2 = evidence st.
Proof. unfold finish. now destruct (reconcile_her2 _ _ _) as [[a b] c]. Qed.

End EvidenceFacts.

(** X14.  Every evidence row [extract_note] returns records a mention the
    recogniser found in the cleaned text: it carries the identity of the note
    as passed in, and the label, the offsets and the negation and uncertainty
    flags of that mention. *)
Theorem extract_note_evidence_provenance (nlp : string -> list Ent) (note_text : string)
    (patient_id note_id note_date note_type : pyval) :
  Forall (fun e => exists ent, In ent (nlp (clean_text note_text))
                               /\ records patient_id note_id note_date note_type ent e)
         (extract_note nlp note_text patient_id note_id note_date note_type).2.
Proof.
  unfold extract_note. cbn zeta. rewrite finish_evidence. apply run_ents_records.
Qed.

Section FinishFacts.
Variables (cleaned : string) (pid nid ndate ntype : pyval).

Lemma status_fallback_frame (k : string) (pos neg : Re.regex) (ph : gmap string pyval)
    (f : string) :
  String.eqb f k = false ->
  get (status_fallback cleaned k pos neg ph) f = get ph f.
Proof.
  intros Hne. unfold status_fallback.
  destruct (is_none (get ph k)); [|reflexivity].
  destruct (found pos cleaned); [now rewrite get_insert, Hne|].
  destruct (found neg cleaned); [now rewrite get_insert, Hne|reflexivity].
Qed.

Lemma percent_fallback_keep (k : string) (find : string -> option Z)
    (ph : gmap string pyval) (f : string) :
  is_none (get ph f) = false ->
  get (percent_fallback cleaned k find ph) f = get ph f.
Proof.
  intros Hn. unfold percent_fallback.
  destruct (is_none (get ph k)) eqn:Hk; [|reflexivity].
  assert (Hne : String.eqb f k = false).
  { apply String.eqb_neq. intros ->. congruence. }
  destruct (find cleaned); [now rewrite get_insert, Hne|reflexivity].
Qed.

Lemma reconcile_her2_texts (ihc fish explicit : option string) :
  (reconcile_her2 ihc fish explicit).1.2 = strip_opt ihc
  /\ (reconcile_her2 ihc fish explicit).2 = strip_opt fish.
Proof.
  unfold reconcile_her2. cbn zeta.
  destruct (str_truthy (fish_to_status _)); [now split|].
  destruct (str_truthy (ihc_to_status _)); [now split|].
  destruct (opt_mem _ _); now split.
Qed.

(** What follows the loop sets the two HER2 texts from the variables of the
    loop, trimmed. *)
Lemma finish_her2_texts (st : xstate) :
  get (finish cleaned st).1 "her2_ihc_score" = of_opt (strip_opt (her2_ihc st))
  /\ get (finish cleaned st).1 "her2_fish" = of_opt (strip_opt (her2_fish st)).
Proof.
  unfold finish.
  destruct (reconcile_her2_texts (her2_ihc st) (her2_fish st) (her2_explicit st)) as [H1 H2].
  destruct (reconcile_her2 _ _ _) as [[a b] c]. cbn [fst snd] in *. subst b c.
  split; now rewrite !get_insert.
Qed.

(** What follows the loop leaves a field of the loop as the loop left it,
    unless the field is empty and has a fallback pattern. *)
Lemma finish_loop_field (st : xstate) (f : string) :
  In f loop_fields ->
  is_none (get (phenos st) f) = false \/ ~ In f fallback_fields ->
  get (finish cleaned st).1 f = get (phenos st) f.
Proof.
  intros Hf Hc. unfold finish.
  destruct (reconcile_her2 _ _ _) as [[a b] c]. cbn [fst].
  destruct (loop_field_not_her2 f Hf) as (N1 & N2 & N3).
  apply String.eqb_neq in N1, N2, N3. rewrite !get_insert, N1, N2, N3.
  destruct Hc as [Hn|Hn].
  - set (ph1 := status_fallback cleaned "er_status" _ _ (phenos st)).
    set (ph2 := status_fallback cleaned "pr_status" _ _ ph1).
    set (ph3 := percent_fallback cleaned "er_percent" _ ph2).
    assert (E1 : get ph1 f = get (phenos st) f) by now apply status_fallback_get.
    assert (E2 : get ph2 f = get ph1 f) by (apply status_fallback_get; now rewrite E1).
    assert (E3 : get ph3 f = get ph2 f)
      by (apply percent_fallback_keep; now rewrite E2, E1).
    rewrite percent_fallback_keep by now rewrite E3, E2, E1.
    now rewrite E3, E2, E1.
  - assert (H4 : String.eqb f "er_status" = false /\ String.eqb f "pr_status" = false
                 /\ String.eqb f "er_percent" = false /\ String.eqb f "pr_percent" = false).
    { repeat split; apply String.eqb_neq; intros ->; apply Hn; cbn; tauto. }
    destruct H4 as (E1 & E2 & E3 & E4).
    rewrite !percent_fallback_get by assumption.
    now rewrite !status_fallback_frame by assumption.
Qed.

End FinishFacts.

Lemma is_none_false (v : pyval) : is_none v = false <-> v <> VNone.
Proof. destruct v; cbn; split; intros H; congruence. Qed.

(** A row that backs a value and belongs to the patient is support for it. *)
Lemma backs_support (ev : list Evidence) (pid : pyval) (f : string) (v : pyval) :
  py_eq pid pid = true ->
  Forall (fun e => patient_id e = pid) ev ->
  Exists (backs f v) ev ->
  (_evidence_support (map attrs ev) pid f v).2 = true.
Proof.
  intros Hpid Hall Hex. unfold _evidence_support. rewrite _evidence_support_loop_spec.
  cbn [snd orb]. apply existsb_exists.
  apply Exists_exists in Hex as (e & Hin & Hfe & Hve).
  rewrite Forall_forall in Hall.
  exists (attrs e). split; [apply in_map, list_elem_of_In, Hin|].
  unfold ev_matches, attrs, entity. cbn [a_patient_id a_field a_entity a_value].
  rewrite (Hall e Hin), Hpid, Hve, String.eqb_refl, Hfe. cbn [andb].
  rewrite !andb_true_r. unfold py_or. destruct (truthy (VStr f)); apply String.eqb_refl.
Qed.

(** X15.  Extraction and aggregation fit together: a value the note record
    holds for a field the mentions decide (the loop fields and the two HER2
    texts) has an evidence row among those returned with it, one that
    [_evidence_support] counts as support for the patient, the field and the
    value.  The only values without a row are an ER or PR status or percent
    filled by a pattern over the whole text, and then no row at all names the
    field. *)
Theorem extract_note_values_backed (nlp : string -> list Ent) (note_text : string)
    (pid nid ndate ntype : pyval) (f : string) :
  py_eq pid pid = true ->
  In f (loop_fields ++ ["her2_ihc_score"; "her2_fish"]) ->
  let out := extract_note nlp note_text pid nid ndate ntype in
  get out.1 f <> VNone ->
  (_evidence_support (map attrs out.2) pid f (get out.1 f)).2 = true
  \/ (In f fallback_fields /\ Forall (fun e => field e <> f) out.2).
Proof.
  intros Hpid Hf out. subst out. unfold extract_note. cbn zeta.
  set (cleaned := clean_text note_text).
  set (st := run_ents cleaned pid nid ndate ntype (nlp cleaned)).
  rewrite finish_evidence.
  assert (Hown : Forall (fun e => patient_id e = pid) (evidence st)).
  { eapply Forall_impl; [apply run_ents_records|]. intros e (ent & _ & H & _). exact H. }
  destruct (run_ents_backed cleaned pid nid ndate ntype (nlp cleaned))
    as (Hloop & Hihc & Hfish). fold st in Hloop, Hihc, Hfish.
  destruct (finish_her2_texts cleaned st) as [Ei Ef].
  apply in_app_or in Hf as [Hf|[<-|[<-|[]]]].
  - destruct (Hloop f Hf) as [[Hn Hnone]|[Hs Hex]].
    + destruct (in_dec string_dec f fallback_fields) as [Hfb|Hfb].
      * intros _. right. now split.
      * rewrite finish_loop_field by (try assumption; now right). congruence.
    + rewrite finish_loop_field by (try assumption; left; now apply is_none_false).
      intros _. left. now apply backs_support.
  - rewrite Ei. destruct (her2_ihc st) as [sv|] eqn:E; [|now intros []].
    cbn [strip_opt]. destruct (String.eqb sv ""); [now intros []|]. intros _. left.
    apply backs_support; [assumption|assumption|].
    eapply Exists_impl; [apply (Hihc sv eq_refl)|].
    intros e [H1 H2]. split; [exact H1|]. rewrite H2. unfold _norm_val, of_opt. cbn [py_str]. now rewrite strip_idem.
  - rewrite Ef. destruct (her2_fish st) as [sv|] eqn:E; [|now intros []].
    cbn [strip_opt]. destruct (String.eqb sv ""); [now intros []|]. intros _. left.
    apply backs_support; [assumption|assumption|].
    eapply Exists_impl; [apply (Hfish sv eq_refl)|].
    intros e [H1 H2]. split; [exact H1|]. rewrite H2. unfold _norm_val, of_opt. cbn [py_str]. now rewrite strip_idem.
Qed.

Lemma extract_note_values_backed_witness :
  let out := extract_note Scenario.nlp_two_er Scenario.two_er_text
               (VStr "p1") (VStr "n1") VNone VNone in
  (_evidence_support (map attrs out.2) (VStr "p1") "er_status" (get out.1 "er_status")).2 = true
  \/ (In "er_status" fallback_fields /\ Forall (fun e => field e <> "er_status") out.2).
Proof.
  apply (extract_note_values_backed Scenario.nlp_two_er Scenario.two_er_text
           (VStr "p1") (VStr "n1") VNone VNone "er_status").
  - reflexivity.
  - cbn. tauto.
  - vm_compute. discriminate.
Defined.

(** ** HER2 in the note record *)

Section FishFacts.
Variables (cleaned : string) (pid nid ndate ntype : pyval).

(** Only a FISH mention sets the FISH variable of the loop. *)
Lemma step_her2_fish (st : xstate) (ent : Ent) :
  label_ ent <> "HER2_FISH_POS" -> label_ ent <> "HER2_FISH_NEG" ->
  her2_fish (step cleaned pid nid ndate ntype st ent) = her2_fish st.
Proof.
  intros Hp Hn. apply String.eqb_neq in Hp, Hn. unfold step. rewrite Hp, Hn.
  unfold receptor_branch.
  repeat match goal with
         | |- context [if String.eqb (label_ ent) ?l then _ else _] =>
             destruct (String.eqb (label_ ent) l)
         | |- context [if Py.startswith ?a ?b then _ else _] => destruct (Py.startswith a b)
         | |- context [if Py.mem ?a ?b then _ else _] => destruct (Py.mem a b)
         | |- context [if negb ?b then _ else _] => destruct (negb b)
         | |- context [if str_truthy ?b then _ else _] => destruct (str_truthy b)
         | |- context [match ?o with Some _ => _ | None => _ end] => destruct o
         end; reflexivity.
Qed.

Lemma run_ents_last_fish (pre post : list Ent) (ent : Ent) (sv : string) :
  (forall st, her2_fish (step cleaned pid nid ndate ntype st ent) = Some sv) ->
  Forall (fun e => label_ e <> "HER2_FISH_POS" /\ label_ e <> "HER2_FISH_NEG") post ->
  her2_fish (run_ents cleaned pid nid ndate ntype (pre ++ ent :: post)) = Some sv.
Proof.
  intros Hent Hpost. unfold run_ents. rewrite fold_left_app. cbn [fold_left].
  generalize (fold_left (step cleaned pid nid ndate ntype) pre (init_state pid nid ndate ntype)).
  intros st0. specialize (Hent st0). revert Hent.
  generalize (step cleaned pid nid ndate ntype st0 ent). clear st0.
  induction Hpost as [|e post [H1 H2] _ IH]; intros st Hst; cbn [fold_left]; [exact Hst|].
  apply IH. now rewrite step_her2_fish.
Qed.

(** With a FISH text that decides, [reconcile_her2] looks at nothing else. *)
Lemma finish_fish (st : xstate) (sv status : string) :
  her2_fish st = Some sv ->
  strip_opt (Some sv) = Some sv ->
  fish_to_status (VStr sv) = Some status ->
  String.eqb status "" = false ->
  get (finish cleaned st).1 "her2_status" = of_opt (normalize_status (VStr status))
  /\ get (finish cleaned st).1 "her2_fish" = VStr sv.
Proof.
  intros Hf Hs Hst Hne.
  assert (Hr : reconcile_her2 (her2_ihc st) (her2_fish st) (her2_explicit st)
               = (Some status, strip_opt (her2_ihc st), Some sv)).
  { unfold reconcile_her2. rewrite Hf, Hs. cbn [of_opt]. rewrite Hst.
    cbn [str_truthy]. now rewrite Hne. }
  unfold finish. rewrite Hr. cbv beta iota zeta. cbn [fst of_opt].
  split; now rewrite !get_insert.
Qed.

End FishFacts.

(** X16.  FISH overrides IHC and the explicit mentions in the note record,
    wherever those stand in the note: the last FISH mention the recogniser
    finds decides [her2_status] and [her2_fish]. *)
Theorem extract_note_fish_decides (nlp : string -> list Ent) (note_text : string)
    (pid nid ndate ntype : pyval) (pre post : list Ent) (ent : Ent) :
  nlp (clean_text note_text) = pre ++ ent :: post ->
  Forall (fun e => label_ e <> "HER2_FISH_POS" /\ label_ e <> "HER2_FISH_NEG") post ->
  let out := (extract_note nlp note_text pid nid ndate ntype).1 in
  (label_ ent = "HER2_FISH_POS" ->
   get out "her2_status" = VStr "Positive" /\ get out "her2_fish" = VStr "Amplified")
  /\ (label_ ent = "HER2_FISH_NEG" ->
      get out "her2_status" = VStr "Negative" /\ get out "her2_fish" = VStr "Not amplified").
Proof.
  intros Hents Hpost out. subst out. unfold extract_note. cbn zeta. rewrite Hents.
  split; intros Hl.
  - apply (finish_fish _ _ "Amplified" "Positive"); try reflexivity.
    apply run_ents_last_fish; [|exact Hpost].
    intros st. unfold step. rewrite Hl. reflexivity.
  - apply (finish_fish _ _ "Not amplified" "Negative"); try reflexivity.
    apply run_ents_last_fish; [|exact Hpost].
    intros st. unfold step. rewrite Hl. reflexivity.
Qed.

Lemma extract_note_fish_decides_witness :
  let out := (extract_note Her2Note.nlp Her2Note.note_text
                (VStr "p1") (VStr "n1") VNone VNone).1 in
  get out "her2_status" = VStr "Negative" /\ get out "her2_fish" = VStr "Not amplified".
Proof.
  refine (proj2 (extract_note_fish_decides Her2Note.nlp Her2Note.note_text
                   (VStr "p1") (VStr "n1") VNone VNone [] [Her2Note.ent_ihc] Her2Note.ent_fish
                   eq_refl _) eq_refl).
  constructor; [split; discriminate|constructor].
Defined.

(** ** The keys of a note record *)

Section ShapeFacts.
Variables (cleaned : string) (pid nid ndate ntype : pyval).

Abbreviation shaped' := (shaped pid nid ndate ntype).

Lemma shaped_insert (ph : gmap string pyval) (k : string) (v : pyval) :
  In k ["er_status"; "er_percent"; "pr_status"; "pr_percent";
        "her2_status"; "her2_ihc_score"; "her2_fish";
        "ki67_percent"; "histology"; "grade"; "stage_clinical"; "stage_path"] ->
  shaped' ph -> shaped' (<[k := v]> ph).
Proof.
  intros Hk (Hd & H1 & H2 & H3 & H4).
  assert (Hin : k ∈ (list_to_set note_keys : gset string)).
  { apply elem_of_list_to_set, list_elem_of_In. cbn in Hk |- *. tauto. }
  assert (Hne : String.eqb "patient_id" k = false /\ String.eqb "note_id" k = false
                /\ String.eqb "note_date" k = false /\ String.eqb "note_type" k = false).
  { cbn in Hk. repeat (destruct Hk as [<-|Hk]; [repeat split; reflexivity|]). destruct Hk. }
  destruct Hne as (E1 & E2 & E3 & E4).
  split; [now apply insert_keep_dom|].
  rewrite !get_insert, E1, E2, E3, E4. tauto.
Qed.

Lemma write_shaped (ent : Ent) (st st' : xstate) :
  write cleaned pid nid ndate ntype ent st st' -> shaped' (phenos st) -> shaped' (phenos st').
Proof.
  intros Hw Hs. destruct Hw as [f v sv c st Hin _ _|sv c st|sv c st|sv c st];
    cbn [add_ev set_pheno phenos]; try exact Hs.
  apply shaped_insert; [|exact Hs].
  cbn in Hin |- *. tauto.
Qed.

Lemma init_shaped : shaped' (phenos (init_state pid nid ndate ntype)).
Proof.
  split; [|repeat split].
  cbn [init_state phenos]. unfold init_phenos, note_keys.
  rewrite dom_list_to_map_L. reflexivity.
Qed.

Lemma status_fallback_shaped (k : string) (pos neg : Re.regex) (ph : gmap string pyval) :
  In k ["er_status"; "pr_status"] -> shaped' ph ->
  shaped' (status_fallback cleaned k pos neg ph).
Proof.
  intros Hk Hs. unfold status_fallback.
  assert (Hk' : In k ["er_status"; "er_percent"; "pr_status"; "pr_percent";
                      "her2_status"; "her2_ihc_score"; "her2_fish";
                      "ki67_percent"; "histology"; "grade"; "stage_clinical"; "stage_path"])
    by (cbn in Hk |- *; tauto).
  destruct (is_none _); [|exact Hs].
  destruct (found pos cleaned); [now apply shaped_insert|].
  destruct (found neg cleaned); [now apply shaped_insert|exact Hs].
Qed.

Lemma percent_fallback_shaped (k : string) (find : string -> option Z)
    (ph : gmap string pyval) :
  In k ["er_percent"; "pr_percent"] -> shaped' ph ->
  shaped' (percent_fallback cleaned k find ph).
Proof.
  intros Hk Hs. unfold percent_fallback.
  assert (Hk' : In k ["er_status"; "er_percent"; "pr_status"; "pr_percent";
                      "her2_status"; "her2_ihc_score"; "her2_fish";
                      "ki67_percent"; "histology"; "grade"; "stage_clinical"; "stage_path"])
    by (cbn in Hk |- *; tauto).
  destruct (is_none _); [|exact Hs].
  destruct (find cleaned); [now apply shaped_insert|exact Hs].
Qed.

Lemma finish_shaped (st : xstate) : shaped' (phenos st) -> shaped' (finish cleaned st).1.
Proof.
  intros Hs. unfold finish. destruct (reconcile_her2 _ _ _) as [[a b] c]. cbn [fst].
  repeat (apply shaped_insert; [cbn; tauto|]).
  repeat (apply percent_fallback_shaped; [cbn; tauto|]).
  repeat (apply status_fallback_shaped; [cbn; tauto|]).
  exact Hs.
Qed.

End ShapeFacts.

(** X17.  A note record has the same sixteen keys whatever the note holds,
    and its [patient_id], [note_id], [note_date] and [note_type] are those
    passed in: no mention and no fallback writes them. *)
Theorem extract_note_record_shape (nlp : string -> list Ent) (note_text : string)
    (pid nid ndate ntype : pyval) :
  let out := (extract_note nlp note_text pid nid ndate ntype).1 in
  dom out = list_to_set note_keys
  /\ get out "patient_id" = pid /\ get out "note_id" = nid
  /\ get out "note_date" = ndate /\ get out "note_type" = ntype.
Proof.
  cbn zeta. unfold extract_note. cbn zeta. apply finish_shaped.
  apply (run_ents_invariant _ pid nid ndate ntype
           (fun st => shaped pid nid ndate ntype (phenos st))); [apply init_shaped|].
  intros ent st st' _ Hs Hw. exact (write_shaped _ _ _ _ _ ent st st' Hw Hs).
Qed.

(** ** What [normalize_stage] returns *)

Lemma startswith_app (w : string) (rest : list ascii) :
  Py.startswith w (string_of_list_ascii (list_ascii_of_string w ++ rest)) = true.
Proof.
  induction w as [|a w IH]; [reflexivity|].
  cbn [list_ascii_of_string app string_of_list_ascii Py.startswith].
  now rewrite Ascii.eqb_refl, IH.
Qed.

Lemma contains_app (w : string) (pre rest : list ascii) :
  Py.contains w (string_of_list_ascii (pre ++ list_ascii_of_string w ++ rest)) = true.
Proof.
  induction pre as [|c pre IH].
  - cbn [app]. destruct (string_of_list_ascii _) eqn:E; cbn [Py.contains];
      rewrite <- E, startswith_app; reflexivity.
  - cbn [app string_of_list_ascii Py.contains]. rewrite IH. apply orb_true_r.
Qed.

Lemma upper_ivx (ds : list ascii) :
  forallb (Re.one_of "ivx") ds = true ->
  all_chars (Re.one_of "IVX") (Py.upper (string_of_list_ascii ds)) = true.
Proof.
  unfold all_chars. induction ds as [|c ds IH]; [reflexivity|].
  cbn [forallb string_of_list_ascii Py.upper Py.map list_ascii_of_string].
  intros [Hc Hds]%andb_true_iff. fold (Py.upper (string_of_list_ascii ds)).
  rewrite (IH Hds), andb_true_r.
  destruct (ivx_cases c Hc) as [-> | [-> | ->]]; reflexivity.
Qed.

Lemma abc_cases (c : ascii) :
  Re.one_of "abc" c = true -> c = "a"%char \/ c = "b"%char \/ c = "c"%char.
Proof.
  unfold Re.one_of. cbn [list_ascii_of_string existsb].
  rewrite !orb_true_iff, !Ascii.eqb_eq. intuition discriminate.
Qed.

(** A match of the stage pattern: the word "stage" stands in the text, the
    numeral group is a non-empty run of i, v, x, and the suffix group, where
    there is one, a single a, b or c. *)
Lemma stage_match_inv (prev : option ascii) (s : list ascii) (m : Re.caps) :
  Re.match_here stage_re prev s = Some m ->
  exists rest ds,
    s = list_ascii_of_string "stage" ++ rest
    /\ forallb (Re.one_of "ivx") ds = true /\ ds <> []
    /\ (m = [(1%nat, ds)]
        \/ exists c, Re.one_of "abc" c = true /\ m = [(2%nat, [c]); (1%nat, ds)]).
Proof.
  unfold Re.match_here, stage_re. cbn [Re.seq]. cbn [Re.run].
  destruct (xorb _ _); [|discriminate].
  intros H. apply lit_inv in H as (rest1 & -> & H).
  unfold Re.star in H. apply rep_inv in H as (ws1 & rest2 & -> & _ & _ & H).
  unfold Re.plus in H. cbn [Re.run] in H.
  apply rep_inv in H as (ds & rest3 & -> & Hds & Hlen & H).
  rewrite consumed_app in H.
  apply rep_inv in H as (ws2 & rest4 & -> & _ & _ & H).
  exists (ws1 ++ ds ++ ws2 ++ rest4), ds.
  split; [reflexivity|]. split; [exact Hds|].
  split; [intros ->; cbn in Hlen; lia|].
  unfold Re.orelse in H.
  destruct rest4 as [|c rest5].
  - destruct (xorb _ _); [|discriminate]. left. now injection H as <-.
  - destruct (Re.one_of "abc" c) eqn:Hc.
    + match type of H with
      | match (if ?b then _ else _) with _ => _ end = _ => destruct b
      end.
      * right. exists c. split; [exact Hc|].
        change (c :: rest5) with ([c] ++ rest5) in H. rewrite consumed_app in H.
        now injection H as <-.
      * destruct (xorb _ _); [|discriminate]. left. now injection H as <-.
    + destruct (xorb _ _); [|discriminate]. left. now injection H as <-.
Qed.

(** X18.  Whatever [normalize_stage] returns is a non-empty run of the
    letters I, V, X followed by at most one of A, B, C, and it is returned
    only for a text that holds the word "stage" (in any letter case). *)
Theorem normalize_stage_shape (text out : string) :
  normalize_stage text = Some out ->
  Py.contains "stage" (Py.lower text) = true
  /\ exists roman suffix,
       out = roman +:+ suffix
       /\ roman <> "" /\ all_chars (Re.one_of "IVX") roman = true
       /\ In suffix [""; "A"; "B"; "C"].
Proof.
  unfold normalize_stage. destruct (String.eqb text ""); [discriminate|].
  unfold Re.search.
  destruct (Re.search_from stage_re None _) as [m|] eqn:Hm; [|discriminate].
  intros [= <-].
  apply search_from_inv in Hm as (pre & prev & s & Htext & Hm).
  apply stage_match_inv in Hm as (rest & ds & -> & Hds & Hne & Hcases).
  split.
  - rewrite <- (string_of_list_ascii_of_string (Py.lower text)), Htext. apply contains_app.
  - assert (Hroman : Py.upper (string_of_list_ascii ds) <> "").
    { destruct ds as [|d ds]; [now destruct Hne|discriminate]. }
    destruct Hcases as [-> | (c & Hc & ->)].
    + exists (Py.upper (string_of_list_ascii ds)), "".
      repeat split; [exact Hroman|now apply upper_ivx|now left].
    + exists (Py.upper (string_of_list_ascii ds)), (Py.upper (String c "")).
      repeat split; [exact Hroman|now apply upper_ivx|].
      destruct (abc_cases c Hc) as [-> | [-> | ->]]; cbn; tauto.
Qed.

Lemma normalize_stage_shape_witness :
  Py.contains "stage" (Py.lower "pT2 Stage IIIA disease") = true
  /\ exists roman suffix,
       "IIIA" = roman +:+ suffix
       /\ roman <> "" /\ all_chars (Re.one_of "IVX") roman = true
       /\ In suffix [""; "A"; "B"; "C"].
Proof. apply (normalize_stage_shape "pT2 Stage IIIA disease" "IIIA"). reflexivity. Defined.

(** ** What [normalize_grade] returns *)

(** X19.  [normalize_grade] returns only 1, 2 or 3, and only for a text
    that holds the word "grade" (in any letter case). *)
Theorem normalize_grade_shape (text g : string) :
  normalize_grade text = Some g ->
  In g ["1"; "2"; "3"] /\ Py.contains "grade" (Py.lower text) = true.
Proof.
  unfold normalize_grade. destruct (String.eqb text ""); [discriminate|]. cbn zeta.
  unfold Re.search.
  destruct (Re.search_from grade_re None _) as [m|] eqn:Hm; [|discriminate].
  destruct (Py.mem (Re.group_str m 1) _) eqn:Hg; [|discriminate].
  intros [= <-]. split.
  - unfold Py.mem in Hg. cbn [existsb] in Hg.
    rewrite !orb_true_iff, !String.eqb_eq in Hg. cbn [In].
    destruct Hg as [Hg | [Hg | [Hg | Hg]]]; [| | |discriminate]; rewrite Hg; tauto.
  - apply search_from_inv in Hm as (pre & prev & s & Htext & Hm).
    unfold Re.match_here, grade_re in Hm. cbn [Re.seq] in Hm. cbn [Re.run] in Hm.
    destruct (xorb _ _); [|discriminate].
    apply lit_inv in Hm as (rest & -> & _).
    rewrite <- (string_of_list_ascii_of_string (Py.lower text)), Htext. apply contains_app.
Qed.

Lemma normalize_grade_shape_witness :
  In "2" ["1"; "2"; "3"] /\ Py.contains "grade" (Py.lower "Histologic Grade: 2") = true.
Proof. apply (normalize_grade_shape "Histologic Grade: 2" "2"). reflexivity. Defined.

(** ** Negation and uncertainty reach the evidence only *)

Section FlagFacts.
Variables (cleaned : string) (pid nid ndate ntype : pyval).

Lemma step_decided (st st' : xstate) (ent ent' : Ent) :
  content ent = content ent' -> decided st = decided st' ->
  decided (step cleaned pid nid ndate ntype st ent)
  = decided (step cleaned pid nid ndate ntype st' ent').
Proof.
  unfold content, decided. intros [= Hl Ht Hs] [= Hp He Hi Hf].
  unfold step, receptor_branch. rewrite <- Hl, <- Ht, <- Hs, <- Hp.
  repeat match goal with
         | |- context [if String.eqb (label_ ent) ?l then _ else _] =>
             destruct (String.eqb (label_ ent) l)
         | |- context [if Py.startswith ?a ?b then _ else _] => destruct (Py.startswith a b)
         | |- context [if Py.mem ?a ?b then _ else _] => destruct (Py.mem a b)
         | |- context [if negb ?b then _ else _] => destruct (negb b)
         | |- context [if str_truthy ?b then _ else _] => destruct (str_truthy b)
         | |- context [match ?o with Some _ => _ | None => _ end] => destruct o
         end;
    cbn [add_ev set_pheno phenos her2_explicit her2_ihc her2_fish];
    congruence.
Qed.

Lemma fold_step_decided (ents ents' : list Ent) :
  map content ents = map content ents' ->
  forall st st', decided st = decided st' ->
  decided (fold_left (step cleaned pid nid ndate ntype) ents st)
  = decided (fold_left (step cleaned pid nid ndate ntype) ents' st').
Proof.
  revert ents'. induction ents as [|e ents IH]; intros [|e' ents'] Hc st st' Hst;
    try discriminate Hc; cbn [fold_left]; [exact Hst|].
  cbn [map] in Hc.
  assert (He : content e = content e') by congruence.
  assert (Hc' : map content ents = map content ents') by congruence.
  apply IH; [exact Hc'|]. now apply step_decided.
Qed.

Lemma finish_decided (st st' : xstate) :
  decided st = decided st' -> (finish cleaned st).1 = (finish cleaned st').1.
Proof.
  unfold decided. intros [= Hp He Hi Hf]. unfold finish. rewrite Hp, He, Hi, Hf.
  now destruct (reconcile_her2 _ _ _) as [[a b] c].
Qed.

End FlagFacts.

(** X20.  The negation and uncertainty flags of a mention, and its offsets,
    reach the evidence rows only: two recognisers whose mentions agree in
    label, span and sentence give the same note record.  A negated mention
    sets the fields of the note as an affirmed one does. *)
Theorem extract_note_ignores_flags (nlp nlp' : string -> list Ent) (note_text : string)
    (pid nid ndate ntype : pyval) :
  map content (nlp (clean_text note_text)) = map content (nlp' (clean_text note_text)) ->
  (extract_note nlp note_text pid nid ndate ntype).1
  = (extract_note nlp' note_text pid nid ndate ntype).1.
Proof.
  intros Hc. unfold extract_note. cbn zeta. apply finish_decided.
  unfold run_ents. now apply fold_step_decided.
Qed.

Lemma extract_note_ignores_flags_witness :
  (extract_note Her2Note.nlp Her2Note.note_text (VStr "p1") (VStr "n1") VNone VNone).1
  = (extract_note nlp_flagged Her2Note.note_text (VStr "p1") (VStr "n1") VNone VNone).1.
Proof. apply extract_note_ignores_flags. reflexivity. Defined.

(** ** The snippet of an evidence row *)

Lemma substring_piece (s : string) :
  forall n m, exists pre post,
    s = pre +:+ substring n m s +:+ post
    /\ String.length pre = Nat.min n (String.length s)
    /\ (String.length (substring n m s) <= m)%nat.
Proof.
  induction s as [|c s IH]; intros n m.
  - exists "", "". destruct n, m; cbn; repeat split; lia.
  - destruct n as [|n].
    + destruct m as [|m].
      * exists "", (String c s). cbn. repeat split; lia.
      * destruct (IH 0%nat m) as (pre & post & Hs & Hpre & Hlen).
        destruct pre; [|discriminate Hpre].
        exists "", post. cbn [substring]. split; [|split].
        -- change (String c s = String c (substring 0 m s +:+ post)).
           f_equal. exact Hs.
        -- reflexivity.
        -- cbn [String.length]. lia.
    + destruct (IH n m) as (pre & post & Hs & Hpre & Hlen).
      exists (String c pre), post. cbn [substring]. split; [|split].
      * change (String c s = String c (pre +:+ substring n m s +:+ post)).
        f_equal. exact Hs.
      * cbn [String.length]. lia.
      * exact Hlen.
Qed.

Section SnippetFacts.
Variables (cleaned : string) (pid nid ndate ntype : pyval).

Lemma write_snippet (ent : Ent) (st st' : xstate) :
  write cleaned pid nid ndate ntype ent st st' ->
  exists e, evidence st' = evidence st ++ [e]
            /\ snippet e
               = substring (start e - 80)
                   (Nat.min (end_ e + 80) (String.length cleaned) - (start e - 80)) cleaned.
Proof. intros Hw. destruct Hw; eexists; split; reflexivity. Qed.

Lemma run_ents_snippet (ents : list Ent) :
  Forall (fun e => snippet e
                   = substring (start e - 80)
                       (Nat.min (end_ e + 80) (String.length cleaned) - (start e - 80)) cleaned)
         (evidence (run_ents cleaned pid nid ndate ntype ents)).
Proof.
  apply (run_ents_invariant cleaned pid nid ndate ntype
           (fun st => Forall _ (evidence st))); [constructor|].
  intros ent st st' _ Hall Hw.
  destruct (write_snippet ent st st' Hw) as (e & -> & He).
  apply Forall_app. split; [exact Hall|]. now constructor.
Qed.

End SnippetFacts.

(** X21.  The snippet of every evidence row is a piece of the cleaned text
    of the note: it begins 80 characters before the mention, or where the
    text begins, and is no longer than the mention with 80 characters on
    either side. *)
Theorem extract_note_snippet (nlp : string -> list Ent) (note_text : string)
    (pid nid ndate ntype : pyval) :
  Forall (fun e => exists pre post,
            clean_text note_text = pre +:+ snippet e +:+ post
            /\ String.length pre
               = Nat.min (start e - 80) (String.length (clean_text note_text))
            /\ (String.length (snippet e) <= end_ e + 80 - (start e - 80))%nat)
         (extract_note nlp note_text pid nid ndate ntype).2.
Proof.
  unfold extract_note. cbn zeta. rewrite finish_evidence.
  eapply Forall_impl; [apply run_ents_snippet|].
  intros e He. cbn beta in He.
  destruct (substring_piece (clean_text note_text) (start e - 80)
              (Nat.min (end_ e + 80) (String.length (clean_text note_text)) - (start e - 80)))
    as (pre & post & Hs & Hpre & Hlen).
  rewrite <- He in Hs, Hlen. exists pre, post. repeat split; [exact Hs|exact Hpre|lia].
Qed.

(** ** The values of a note record *)

Lemma find_percent_range (re : Re.regex) (window : string) (z : Z) :
  find_percent re window = Some z -> percent_value (VInt z) = true.
Proof.
  unfold find_percent. destruct (Re.search re window) as [m|]; [|discriminate].
  cbn zeta. destruct (_ && _) eqn:E; [|discriminate]. now intros [= <-].
Qed.

Lemma normalize_percent_range (text : string) (z : Z) :
  normalize_percent text = Some z -> percent_value (VInt z) = true.
Proof.
  unfold normalize_percent. destruct (String.eqb text ""); [discriminate|].
  destruct (Re.search _ _) as [m|]; [|discriminate].
  cbn zeta. destruct (_ && _) eqn:E; [|discriminate]. now intros [= <-].
Qed.

Lemma normalize_histology_values (text h : string) :
  normalize_histology text = Some h ->
  Py.mem h ["Mixed"; "DCIS"; "IDC"; "ILC"] = true.
Proof.
  unfold normalize_histology. destruct (String.eqb text ""); [discriminate|]. cbn zeta.
  repeat match goal with
         | |- (if ?b then _ else _) = Some _ -> _ => destruct b
         end; try discriminate; now intros [= <-].
Qed.

Lemma normalize_grade_values (text g : string) :
  normalize_grade text = Some g -> Py.mem g ["1"; "2"; "3"] = true.
Proof.
  unfold normalize_grade. destruct (String.eqb text ""); [discriminate|]. cbn zeta.
  destruct (Re.search _ _) as [m|]; [|discriminate].
  destruct (Py.mem _ _) eqn:E; [|discriminate]. now intros [= <-].
Qed.

(** The status [reconcile_her2] decides, taken through [normalize_status]
    as [extract_note] takes it. *)
Lemma reconcile_her2_domain (ihc fish explicit : option string) :
  in_domain "her2_status"
    (of_opt (normalize_status (of_opt (reconcile_her2 ihc fish explicit).1.1))) = true.
Proof.
  assert (Hv : forall s, In s ["Positive"; "Negative"; "Equivocal"] ->
                         in_domain "her2_status" (of_opt (normalize_status (VStr s))) = true).
  { intros s [<- | [<- | [<- | []]]]; reflexivity. }
  unfold reconcile_her2. cbn zeta.
  destruct (fish_to_status _) as [s|] eqn:Hf.
  { rewrite (fish_status_truthy _ _ Hf). cbn [fst of_opt]. apply Hv.
    destruct (fish_to_status_values _ _ Hf) as [-> | ->]; cbn; tauto. }
  cbn [str_truthy].
  destruct (ihc_to_status _) as [s|] eqn:Hi.
  { rewrite (ihc_status_truthy _ _ Hi). cbn [fst of_opt]. apply Hv.
    exact (ihc_to_status_values _ _ Hi). }
  cbn [str_truthy].
  destruct (normalize_status (of_opt (strip_opt explicit))) as [s|] eqn:He; [|reflexivity].
  cbn [opt_mem]. destruct (Py.mem s _) eqn:Hs; [|reflexivity].
  cbn [fst of_opt]. apply Hv.
  unfold Py.mem in Hs. cbn [existsb] in Hs.
  rewrite !orb_true_iff, !String.eqb_eq in Hs. cbn [In].
  destruct Hs as [Hs | [Hs | [Hs | Hs]]]; [| | |discriminate]; rewrite Hs; tauto.
Qed.

Lemma valid_insert (ph : gmap string pyval) (k : string) (v : pyval) :
  in_domain k v = true -> valid_record ph -> valid_record (<[k := v]> ph).
Proof.
  intros Hv Hph. unfold valid_record in *. eapply Forall_impl; [exact Hph|].
  intros f Hf. cbn beta in *. rewrite get_insert.
  destruct (String.eqb f k) eqn:E; [|exact Hf].
  apply String.eqb_eq in E as ->. exact Hv.
Qed.

Section DomainFacts.
Variables (cleaned : string) (pid nid ndate ntype : pyval).

Lemma receptor_branch_valid (sf pf status : string) (find : string -> option Z)
    (ent : Ent) (st : xstate) :
  in_domain sf (of_opt (normalize_status (VStr status))) = true ->
  (forall w z, find w = Some z -> in_domain pf (VInt z) = true) ->
  valid st ->
  valid (receptor_branch cleaned pid nid ndate ntype sf pf status find ent st).
Proof.
  intros Hs Hp [Hph Hfish]. unfold receptor_branch.
  destruct (find (sent_text ent)) as [pct|] eqn:E; (split; [|exact Hfish]);
    cbn [add_ev set_pheno phenos].
  - apply valid_insert; [exact (Hp _ _ E)|]. now apply valid_insert.
  - now apply valid_insert.
Qed.

Lemma step_valid (st : xstate) (ent : Ent) :
  valid st -> valid (step cleaned pid nid ndate ntype st ent).
Proof.
  intros Hst. pose proof Hst as [Hph Hfish]. unfold step.
  destruct (String.eqb (label_ ent) "ER_POS");
    [apply receptor_branch_valid;
     [reflexivity|intros w z Hz; exact (find_percent_range _ _ _ Hz)|exact Hst]|].
  destruct (String.eqb (label_ ent) "ER_NEG");
    [apply receptor_branch_valid;
     [reflexivity|intros w z Hz; exact (find_percent_range _ _ _ Hz)|exact Hst]|].
  destruct (String.eqb (label_ ent) "PR_POS");
    [apply receptor_branch_valid;
     [reflexivity|intros w z Hz; exact (find_percent_range _ _ _ Hz)|exact Hst]|].
  destruct (String.eqb (label_ ent) "PR_NEG");
    [apply receptor_branch_valid;
     [reflexivity|intros w z Hz; exact (find_percent_range _ _ _ Hz)|exact Hst]|].
  destruct (String.eqb (label_ ent) "HER2_IHC"); [now split|].
  destruct (String.eqb (label_ ent) "HER2_POS"); [now split|].
  destruct (String.eqb (label_ ent) "HER2_NEG"); [now split|].
  destruct (String.eqb (label_ ent) "HER2_FISH_POS"); [now split|].
  destruct (String.eqb (label_ ent) "HER2_FISH_NEG"); [now split|].
  destruct (String.eqb (label_ ent) "KI67").
  { destruct (normalize_percent (text ent)) as [val|] eqn:E; [|exact Hst].
    split; [|exact Hfish]. cbn [add_ev set_pheno phenos].
    apply valid_insert; [|exact Hph]. exact (normalize_percent_range _ _ E). }
  destruct (Py.startswith "HISTOLOGY_" (label_ ent)).
  { destruct (normalize_histology _) as [h|] eqn:E; [|exact Hst].
    destruct (str_truthy (Some h)); [|exact Hst].
    split; [|exact Hfish]. cbn [add_ev set_pheno phenos].
    apply valid_insert; [|exact Hph]. exact (normalize_histology_values _ _ E). }
  destruct (String.eqb (label_ ent) "GRADE").
  { destruct (normalize_grade _) as [g|] eqn:E; [|exact Hst].
    destruct (str_truthy (Some g)); [|exact Hst].
    split; [|exact Hfish]. cbn [add_ev set_pheno phenos].
    apply valid_insert; [|exact Hph]. exact (normalize_grade_values _ _ E). }
  destruct (Py.mem (label_ ent) _); [|exact Hst].
  destruct (normalize_stage _) as [s|]; [|exact Hst].
  destruct (negb (str_truthy (Some s))); [exact Hst|].
  repeat match goal with
         | |- valid (if ?b then _ else _) => destruct b
         end; try exact Hst;
    (split; [|exact Hfish]); cbn [add_ev set_pheno phenos];
    (apply valid_insert; [reflexivity|exact Hph]).
Qed.

Lemma run_ents_valid (ents : list Ent) : valid (run_ents cleaned pid nid ndate ntype ents).
Proof.
  unfold run_ents.
  assert (Hinit : valid (init_state pid nid ndate ntype)).
  { split; [|reflexivity]. repeat constructor. }
  revert Hinit. generalize (init_state pid nid ndate ntype).
  induction ents as [|e ents IH]; intros st Hst; cbn [fold_left]; [exact Hst|].
  apply IH. now apply step_valid.
Qed.

Lemma status_fallback_valid (k : string) (pos neg : Re.regex) (ph : gmap string pyval) :
  In k ["er_status"; "pr_status"] -> valid_record ph ->
  valid_record (status_fallback cleaned k pos neg ph).
Proof.
  intros Hk Hph. unfold status_fallback.
  destruct (is_none _); [|exact Hph].
  destruct (found pos cleaned);
    [apply valid_insert; [|exact Hph]; destruct Hk as [<- | [<- | []]]; reflexivity|].
  destruct (found neg cleaned); [|exact Hph].
  apply valid_insert; [|exact Hph]. destruct Hk as [<- | [<- | []]]; reflexivity.
Qed.

Lemma percent_fallback_valid (k : string) (re : Re.regex) (ph : gmap string pyval) :
  In k ["er_percent"; "pr_percent"] -> valid_record ph ->
  valid_record (percent_fallback cleaned k (find_percent re) ph).
Proof.
  intros Hk Hph. unfold percent_fallback.
  destruct (is_none _); [|exact Hph].
  destruct (find_percent re cleaned) as [p|] eqn:E; [|exact Hph].
  apply valid_insert; [|exact Hph].
  pose proof (find_percent_range _ _ _ E) as Hr.
  destruct Hk as [<- | [<- | []]]; exact Hr.
Qed.

Lemma finish_valid (st : xstate) : valid st -> valid_record (finish cleaned st).1.
Proof.
  intros [Hph Hfish]. unfold finish.
  pose proof (reconcile_her2_domain (her2_ihc st) (her2_fish st) (her2_explicit st)) as Hs.
  destruct (reconcile_her2_texts (her2_ihc st) (her2_fish st) (her2_explicit st)) as [_ Hf].
  destruct (reconcile_her2 _ _ _) as [[a b] c]. cbn [fst snd] in *. subst c.
  apply valid_insert.
  { destruct (her2_fish st) as [sv|]; [|reflexivity]. cbn [of_opt one_of_strings] in Hfish.
    rewrite orb_false_r in Hfish. unfold Py.mem in Hfish. cbn [existsb] in Hfish.
    rewrite !orb_true_iff, !String.eqb_eq in Hfish.
    destruct Hfish as [-> | [-> | Hfish]]; [reflexivity|reflexivity|discriminate]. }
  apply valid_insert; [exact (orb_true_r _)|].
  apply valid_insert; [exact Hs|].
  unfold _find_er_percent, _find_pr_percent.
  repeat (apply percent_fallback_valid; [cbn; tauto|]).
  repeat (apply status_fallback_valid; [cbn; tauto|]).
  exact Hph.
Qed.

End DomainFacts.

(** X22.  The values of a note record.  Whatever the note and the
    recogniser, the ER and PR status of the record are none, Positive or
    Negative; the three percents are none or an integer from 0 to 100; the
    HER2 status is none, Positive, Negative or Equivocal; the FISH text is
    none, Amplified or Not amplified; the histology is none or one of Mixed,
    DCIS, IDC, ILC; the grade is none or 1, 2 or 3. *)
Theorem extract_note_values_valid (nlp : string -> list Ent) (note_text : string)
    (pid nid ndate ntype : pyval) :
  Forall (fun f => in_domain f (get (extract_note nlp note_text pid nid ndate ntype).1 f) = true)
         domain_fields.
Proof.
  unfold extract_note. cbn zeta. apply finish_valid, run_ents_valid.
Qed.
